(** * simple_server.py: the ESP32 message server, embedded in Rocq

    The development follows [src/simple_server.py]: the class
    [ESP32RequestHandler] with its class variable [message_count] and
    its two handlers [do_POST] and [do_GET].

    - Module [Py] models the Python built-ins the handlers call:
      [bytes.decode('utf-8')], [str.encode('utf-8')], [str.lower],
      [str.strip], [str.split], [in], [int], [float], [/] on floats,
      the format specification [.3f], [repr] and [strftime].
    - Module [Server] holds the handler itself, written in a small
      state-and-exception monad so that it reads line by line like the
      Python text, and the sequential request loop around it.
    - Modules [PyFacts], [Run] and [Properties] hold the proofs: facts
      about the built-ins, the two handlers in closed form, and the
      properties of the server.
    - Modules [Utf8] and [Numerals] show that the built-ins undo each
      other: [decode] and [encode], [int] and [str]; module [Doubles]
      shows that a whole number of milliseconds, divided by 1000 as a
      double, is still that number of thousandths.
    - Module [Further] holds properties of requests of both kinds in
      any order, of the console, of the payload and the headers, and of
      [run_server]. *)

From Stdlib Require Import ZArith NArith List String Ascii Bool Lia.
From Stdlib Require Import DecimalString.
From Stdlib Require DecimalFacts DecimalPos DecimalN DecimalZ.
From Stdlib Require Import SpecFloat.
Import ListNotations.

Local Open Scope N_scope.

(* ================================================================== *)
(** * Python built-ins *)
(* ================================================================== *)

Module Py.

(** ** The three kinds of text

    - [bytes]: what travels on the socket. A Rocq [string] is a sequence
      of 8-bit characters, so it is used as the type of byte strings.
    - [latin1]: the [str] values the HTTP layer hands to the handler
      (header names and values, the request path, the client address).
      [http.server] decodes them as ISO-8859-1, one character per byte,
      so every code point is below 256: again a Rocq [string].
    - [pystr]: a general Python [str], a sequence of Unicode code
      points. The decoded payload and everything printed is a [pystr]. *)

Definition bytes := string.
Definition latin1 := string.
Definition pystr := list N.

Definition codes (s : string) : list N :=
  map N_of_ascii (list_ascii_of_string s).

Definition of_codes (l : list N) : string :=
  string_of_list_ascii (map ascii_of_N l).

(** a Latin-1 [str] seen as a general [str] *)
Definition str_of_latin1 (s : latin1) : pystr := codes s.

(** ** Exceptions *)

Inductive exn : Type :=
| ValueError
| UnicodeDecodeError
| UnicodeEncodeError
| OverflowError
| MemoryError.

Inductive result (A : Type) : Type :=
| Ok (a : A)
| Raise (e : exn).

Arguments Ok {A} a.
Arguments Raise {A} e.

Definition of_option {A : Type} (e : exn) (o : option A) : result A :=
  match o with
  | Some a => Ok a
  | None => Raise e
  end.

(** ** [bytes.decode('utf-8')], error handler 'strict'

    The well-formed byte sequences are those of table 3-7 of the Unicode
    standard: no overlong form, no surrogate, nothing above U+10FFFF. *)

Definition in_range (lo hi b : N) : bool := (lo <=? b) && (b <=? hi).

Definition is_cont (b : N) : bool := in_range 0x80 0xBF b.

Definition second_of_three (b0 b1 : N) : bool :=
  if b0 =? 0xE0 then in_range 0xA0 0xBF b1
  else if b0 =? 0xED then in_range 0x80 0x9F b1
  else is_cont b1.

Definition second_of_four (b0 b1 : N) : bool :=
  if b0 =? 0xF0 then in_range 0x90 0xBF b1
  else if b0 =? 0xF4 then in_range 0x80 0x8F b1
  else is_cont b1.

Fixpoint utf8_decode_codes (bs : list N) : option pystr :=
  match bs with
  | [] => Some []
  | b0 :: t0 =>
    if b0 <? 0x80 then
      option_map (cons b0) (utf8_decode_codes t0)
    else if in_range 0xC2 0xDF b0 then
      match t0 with
      | b1 :: t1 =>
        if is_cont b1 then
          option_map (cons ((b0 - 0xC0) * 64 + (b1 - 0x80)))
                     (utf8_decode_codes t1)
        else None
      | _ => None
      end
    else if in_range 0xE0 0xEF b0 then
      match t0 with
      | b1 :: b2 :: t2 =>
        if second_of_three b0 b1 && is_cont b2 then
          option_map
            (cons ((b0 - 0xE0) * 4096 + (b1 - 0x80) * 64 + (b2 - 0x80)))
            (utf8_decode_codes t2)
        else None
      | _ => None
      end
    else if in_range 0xF0 0xF4 b0 then
      match t0 with
      | b1 :: b2 :: b3 :: t3 =>
        if second_of_four b0 b1 && is_cont b2 && is_cont b3 then
          option_map
            (cons ((b0 - 0xF0) * 262144 + (b1 - 0x80) * 4096
                   + (b2 - 0x80) * 64 + (b3 - 0x80)))
            (utf8_decode_codes t3)
        else None
      | _ => None
      end
    else None
  end.

Definition utf8_decode (b : bytes) : result pystr :=
  of_option UnicodeDecodeError (utf8_decode_codes (codes b)).

(** ** [str.encode('utf-8')]: fails on a surrogate only *)

Definition utf8_encode_cp (c : N) : option (list N) :=
  if c <? 0x80 then Some [c]
  else if c <? 0x800 then Some [0xC0 + c / 64; 0x80 + c mod 64]
  else if c <? 0x10000 then
    if in_range 0xD800 0xDFFF c then None
    else Some [0xE0 + c / 4096; 0x80 + (c / 64) mod 64; 0x80 + c mod 64]
  else if c <? 0x110000 then
    Some [0xF0 + c / 262144; 0x80 + (c / 4096) mod 64;
          0x80 + (c / 64) mod 64; 0x80 + c mod 64]
  else None.

Fixpoint utf8_encode_codes (s : pystr) : option (list N) :=
  match s with
  | [] => Some []
  | c :: t =>
    match utf8_encode_cp c, utf8_encode_codes t with
    | Some x, Some y => Some (x ++ y)
    | _, _ => None
    end
  end.

Definition utf8_encode (s : pystr) : result bytes :=
  of_option UnicodeEncodeError (option_map of_codes (utf8_encode_codes s)).

(** a Unicode scalar value: a code point that is not a surrogate *)
Definition scalar (c : N) : bool :=
  (c <? 0xD800) || ((0xDFFF <? c) && (c <? 0x110000)).

(** the [str] values that [encode] accepts, and those in ASCII *)
Definition encodable (s : pystr) : bool := forallb scalar s.

Definition plain (s : pystr) : bool := forallb (fun c => c <? 0x80) s.

(** A [str] literal of the source file. The Python file is UTF-8, and so
    is this one: the literal's bytes are decoded into code points. *)
Definition u (lit : string) : pystr :=
  match utf8_decode_codes (codes lit) with
  | Some s => s
  | None => []
  end.

(** ** [str] methods used by the handler *)

(** [s * n] for a [str] *)
Fixpoint str_repeat (s : pystr) (n : nat) : pystr :=
  match n with
  | O => []
  | S k => s ++ str_repeat s k
  end.

(** [str.lower()]. ASCII and Latin-1 capitals go to their small letters.
    Two more code points have a lowercase form that contains an ASCII
    letter: U+0130 (to "i" followed by U+0307) and U+212A, the Kelvin
    sign (to "k"). Every other code point from U+0100 on has a lowercase
    form without any ASCII character and is left as it is here: that
    cannot change whether an ASCII word occurs in the result, which is
    all the handler asks of a lowercased string. *)
Definition lower_cp (c : N) : pystr :=
  if in_range 0x41 0x5A c then [c + 32]
  else if in_range 0xC0 0xDE c && negb (c =? 0xD7) then [c + 32]
  else if c =? 0x130 then [0x69; 0x307]
  else if c =? 0x212A then [0x6B]
  else [c].

Definition str_lower (s : pystr) : pystr := flat_map lower_cp s.

(** [str.isspace] on one character: the Unicode white space *)
Definition is_space (c : N) : bool :=
  in_range 0x09 0x0D c || in_range 0x1C 0x20 c
  || (c =? 0x85) || (c =? 0xA0) || (c =? 0x1680)
  || in_range 0x2000 0x200A c || (c =? 0x2028) || (c =? 0x2029)
  || (c =? 0x202F) || (c =? 0x205F) || (c =? 0x3000).

Fixpoint drop_while (p : N -> bool) (s : list N) : list N :=
  match s with
  | [] => []
  | c :: t => if p c then drop_while p t else s
  end.

Definition strip_with (p : N -> bool) (s : list N) : list N :=
  rev (drop_while p (rev (drop_while p s))).

(** [str.strip()] *)
Definition str_strip (s : pystr) : pystr := strip_with is_space s.

(** [str.split('\n')]: never empty, [''.split('\n') == ['']] *)
Fixpoint str_split_lf (s : pystr) : list pystr :=
  match s with
  | [] => [[]]
  | c :: t =>
    if c =? 0x0A then [] :: str_split_lf t
    else match str_split_lf t with
         | l :: ls => (c :: l) :: ls
         | [] => [[c]]
         end
  end.

Definition codes_eqb (a b : list N) : bool :=
  if list_eq_dec N.eq_dec a b then true else false.

Fixpoint starts_with (p s : list N) : bool :=
  match p, s with
  | [], _ => true
  | _ :: _, [] => false
  | a :: p', b :: s' => (a =? b) && starts_with p' s'
  end.

(** [p in s] for two [str] *)
Fixpoint str_in (p s : pystr) : bool :=
  starts_with p s
  || match s with
     | [] => false
     | _ :: t => str_in p t
     end.

(** [any(f(x) for x in l)] *)
Definition any {A : Type} (f : A -> bool) (l : list A) : bool := existsb f l.

(** ** Numbers *)

Local Open Scope Z_scope.

(** [str(n)] for an [int] *)
Definition str_of_int (z : Z) : pystr :=
  codes (NilZero.string_of_int (Z.to_int z)).

(** a non-negative number in decimal, padded with zeros on the left *)
Definition zero_pad (width : nat) (z : Z) : pystr :=
  let s := str_of_int z in
  str_repeat [0x30%N] (width - List.length s) ++ s.

Definition is_digit (c : N) : bool := in_range 0x30 0x39 c.

(** the C locale's [isspace], which [int] and [float] strip with *)
Definition is_c_space (c : N) : bool :=
  in_range 0x09 0x0D c || (c =? 0x20)%N.

(** [int] and [float] first bring their argument to ASCII: a character
    from 127 on becomes a blank when it is white space, a digit when it
    is a decimal digit (there is none in Latin-1), and "?" otherwise. *)
Definition to_number_char (c : N) : N :=
  if (c <? 127)%N then c else if is_space c then 0x20%N else 0x3F%N.

(** An underscore may only stand between two digits; [prev] is the
    character before [s], NUL at the start. *)
Fixpoint underscores_ok (prev : N) (s : list N) : bool :=
  match s with
  | [] => negb (prev =? 0x5F)%N
  | c :: t =>
    (if (c =? 0x5F)%N then is_digit prev
     else negb (prev =? 0x5F)%N || is_digit c)
    && underscores_ok c t
  end.

Definition without_underscores (s : list N) : list N :=
  filter (fun c => negb (c =? 0x5F)%N) s.

(** the number written by a sequence of decimal digits *)
Definition digits_value (ds : list N) : Z :=
  fold_left (fun acc d => acc * 10 + (Z.of_N d - 0x30)) ds 0.

(** an optional sign: [true] for "-" *)
Definition split_sign (s : list N) : bool * list N :=
  match s with
  | c :: t =>
    if (c =? 0x2D)%N then (true, t)
    else if (c =? 0x2B)%N then (false, t)
    else (false, s)
  | [] => (false, [])
  end.

(** [sys.int_max_str_digits], the longest numeral [int] converts *)
Definition int_max_str_digits : nat := 4300.

(** [int(s)] for a [str]; [None] is [ValueError] *)
Definition int_of_codes (s : list N) : option Z :=
  let t := map to_number_char s in
  if underscores_ok 0%N t then
    let '(neg, body) := split_sign (strip_with is_c_space t) in
    let ds := without_underscores body in
    match ds with
    | [] => None
    | _ :: _ =>
      if forallb is_digit ds then
        if (int_max_str_digits <? List.length ds)%nat then None
        else Some (if neg then - digits_value ds else digits_value ds)
      else None
    end
  else None.

Definition int_of_str (s : latin1) : result Z :=
  of_option ValueError (int_of_codes (codes s)).

(** ** Floating point: IEEE 754 binary64, as [spec_float] *)

Definition prec : Z := 53.
Definition emax : Z := 1024.

Inductive number : Type :=
| PyInt (z : Z)
| PyFloat (f : spec_float).

(** [float(n)] for an [int] within range: the nearest double *)
Definition float_of_int (z : Z) : spec_float :=
  binary_normalize prec emax z 0 false.

(** the double nearest to [m * 10 ^ e], for [m > 0]: what a correctly
    rounded string conversion returns *)
Definition float_of_decimal (neg : bool) (m e : Z) : spec_float :=
  if 0 <=? e then
    binary_round prec emax neg (Z.to_pos (m * 10 ^ e)) 0
  else
    let '(q, e', l) := SFdiv_core_binary prec emax m 0 (10 ^ (- e)) 0 in
    binary_round_aux prec emax neg q e' l.

Fixpoint span_digits (s : list N) : list N * list N :=
  match s with
  | c :: t =>
    if is_digit c then
      let '(ds, r) := span_digits t in (c :: ds, r)
    else ([], s)
  | [] => ([], [])
  end.

Definition ascii_lower (c : N) : N :=
  if in_range 0x41 0x5A c then (c + 32)%N else c.

(** "inf", "infinity" and "nan" in any case *)
Definition inf_or_nan (neg : bool) (s : list N) : option spec_float :=
  let w := map ascii_lower s in
  if codes_eqb w (codes "inf") || codes_eqb w (codes "infinity")
  then Some (S754_infinity neg)
  else if codes_eqb w (codes "nan") then Some S754_nan
  else None.

(** the exponent part: empty, or "e", an optional sign and digits *)
Definition exponent_of (s : list N) : option Z :=
  match s with
  | [] => Some 0
  | c :: t =>
    if (ascii_lower c =? 0x65)%N then
      let '(neg, r) := split_sign t in
      match span_digits r with
      | ((_ :: _) as ds, []) =>
        Some (if neg then - digits_value ds else digits_value ds)
      | _ => None
      end
    else None
  end.

(** digits, an optional point, digits, an optional exponent *)
Definition decimal_of (neg : bool) (s : list N) : option spec_float :=
  let '(ip, r) := span_digits s in
  let '(fp, r') :=
    match r with
    | c :: t => if (c =? 0x2E)%N then span_digits t else ([], r)
    | [] => ([], [])
    end in
  match ip ++ fp with
  | [] => None
  | _ :: _ =>
    match exponent_of r' with
    | Some ex =>
      let m := digits_value (ip ++ fp) in
      if m =? 0 then Some (S754_zero neg)
      else Some (float_of_decimal neg m (ex - Z.of_nat (List.length fp)))
    | None => None
    end
  end.

(** [float(s)] for a [str]; [None] is [ValueError] *)
Definition float_of_codes (s : list N) : option spec_float :=
  let t := map to_number_char s in
  if underscores_ok 0%N t then
    let '(neg, body) :=
      split_sign (strip_with is_c_space (without_underscores t)) in
    match decimal_of neg body with
    | Some f => Some f
    | None => inf_or_nan neg body
    end
  else None.

Definition float_of_str (s : latin1) : result spec_float :=
  of_option ValueError (float_of_codes (codes s)).

(** [x / n] for a [float] and a non-zero [int] *)
Definition float_div_int (x : spec_float) (n : Z) : spec_float :=
  SFdiv prec emax x (float_of_int n).

(** the integer nearest to [n / d], ties to even ([0 <= n], [0 < d]) *)
Definition div_half_even (n d : Z) : Z :=
  let q := n / d in
  match 2 * (n mod d) ?= d with
  | Lt => q
  | Gt => q + 1
  | Eq => if Z.even q then q else q + 1
  end.

Definition sign_text (neg : bool) : pystr := if neg then u "-" else [].

(** [m * 2 ^ e] in thousandths, rounded to an integer *)
Definition thousandths (m : positive) (e : Z) : Z :=
  if 0 <=? e then Zpos m * 2 ^ e * 1000
  else div_half_even (Zpos m * 1000) (2 ^ (- e)).

(** [k] thousandths in fixed-point notation: "12.345" for 12345 *)
Definition fixed_point_3 (neg : bool) (k : Z) : pystr :=
  sign_text neg ++ str_of_int (k / 1000) ++ u "." ++ zero_pad 3 (k mod 1000).

(** [format(x, '.3f')] for a [float]: the exact value of the double,
    rounded to three decimals, ties to even *)
Definition format_float_3f (x : spec_float) : pystr :=
  match x with
  | S754_nan => u "nan"
  | S754_infinity s => sign_text s ++ u "inf"
  | S754_zero s => sign_text s ++ u "0.000"
  | S754_finite s m e => fixed_point_3 s (thousandths m e)
  end.

(** [format(v, '.3f')]: an [int] is converted to [float] first (the
    handler formats the [int] 0 only) *)
Definition format_3f (v : number) : pystr :=
  match v with
  | PyInt z => format_float_3f (float_of_int z)
  | PyFloat f => format_float_3f f
  end.

Definition is_finite (x : spec_float) : bool :=
  match x with
  | S754_zero _ | S754_finite _ _ _ => true
  | S754_infinity _ | S754_nan => false
  end.

(** [k / 1000] is the decimal with three places nearest to [m * 2 ^ e];
    where [m * 2 ^ e] lies half way between two of them, it is the one
    whose last digit is even *)
Definition nearest_thousandth (m : positive) (e k : Z) : Prop :=
  if 0 <=? e then k = Zpos m * 2 ^ e * 1000
  else
    let d := 2 ^ (- e) in
    let gap := Z.abs (k * d - Zpos m * 1000) in
    2 * gap <= d /\ (2 * gap = d -> Z.even k = true).

(** a text in fixed-point notation with three decimals: an optional
    minus sign, digits, a point, three digits *)
Definition three_decimals (t : pystr) : Prop :=
  exists sign ip fp,
    t = sign ++ ip ++ u "." ++ fp
    /\ (sign = [] \/ sign = u "-")
    /\ ip <> [] /\ forallb is_digit ip = true
    /\ List.length fp = 3%nat /\ forallb is_digit fp = true.

(** is [x] the last character of [s]? *)
Fixpoint last_is (x : N) (s : pystr) : bool :=
  match s with
  | [] => false
  | c :: t =>
    match t with
    | [] => (c =? x)%N
    | _ :: _ => last_is x t
    end
  end.

(** an ASCII word without "k" that does not end in "i": a word that the
    lowercase forms of U+0130 and of the Kelvin sign cannot complete *)
Definition keyword_like (kw : pystr) : bool :=
  forallb (fun c => (c <? 0x80)%N && negb (c =? 0x6B)%N) kw
  && negb (last_is 0x69%N kw).

(** [kw] occurs in [line] when the case of ASCII letters is ignored *)
Definition contains_ignoring_case (kw line : pystr) : Prop :=
  exists before found after,
    line = before ++ found ++ after /\ map ascii_lower found = kw.

(** ** [repr] of a [str] and of a [dict] of [str] *)

Definition hex_digit (n : N) : N :=
  if (n <? 10)%N then (0x30 + n)%N else (0x57 + n)%N.

Definition printable_latin1 (c : N) : bool :=
  in_range 0x20 0x7E c || (in_range 0xA1 0xFF c && negb (c =? 0xAD)%N).

Definition repr_char (quote c : N) : pystr :=
  if (c =? quote)%N || (c =? 0x5C)%N then [0x5C%N; c]
  else if (c =? 0x09)%N then [0x5C%N; 0x74%N]
  else if (c =? 0x0A)%N then [0x5C%N; 0x6E%N]
  else if (c =? 0x0D)%N then [0x5C%N; 0x72%N]
  else if printable_latin1 c then [c]
  else [0x5C%N; 0x78%N; hex_digit (c / 16)%N; hex_digit (c mod 16)%N].

Definition repr_str (s : latin1) : pystr :=
  let cs := codes s in
  let quote :=
    if existsb (N.eqb 0x27) cs && negb (existsb (N.eqb 0x22) cs)
    then 0x22%N else 0x27%N in
  quote :: flat_map (repr_char quote) cs ++ [quote].

(** a [dict] keeps its keys in the order of their first insertion *)
Definition dict := list (latin1 * latin1).

Fixpoint dict_set (d : dict) (k v : latin1) : dict :=
  match d with
  | [] => [(k, v)]
  | (k', v') :: t =>
    if String.eqb k' k then (k', v) :: t else (k', v') :: dict_set t k v
  end.

Fixpoint str_join (sep : pystr) (l : list pystr) : pystr :=
  match l with
  | [] => []
  | [x] => x
  | x :: t => x ++ sep ++ str_join sep t
  end.

Definition repr_dict (d : dict) : pystr :=
  u "{"
  ++ str_join (u ", ")
       (map (fun kv => repr_str (fst kv) ++ u ": " ++ repr_str (snd kv)) d)
  ++ u "}".

(** ** [datetime] *)

Record datetime : Type := {
  year : Z; month : Z; day : Z;
  hour : Z; minute : Z; second : Z; microsecond : Z
}.

(** [strftime("%Y-%m-%d %H:%M:%S")]; the year of a running clock has
    four digits *)
Definition strftime_seconds (t : datetime) : pystr :=
  zero_pad 4 (year t) ++ u "-" ++ zero_pad 2 (month t) ++ u "-"
  ++ zero_pad 2 (day t) ++ u " " ++ zero_pad 2 (hour t) ++ u ":"
  ++ zero_pad 2 (minute t) ++ u ":" ++ zero_pad 2 (second t).

(** [strftime("%Y-%m-%d %H:%M:%S.%f")] *)
Definition strftime_micros (t : datetime) : pystr :=
  strftime_seconds t ++ u "." ++ zero_pad 6 (microsecond t).

(** [s[:-n]] *)
Definition drop_last (n : nat) (s : pystr) : pystr :=
  firstn (List.length s - n) s.

(** [str(n)] as a Latin-1 text, the way a client writes a number into
    a header *)
Definition numeral (z : Z) : latin1 := NilZero.string_of_int (Z.to_int z).

(** a [datetime] of a running clock: the fields are in their ranges and
    the year has four digits *)
Definition on_the_clock (t : datetime) : Prop :=
  1000 <= year t <= 9999 /\ 1 <= month t <= 12 /\ 1 <= day t <= 31
  /\ 0 <= hour t <= 23 /\ 0 <= minute t <= 59 /\ 0 <= second t <= 59
  /\ 0 <= microsecond t <= 999999.

(** where [num / den] lies between [q] and [q + 1]: what [new_location]
    of [SpecFloat] computes from the remainder of a division *)
Definition located (q num den : Z) : location :=
  if num - q * den =? 0 then loc_Exact
  else loc_Inexact (2 * (num - q * den) ?= den).

End Py.

(* ================================================================== *)
(** * The request handler *)
(* ================================================================== *)

Module Server.
Import Py.

Bind Scope string_scope with latin1 bytes.

Local Open Scope Z_scope.

(** ** The world a handler runs in *)

(** The calls that a handler makes to answer its client, one
    constructor for each method of the base class that the handlers
    call. [Status code] is the call [send_response(code)]: the base
    class writes the status line and, after it, a Server and a Date
    header of its own. What reaches the client is what the base class
    makes of these calls (nothing but the body for an HTTP/0.9
    request). *)
Inductive wire : Type :=
| Status (code : Z)           (* send_response(code) *)
| Header (name value : latin1) (* send_header(name, value) *)
| EndHeaders                  (* end_headers() *)
| Body (data : bytes).        (* wfile.write(data) *)

Record world : Type := {
  message_count : Z;    (* the class variable ESP32RequestHandler.message_count *)
  stdout : list pystr;  (* the console: one entry per call of print *)
  rfile : bytes;        (* the bytes of the connection still to be read *)
  wfile : list wire;    (* the calls made to answer on the connection *)
  clock : datetime;     (* what datetime.now() returns *)
  room : N              (* the bytes the process can allocate beyond
                           those that the connection still holds *)
}.

(** [self]: what the HTTP layer parsed from the request *)
Record handler : Type := {
  headers : list (latin1 * latin1);
  client_address : latin1 * Z;
  path : latin1
}.

(** ** State and exceptions

    A statement either completes with a value or raises; the world it
    leaves behind is kept in both cases. *)

Definition M (A : Type) : Type := world -> result A * world.

Definition ret {A : Type} (a : A) : M A := fun w => (Ok a, w).

Definition bind {A B : Type} (m : M A) (k : A -> M B) : M B :=
  fun w =>
    match m w with
    | (Ok a, w') => k a w'
    | (Raise e, w') => (Raise e, w')
    end.

Definition lift {A : Type} (r : result A) : M A := fun w => (r, w).

Notation "x <- m ;; k" := (bind m (fun x => k))
  (at level 61, m at next level, right associativity).
Notation "m ;; k" := (bind m (fun _ => k))
  (at level 61, right associativity).

Fixpoint for_each {A : Type} (l : list A) (body : A -> M unit) : M unit :=
  match l with
  | [] => ret tt
  | x :: t => body x ;; for_each t body
  end.

Definition when (b : bool) (m : M unit) : M unit :=
  if b then m else ret tt.

(** *** The primitives *)

Definition get_message_count : M Z :=
  fun w => (Ok (message_count w), w).

Definition set_message_count (n : Z) : M unit :=
  fun w => (Ok tt, {| message_count := n; stdout := stdout w;
                      rfile := rfile w; wfile := wfile w;
                      clock := clock w; room := room w |}).

(** [print(s)]; the console takes every character (it is UTF-8) *)
Definition print (s : pystr) : M unit :=
  fun w => (Ok tt, {| message_count := message_count w;
                      stdout := stdout w ++ [s];
                      rfile := rfile w; wfile := wfile w;
                      clock := clock w; room := room w |}).

Definition bytes_take (n : nat) (b : bytes) : bytes :=
  string_of_list_ascii (firstn n (list_ascii_of_string b)).

Definition bytes_drop (n : nat) (b : bytes) : bytes :=
  string_of_list_ascii (skipn n (list_ascii_of_string b)).

(** [rfile.read(size)] on the buffered reader of the connection
    ([io.BufferedReader], CPython on a machine of 64 bits).

    The reader accepts the size -1, which reads up to the end of the
    stream, and a size from 0 on for which it can allocate the buffer:
    the reader allocates [size] bytes before it reads. [rfile] holds all
    that the client sends after the header block, and the process has
    room for these bytes and for [room] more; the wait for bytes still
    to come is not modelled. No [bytes] object has [read_limit] bytes or
    more, whatever the room. *)
Definition read_limit : Z := 2 ^ 63 - 33.

Definition readable (size : Z) (available : bytes) (room : N) : bool :=
  let held := Z.of_nat (String.length available) in
  (size =? -1)
  || ((0 <=? size)
      && ((size <=? held)
          || ((size <? read_limit) && (size <=? held + Z.of_N room)))).

(** Every other size raises, and nothing is read: a size that is no
    [Py_ssize_t] and a size for which there is no [bytes] object raise
    OverflowError, a size below -1 raises ValueError, and a size for
    which the allocation fails raises MemoryError. *)
Definition read_error (size : Z) : exn :=
  if size <? - 2 ^ 63 then OverflowError
  else if size <? -1 then ValueError
  else if read_limit <=? size then OverflowError
  else MemoryError.

(** the number of bytes that a read of an accepted size returns: [size]
    of them, or what there is when the client ends the stream before *)
Definition read_size (size : Z) (available : bytes) : nat :=
  if size =? -1 then String.length available
  else Nat.min (Z.to_nat size) (String.length available).

(** what [read(size)] returns *)
Definition read (size : Z) (available : bytes) (room : N) : result bytes :=
  if readable size available room
  then Ok (bytes_take (read_size size available) available)
  else Raise (read_error size).

Definition rfile_read (size : Z) : M bytes :=
  fun w =>
    if readable size (rfile w) (room w) then
      let n := read_size size (rfile w) in
      (Ok (bytes_take n (rfile w)),
       {| message_count := message_count w; stdout := stdout w;
          rfile := bytes_drop n (rfile w); wfile := wfile w;
          clock := clock w; room := room w |})
    else (Raise (read_error size), w).

Definition send (x : wire) : M unit :=
  fun w => (Ok tt, {| message_count := message_count w; stdout := stdout w;
                      rfile := rfile w; wfile := wfile w ++ [x];
                      clock := clock w; room := room w |}).

Definition datetime_now : M datetime := fun w => (Ok (clock w), w).

(** ** The headers of a request: [http.client.HTTPMessage] *)

Inductive value : Type :=
| Str (s : latin1)
| Int (z : Z).

(** the first header of that name, names compared without case *)
Fixpoint headers_find (h : list (latin1 * latin1)) (name : latin1)
  : option latin1 :=
  match h with
  | [] => None
  | (k, v) :: t =>
    if codes_eqb (str_lower (codes k)) (str_lower (codes name)) then Some v
    else headers_find t name
  end.

(** [headers.get(name, default)] *)
Definition headers_get (h : list (latin1 * latin1)) (name : latin1)
  (default : value) : value :=
  match headers_find h name with
  | Some v => Str v
  | None => default
  end.

(** [headers.get(name, default)] with a [str] for default *)
Definition headers_get_str (h : list (latin1 * latin1)) (name : latin1)
  (default : latin1) : latin1 :=
  match headers_find h name with
  | Some v => v
  | None => default
  end.

(** [int(x)] where [x] is a [str] or already an [int] *)
Definition int (x : value) : result Z :=
  match x with
  | Int z => Ok z
  | Str s => int_of_str s
  end.

(** ** class ESP32RequestHandler *)

Definition nl : pystr := [0x0A%N].

(** [log_message]: the access log of the base class, silenced *)
Definition log_message : M unit := ret tt.

(** [send_response(code)] logs the request and then sends the status:
    the call is recorded as [Status code], which stands for the status
    line and the Server and Date headers that the base class writes *)
Definition send_response (code : Z) : M unit :=
  log_message ;; send (Status code).

Definition send_header (name val : latin1) : M unit := send (Header name val).

Definition end_headers : M unit := send EndHeaders.

Definition wfile_write (data : bytes) : M unit := send (Body data).

(** the class variable at the start of the process (line 13) *)
Definition initial_message_count : Z := 0.

(** lines 27-28: the uptime in seconds *)
Definition uptime_seconds_of (esp32_uptime : latin1) : result number :=
  if negb (String.eqb esp32_uptime "N/A") then
    match float_of_str esp32_uptime with
    | Ok x => Ok (PyFloat (float_div_int x 1000))
    | Raise e => Raise e
    end
  else Ok (PyInt 0).

(** lines 47-48: the [dict] of the custom headers *)
Definition esp32_headers_of (h : list (latin1 * latin1)) : dict :=
  fold_left (fun d kv => dict_set d (fst kv) (snd kv))
            (filter (fun kv => String.prefix "X-ESP32-" (fst kv)) h) [].

Definition keywords : list pystr :=
  [u "counter"; u "uptime"; u "random"; u "hash"; u "heap";
   u "message number"].

(** line 62: does the line mention one of the keywords? *)
Definition mentions_keyword (line : pystr) : bool :=
  any (fun keyword => str_in keyword (str_lower line)) keywords.

(** lines 59-63: the loop that collects the lines of changing data *)
Definition changing_data_of (post_data : pystr) : list pystr :=
  let lines := str_split_lf post_data in
  fold_left
    (fun changing_data line =>
       if mentions_keyword line then changing_data ++ [str_strip line]
       else changing_data)
    lines [].

(** lines 76-79 *)
Definition response_message (esp32_counter : latin1) (count : Z)
  (timestamp : pystr) (uptime_seconds : number) : pystr :=
  u "✅ Message #" ++ str_of_latin1 esp32_counter
    ++ u " received successfully by your computer!" ++ nl
  ++ u "📊 Server has now received " ++ str_of_int count
    ++ u " total messages." ++ nl
  ++ u "⏰ Received at: " ++ timestamp ++ nl
  ++ u "🎯 ESP32 uptime: " ++ format_3f uptime_seconds ++ u " seconds".

Definition do_POST (self : handler) : M unit :=
  count <- get_message_count ;;
  set_message_count (count + 1) ;;

  (* Get the content length *)
  content_length <- lift (int (headers_get (headers self) "Content-Length" (Int 0))) ;;

  (* Read the POST data *)
  raw <- rfile_read content_length ;;
  post_data <- lift (utf8_decode raw) ;;

  (* Extract ESP32 custom headers *)
  let esp32_counter :=
    headers_get_str (headers self) "X-ESP32-Message-Counter" "N/A" in
  let esp32_uptime :=
    headers_get_str (headers self) "X-ESP32-Uptime-MS" "N/A" in
  uptime_seconds <- lift (uptime_seconds_of esp32_uptime) ;;

  (* Print received message with enhanced formatting *)
  now <- datetime_now ;;
  let timestamp := drop_last 3 (strftime_micros now) in
  print (nl ++ str_repeat (u "=") 80) ;;
  count <- get_message_count ;;
  print (u "🎉 ESP32 MESSAGE #" ++ str_of_int count ++ u " RECEIVED - "
         ++ timestamp) ;;
  print (str_repeat (u "=") 80) ;;
  print (u "📊 Message Tracking:") ;;
  print (u "   🔢 ESP32 Message Counter: " ++ str_of_latin1 esp32_counter) ;;
  count <- get_message_count ;;
  print (u "   📥 Server Received Count: " ++ str_of_int count) ;;
  print (u "   ⏱️  ESP32 Uptime: " ++ format_3f uptime_seconds
         ++ u " seconds") ;;
  print (u "   🌐 From IP: " ++ str_of_latin1 (fst (client_address self))) ;;
  print (u "   📍 Endpoint: " ++ str_of_latin1 (path self)) ;;
  print (u "   📋 User-Agent: "
         ++ str_of_latin1 (headers_get_str (headers self) "User-Agent" "Unknown")) ;;

  (* Show all custom headers *)
  let esp32_headers := esp32_headers_of (headers self) in
  when (negb (Nat.eqb (List.length esp32_headers) 0))
    (print (u "   🏷️  ESP32 Custom Headers: " ++ repr_dict esp32_headers)) ;;

  print (nl ++ u "📨 MESSAGE CONTENT:") ;;
  print (str_repeat (u "─") 80) ;;
  print post_data ;;
  print (str_repeat (u "─") 80) ;;
  print (u "📏 Message Length: " ++ str_of_int (Z.of_nat (List.length post_data))
         ++ u " bytes") ;;

  (* Analyze content for changing data *)
  let changing_data := changing_data_of post_data in

  when (negb (Nat.eqb (List.length changing_data) 0))
    (print (nl ++ u "🔍 CHANGING DATA DETECTED:") ;;
     (* Show first 5 changing values *)
     for_each (firstn 5 changing_data)
       (fun data => print (u "   📈 " ++ data))) ;;

  print (str_repeat (u "=") 80 ++ nl) ;;

  (* Send response back to ESP32 *)
  send_response 200 ;;
  send_header "Content-type" "text/plain" ;;
  end_headers ;;
  count <- get_message_count ;;
  encoded <- lift (utf8_encode
                     (response_message esp32_counter count timestamp
                                       uptime_seconds)) ;;
  wfile_write encoded.

(** lines 92-101 *)
Definition html_response (timestamp : pystr) : pystr :=
  u "
        <html>
        <body>
            <h1>🎉 ESP32 HTTP Server is Running!</h1>
            <p>✅ Server is ready to receive ESP32 messages</p>
            <p>⏰ Current time: " ++ timestamp ++ u "</p>
            <p>💡 Check the console for POST messages from your ESP32</p>
        </body>
        </html>
        ".

Definition do_GET (self : handler) : M unit :=
  (* Handle GET requests too *)
  now <- datetime_now ;;
  let timestamp := strftime_seconds now in
  print (nl ++ u "📡 GET request from "
         ++ str_of_latin1 (fst (client_address self)) ++ u " to "
         ++ str_of_latin1 (path self) ++ u " at " ++ timestamp) ;;

  send_response 200 ;;
  send_header "Content-type" "text/html" ;;
  end_headers ;;

  encoded <- lift (utf8_encode (html_response timestamp)) ;;
  wfile_write encoded.

(** ** The server loop *)

(** The two methods for which the class has a handler. A request with
    another method never reaches the code of this class: the base class
    answers it with the status 501. *)
Inductive method : Type := GET | POST.

(** a request that reaches a handler: its method, what the HTTP layer
    parsed, the bytes the client sends after the header block before it
    closes its side of the connection, the time on the clock while it is
    handled, and the bytes the process can allocate then beyond those
    of the request *)
Record request : Type := {
  command : method;
  parsed : handler;
  stream : bytes;
  arrival : datetime;
  spare : N
}.

(** what became of one request: did the handler return, and the calls it
    made to answer *)
Record reply : Type := {
  outcome : result unit;
  sent : list wire
}.

Definition epoch : datetime :=
  {| year := 1970; month := 1; day := 1;
     hour := 0; minute := 0; second := 0; microsecond := 0 |}.

(** the process right after [run_server] starts *)
Definition initial_world : world :=
  {| message_count := initial_message_count; stdout := [];
     rfile := ""; wfile := []; clock := epoch; room := 0 |}.

(** a new connection: the counter and the console carry over *)
Definition connect (r : request) (w : world) : world :=
  {| message_count := message_count w; stdout := stdout w;
     rfile := stream r; wfile := []; clock := arrival r; room := spare r |}.

Definition dispatch (r : request) : M unit :=
  match command r with
  | GET => do_GET (parsed r)
  | POST => do_POST (parsed r)
  end.

(** One request. An exception that leaves the handler is caught by the
    server, which drops the connection and goes on. *)
Definition handle_request (r : request) (w : world) : reply * world :=
  let '(res, w') := dispatch r (connect r w) in
  ({| outcome := res; sent := wfile w' |}, w').

(** [serve_forever] on the requests in their order of arrival *)
Fixpoint serve_forever (rs : list request) (w : world) : list reply * world :=
  match rs with
  | [] => ([], w)
  | r :: t =>
    let '(rep, w') := handle_request r w in
    let '(reps, w'') := serve_forever t w' in
    (rep :: reps, w'')
  end.

(** ** One POST, seen from outside

    The pieces of [do_POST] that its properties speak of, as functions of
    the request. *)

(** line 19 *)
Definition content_length_of (self : handler) : result Z :=
  int (headers_get (headers self) "Content-Length" (Int 0)).

(** line 22: the bytes read, and their decoding *)
Definition payload_of (self : handler) (w : world) : result bytes :=
  match content_length_of self with
  | Ok n => read n (rfile w) (room w)
  | Raise e => Raise e
  end.

Definition post_data_of (self : handler) (w : world) : result pystr :=
  match payload_of self w with
  | Ok raw => utf8_decode raw
  | Raise e => Raise e
  end.

(** lines 25-28 *)
Definition esp32_counter_of (self : handler) : latin1 :=
  headers_get_str (headers self) "X-ESP32-Message-Counter" "N/A".

Definition esp32_uptime_of (self : handler) : latin1 :=
  headers_get_str (headers self) "X-ESP32-Uptime-MS" "N/A".

Definition uptime_of (self : handler) : result number :=
  uptime_seconds_of (esp32_uptime_of self).

(** lines 31-32 *)
Definition timestamp_of (now : datetime) : pystr :=
  drop_last 3 (strftime_micros now).

(** does one of the statements of lines 19-28 raise: [int], [read],
    [decode] or [float]? *)
Definition raises (self : handler) (w : world) : option exn :=
  match content_length_of self with
  | Raise e => Some e
  | Ok _ =>
    match post_data_of self w with
    | Raise e => Some e
    | Ok _ =>
      match uptime_of self with
      | Raise e => Some e
      | Ok _ => None
      end
    end
  end.

(** lines 65-68: what is printed of the changing data *)
Definition changing_data_lines (changing_data : list pystr) : list pystr :=
  if negb (Nat.eqb (List.length changing_data) 0) then
    (nl ++ u "🔍 CHANGING DATA DETECTED:")
    :: map (fun data => u "   📈 " ++ data) (firstn 5 changing_data)
  else [].

(** lines 33-70: the console output of one POST *)
Definition post_log (self : handler) (count : Z) (timestamp post_data : pystr)
  (uptime_seconds : number) : list pystr :=
  [ nl ++ str_repeat (u "=") 80;
    u "🎉 ESP32 MESSAGE #" ++ str_of_int count ++ u " RECEIVED - "
      ++ timestamp;
    str_repeat (u "=") 80;
    u "📊 Message Tracking:";
    u "   🔢 ESP32 Message Counter: " ++ str_of_latin1 (esp32_counter_of self);
    u "   📥 Server Received Count: " ++ str_of_int count;
    u "   ⏱️  ESP32 Uptime: " ++ format_3f uptime_seconds ++ u " seconds";
    u "   🌐 From IP: " ++ str_of_latin1 (fst (client_address self));
    u "   📍 Endpoint: " ++ str_of_latin1 (path self);
    u "   📋 User-Agent: "
      ++ str_of_latin1 (headers_get_str (headers self) "User-Agent" "Unknown") ]
  ++ (if negb (Nat.eqb (List.length (esp32_headers_of (headers self))) 0)
      then [ u "   🏷️  ESP32 Custom Headers: "
               ++ repr_dict (esp32_headers_of (headers self)) ]
      else [])
  ++ [ nl ++ u "📨 MESSAGE CONTENT:";
       str_repeat (u "─") 80;
       post_data;
       str_repeat (u "─") 80;
       u "📏 Message Length: "
         ++ str_of_int (Z.of_nat (List.length post_data)) ++ u " bytes" ]
  ++ changing_data_lines (changing_data_of post_data)
  ++ [ str_repeat (u "=") 80 ++ nl ].

(** a complete answer: status 200, one content type, one body *)
Definition ok_response (content_type : latin1) (message : pystr)
  (ws : list wire) : Prop :=
  exists b,
    utf8_encode message = Ok b
    /\ ws = [Status 200; Header "Content-type" content_type; EndHeaders;
             Body b].

(** line 86: the console output of one GET *)
Definition get_log (self : handler) (timestamp : pystr) : pystr :=
  nl ++ u "📡 GET request from "
  ++ str_of_latin1 (fst (client_address self)) ++ u " to "
  ++ str_of_latin1 (path self) ++ u " at " ++ timestamp.

(** ** Worlds after a step *)

(** the world with another console *)
Definition with_stdout (w : world) (out : list pystr) : world :=
  {| message_count := message_count w; stdout := out;
     rfile := rfile w; wfile := wfile w; clock := clock w; room := room w |}.

(** the world after [message_count += 1] *)
Definition counted (w : world) : world :=
  {| message_count := message_count w + 1; stdout := stdout w;
     rfile := rfile w; wfile := wfile w; clock := clock w; room := room w |}.

(** the world after [rfile.read(size)], for a size that the reader
    accepts *)
Definition consumed (size : Z) (w : world) : world :=
  {| message_count := message_count w; stdout := stdout w;
     rfile := bytes_drop (read_size size (rfile w)) (rfile w);
     wfile := wfile w; clock := clock w; room := room w |}.

(** the world after printing [out] and sending [ws] *)
Definition answered (w : world) (out : list pystr) (ws : list wire) : world :=
  {| message_count := message_count w; stdout := stdout w ++ out;
     rfile := rfile w; wfile := wfile w ++ ws; clock := clock w;
     room := room w |}.

(** ** Completion and failure of a handler *)

(** [m] returns, having printed [out] and answered 200 with [message] *)
Definition completes (m : M unit) (w : world) (out : list pystr)
  (content_type : latin1) (message : pystr) : Prop :=
  exists b,
    utf8_encode message = Ok b
    /\ fst (m w) = Ok tt
    /\ stdout (snd (m w)) = stdout w ++ out
    /\ wfile (snd (m w))
       = wfile w ++ [Status 200; Header "Content-type" content_type;
                     EndHeaders; Body b].

(** [m] raises [e], having printed and sent nothing *)
Definition fails (m : M unit) (w : world) (e : exn) : Prop :=
  fst (m w) = Raise e
  /\ stdout (snd (m w)) = stdout w
  /\ wfile (snd (m w)) = wfile w.

(** the exceptions that can leave [do_POST] *)
Definition post_exception (e : exn) : Prop :=
  e = ValueError \/ e = UnicodeDecodeError
  \/ e = OverflowError \/ e = MemoryError.

Definition is_raise {A : Type} (r : result A) : bool :=
  match r with
  | Raise _ => true
  | Ok _ => false
  end.

(** a POST with a Content-Length that [int] or the reader rejects, a
    payload that is not UTF-8, or an uptime that [float] rejects *)
Definition malformed (self : handler) (w : world) : bool :=
  is_raise (content_length_of self)
  || is_raise (post_data_of self w)
  || is_raise (uptime_of self).

Definition is_post (r : request) : bool :=
  match command r with
  | POST => true
  | GET => false
  end.

(** ** run_server *)

(** A run in which port 8000 could be bound and the interrupt of line
    121 comes while the server waits for a request: the requests that
    arrived before it were handled to their end. A run whose port is
    taken ends in line 111 with OSError, before anything is printed, and
    an interrupt that comes while a handler runs abandons that request
    where it is; these runs are not modelled. *)

(** line 110 *)
Definition server_address : latin1 * Z := (EmptyString, 8000).

(** lines 113-117 *)
Definition startup : M unit :=
  print (u "🚀 ESP32 Message Server Starting...") ;;
  print (u "📡 Listening on port 8000") ;;
  print (u "🌐 Your computer's IP should be used in ESP32 code") ;;
  print (u "💡 You can also test by visiting http://localhost:8000 in your browser") ;;
  print (u "🔍 Waiting for ESP32 messages..." ++ nl).

(** line 122 *)
Definition farewell : pystr := nl ++ nl ++ u "👋 Server stopped by user".

(** [run_server], given the requests that arrive before the interrupt;
    the result is the replies to them *)
Definition run_server (arrivals : list request) : M (list reply) :=
  (* httpd = HTTPServer(server_address, ESP32RequestHandler) *)
  startup ;;
  (* httpd.serve_forever(), until KeyboardInterrupt *)
  fun w1 =>
    let '(reps, w2) := serve_forever arrivals w1 in
    (print farewell ;;
     (* httpd.server_close() *)
     ret reps) w2.

(** the lines of [startup] *)
Definition banner : list pystr :=
  [ u "🚀 ESP32 Message Server Starting...";
    u "📡 Listening on port 8000";
    u "🌐 Your computer's IP should be used in ESP32 code";
    u "💡 You can also test by visiting http://localhost:8000 in your browser";
    u "🔍 Waiting for ESP32 messages..." ++ nl ].

(** the number of POST requests in a sequence *)
Definition posts_in (rs : list request) : nat :=
  List.length (filter is_post rs).

(** what one request prints, and what a sequence of requests prints *)
Definition printed_by (r : request) (w : world) : list pystr :=
  stdout (snd (handle_request r (with_stdout w []))).

Definition printed_by_all (rs : list request) (w : world) : list pystr :=
  stdout (snd (serve_forever rs (with_stdout w []))).

(** the first and the last character of a text are no white space *)
Definition trimmed (s : pystr) : Prop :=
  (forall c t, s = c :: t -> is_space c = false)
  /\ (forall t c, s = t ++ [c] -> is_space c = false).

(** ** Sample requests *)

Local Open Scope string_scope.

Definition noon : datetime :=
  {| year := 2025; month := 3; day := 7;
     hour := 12; minute := 0; second := 1; microsecond := 23456 |}.

Definition device : latin1 * Z := ("192.168.1.50", 51000).

(** the room of the sample requests *)
Definition gibibyte : N := 1073741824.

Definition post_with (hs : list (latin1 * latin1)) (body : bytes) : request :=
  {| command := POST;
     parsed := {| headers := hs; client_address := device; path := "/post" |};
     stream := body; arrival := noon; spare := gibibyte |}.

Definition get_at (p : latin1) : request :=
  {| command := GET;
     parsed := {| headers := []; client_address := device; path := p |};
     stream := ""; arrival := noon; spare := gibibyte |}.

(** a message as the firmware sends it *)
Definition sample_post : request :=
  post_with [("Content-Length", "16"); ("X-ESP32-Message-Counter", "7");
             ("X-ESP32-Uptime-MS", "2500"); ("User-Agent", "ESP32")]
            "Random value: 42".

(** no header at all, no body *)
Definition sample_bare_post : request := post_with [] "".

Definition sample_empty_post : request :=
  post_with [("Content-Length", "0")] "".

Definition sample_bad_length : request :=
  post_with [("Content-Length", "abc")] "hello".

(** one byte, 0xFF, which no UTF-8 text contains *)
Definition sample_bad_body : request :=
  post_with [("Content-Length", "1")] (String (ascii_of_N 255) "").

Definition sample_bad_uptime : request :=
  post_with [("X-ESP32-Uptime-MS", "abc")] "".

Definition sample_huge_uptime : request :=
  post_with [("X-ESP32-Uptime-MS", "1e400")] "".

Definition sample_sentinel_uptime : request :=
  post_with [("X-ESP32-Uptime-MS", "N/A")] "".

(** a payload of two bytes that is one character *)
Definition sample_two_bytes : request :=
  post_with [("Content-Length", "2")] "é".

(** a Content-Length below zero *)
Definition sample_negative_length : request :=
  post_with [("Content-Length", "-1")] "hello".

Definition sample_minus_two : request :=
  post_with [("Content-Length", "-2")] "hello".

(** a Content-Length that is no [Py_ssize_t]: 2 ^ 63 *)
Definition sample_overlong_length : request :=
  post_with [("Content-Length", "9223372036854775808")] "hello".

(** a Content-Length of ten gibibytes, with a body of five bytes *)
Definition sample_greedy_length : request :=
  post_with [("Content-Length", "10737418240")] "hello".

(** a Content-Length beyond the body, within the room *)
Definition sample_short_body : request :=
  post_with [("Content-Length", "8")] "hello".

End Server.

(* ================================================================== *)
(** * Facts about the built-ins *)
(* ================================================================== *)

Module PyFacts.
Import Py.

Local Open Scope N_scope.

Lemma scalar_spec (c : N) :
  scalar c = true <-> c < 0xD800 \/ (0xDFFF < c /\ c < 0x110000).
Proof.
  unfold scalar.
  rewrite orb_true_iff, andb_true_iff, !N.ltb_lt. reflexivity.
Qed.

Lemma utf8_encode_cp_scalar (c : N) :
  scalar c = true -> exists bs, utf8_encode_cp c = Some bs.
Proof.
  rewrite scalar_spec. intros H. unfold utf8_encode_cp, in_range.
  destruct (c <? 0x80); [eauto|].
  destruct (c <? 0x800); [eauto|].
  destruct (c <? 0x10000) eqn:E3.
  - destruct ((0xD800 <=? c) && (c <=? 0xDFFF)) eqn:E4; [|eauto].
    apply andb_true_iff in E4. rewrite !N.leb_le in E4. lia.
  - destruct (c <? 0x110000) eqn:E5; [eauto|].
    apply N.ltb_ge in E3. apply N.ltb_ge in E5. lia.
Qed.

Lemma utf8_encode_codes_encodable (s : pystr) :
  encodable s = true -> exists bs, utf8_encode_codes s = Some bs.
Proof.
  induction s as [|c t IH]; simpl; intros H.
  - eauto.
  - apply andb_true_iff in H. destruct H as [Hc Ht].
    destruct (utf8_encode_cp_scalar c Hc) as [x ->].
    destruct (IH Ht) as [y ->]. eauto.
Qed.

Lemma utf8_encode_encodable (s : pystr) :
  encodable s = true -> exists b, utf8_encode s = Ok b.
Proof.
  intros H. unfold utf8_encode.
  destruct (utf8_encode_codes_encodable s H) as [bs ->]. simpl. eauto.
Qed.

Lemma encodable_app (a b : pystr) :
  encodable (a ++ b) = encodable a && encodable b.
Proof. apply forallb_app. Qed.

Lemma plain_app (a b : pystr) : plain (a ++ b) = plain a && plain b.
Proof. apply forallb_app. Qed.

Lemma plain_encodable (s : pystr) : plain s = true -> encodable s = true.
Proof.
  unfold plain, encodable. rewrite !forallb_forall. intros H c Hc.
  specialize (H c Hc). apply N.ltb_lt in H.
  apply scalar_spec. lia.
Qed.

Lemma encodable_latin1 (s : latin1) : encodable (str_of_latin1 s) = true.
Proof.
  unfold str_of_latin1, codes, encodable.
  apply forallb_forall. intros c Hc.
  apply in_map_iff in Hc. destruct Hc as [a [<- _]].
  pose proof (N_ascii_bounded a) as B.
  apply scalar_spec. lia.
Qed.

Lemma plain_firstn (n : nat) (s : pystr) :
  plain s = true -> plain (firstn n s) = true.
Proof.
  revert s. induction n as [|n IH]; intros [|c t] H; simpl; try reflexivity.
  simpl in H. apply andb_true_iff in H. destruct H as [Hc Ht].
  rewrite Hc. simpl. apply IH. assumption.
Qed.

Lemma plain_str_repeat (s : pystr) (n : nat) :
  plain s = true -> plain (str_repeat s n) = true.
Proof.
  intros H. induction n as [|n IH]; simpl; [reflexivity|].
  rewrite plain_app, H, IH. reflexivity.
Qed.

(** ** Decimal numerals *)

Lemma codes_String (a : ascii) (s : string) :
  codes (String a s) = N_of_ascii a :: codes s.
Proof. reflexivity. Qed.

Lemma digits_of_uint (d : Decimal.uint) :
  forallb is_digit (codes (NilEmpty.string_of_uint d)) = true.
Proof.
  induction d; simpl; try reflexivity; exact IHd.
Qed.

Lemma digits_of_uint_zero (d : Decimal.uint) :
  forallb is_digit (codes (NilZero.string_of_uint d)) = true.
Proof.
  destruct d; try reflexivity; apply (digits_of_uint (_ d)).
Qed.

Lemma is_digit_plain (s : pystr) : forallb is_digit s = true -> plain s = true.
Proof.
  unfold plain. rewrite !forallb_forall. intros H c Hc.
  specialize (H c Hc). unfold is_digit, in_range in H.
  apply andb_true_iff in H. destruct H as [_ H].
  apply N.leb_le in H. apply N.ltb_lt. lia.
Qed.

Lemma plain_str_of_int (z : Z) : plain (str_of_int z) = true.
Proof.
  unfold str_of_int, NilZero.string_of_int.
  destruct (Z.to_int z) as [d|d].
  - apply is_digit_plain, digits_of_uint_zero.
  - rewrite codes_String. simpl.
    apply (is_digit_plain _ (digits_of_uint_zero d)).
Qed.

Lemma plain_zero_pad (width : nat) (z : Z) : plain (zero_pad width z) = true.
Proof.
  unfold zero_pad. rewrite plain_app, plain_str_of_int, plain_str_repeat;
    reflexivity.
Qed.

Lemma plain_format_float_3f (x : spec_float) :
  plain (format_float_3f x) = true.
Proof.
  destruct x as [s|s| |s m e]; unfold format_float_3f, fixed_point_3;
    try (destruct s; reflexivity); try reflexivity.
  rewrite !plain_app, plain_str_of_int, plain_zero_pad.
  destruct s; reflexivity.
Qed.

Lemma plain_format_3f (v : number) : plain (format_3f v) = true.
Proof. destruct v; apply plain_format_float_3f. Qed.

Lemma plain_strftime_seconds (t : datetime) :
  plain (strftime_seconds t) = true.
Proof.
  unfold strftime_seconds. rewrite !plain_app, !plain_zero_pad. reflexivity.
Qed.

Lemma plain_strftime_micros (t : datetime) :
  plain (strftime_micros t) = true.
Proof.
  unfold strftime_micros.
  rewrite !plain_app, plain_strftime_seconds, plain_zero_pad. reflexivity.
Qed.

End PyFacts.

(* ================================================================== *)
(** * The handler, step by step *)
(* ================================================================== *)

Module Run.
Import Py PyFacts Server.

Local Open Scope Z_scope.

Lemma for_each_print (f : pystr -> pystr) (l : list pystr) (w : world) :
  for_each l (fun data => print (f data)) w
  = (Ok tt, with_stdout w (stdout w ++ map f l)).
Proof.
  revert w. induction l as [|x t IH]; intros w.
  - simpl. unfold ret, with_stdout. rewrite app_nil_r. destruct w; reflexivity.
  - simpl. unfold bind at 1. unfold print at 1. rewrite IH.
    unfold with_stdout. simpl. rewrite <- app_assoc. reflexivity.
Qed.

(** the response message of a POST can always be encoded *)
Lemma response_message_encodable (c : latin1) (n : Z) (t : datetime)
  (up : number) :
  encodable (response_message c n (timestamp_of t) up) = true.
Proof.
  unfold response_message, timestamp_of, drop_last.
  rewrite !encodable_app, encodable_latin1.
  rewrite (plain_encodable _ (plain_str_of_int n)).
  rewrite (plain_encodable _ (plain_firstn _ _ (plain_strftime_micros t))).
  rewrite (plain_encodable _ (plain_format_3f up)).
  reflexivity.
Qed.

Lemma html_response_encodable (t : datetime) :
  encodable (html_response (strftime_seconds t)) = true.
Proof.
  unfold html_response.
  rewrite !encodable_app.
  rewrite (plain_encodable _ (plain_strftime_seconds t)).
  reflexivity.
Qed.

(** one statement of a handler: run it and simplify the world *)
Ltac exec h :=
  unfold bind at 1; unfold h at 1;
  cbn [message_count stdout rfile wfile clock room].

(** the last lines of both handlers: status, header, body *)
Ltac send_answer :=
  unfold bind at 1; unfold send_response at 1;
  unfold bind at 1; unfold log_message at 1; unfold ret at 1;
  cbn [message_count stdout rfile wfile clock room]; unfold send at 1;
  cbn [message_count stdout rfile wfile clock room];
  exec send_header; unfold send at 1;
  cbn [message_count stdout rfile wfile clock room];
  exec end_headers; unfold send at 1;
  cbn [message_count stdout rfile wfile clock room];
  try exec get_message_count;
  unfold bind at 1; unfold lift at 1;
  destruct (utf8_encode _) as [b|e];
  [ unfold wfile_write, send | ];
  cbn [message_count stdout rfile wfile clock room];
  rewrite <- ?app_assoc; cbn [app]; reflexivity.

(** [do_POST] in closed form: where it can raise, and the world it leaves *)
Lemma do_POST_run (self : handler) (w : world) :
  do_POST self w =
  match content_length_of self with
  | Raise e => (Raise e, counted w)
  | Ok n =>
    match read n (rfile w) (room w) with
    | Raise e => (Raise e, counted w)
    | Ok raw =>
      let w1 := consumed n (counted w) in
      match utf8_decode raw with
      | Raise e => (Raise e, w1)
      | Ok post_data =>
        match uptime_of self with
        | Raise e => (Raise e, w1)
        | Ok up =>
          let count := message_count w + 1 in
          let timestamp := timestamp_of (clock w) in
          let out := post_log self count timestamp post_data up in
          match utf8_encode
                  (response_message (esp32_counter_of self) count timestamp
                                    up)
          with
          | Ok b =>
            (Ok tt,
             answered w1 out
               [Status 200; Header "Content-type" "text/plain"; EndHeaders;
                Body b])
          | Raise e =>
            (Raise e,
             answered w1 out
               [Status 200; Header "Content-type" "text/plain"; EndHeaders])
          end
        end
      end
    end
  end.
Proof.
  unfold do_POST, content_length_of, uptime_of, esp32_uptime_of,
    esp32_counter_of, timestamp_of.
  exec get_message_count. exec set_message_count.
  unfold bind at 1. unfold lift at 1.
  destruct (int _) as [n|e]; [|reflexivity].
  exec rfile_read. unfold read.
  destruct (readable n (rfile w) (room w)); [|reflexivity].
  unfold bind at 1. unfold lift at 1.
  destruct (utf8_decode _) as [post_data|e]; [|reflexivity].
  unfold bind at 1. unfold lift at 1.
  destruct (uptime_seconds_of _) as [up|e]; [|reflexivity].
  exec datetime_now.
  exec print. exec get_message_count. exec print. exec print. exec print.
  exec print. exec get_message_count. exec print. exec print. exec print.
  exec print. exec print.
  unfold post_log, changing_data_lines, answered, consumed, counted,
    esp32_counter_of.
  unfold bind at 1. unfold when at 1.
  destruct (negb (Nat.eqb (List.length (esp32_headers_of (headers self))) 0));
    [unfold print at 1 | unfold ret at 1];
    cbn [message_count stdout rfile wfile clock room];
    exec print; exec print; exec print; exec print; exec print;
    unfold bind at 1; unfold when at 1;
    (destruct (negb (Nat.eqb (List.length (changing_data_of post_data)) 0));
     [ exec print; rewrite for_each_print; unfold with_stdout
     | unfold ret at 1 ]);
    cbn [message_count stdout rfile wfile clock room];
    exec print; send_answer.
Qed.

(** [do_GET] in closed form *)
Lemma do_GET_run (self : handler) (w : world) :
  do_GET self w =
  let timestamp := strftime_seconds (clock w) in
  match utf8_encode (html_response timestamp) with
  | Ok b =>
    (Ok tt,
     answered w [get_log self timestamp]
       [Status 200; Header "Content-type" "text/html"; EndHeaders; Body b])
  | Raise e =>
    (Raise e,
     answered w [get_log self timestamp]
       [Status 200; Header "Content-type" "text/html"; EndHeaders])
  end.
Proof.
  unfold do_GET, get_log, answered.
  exec datetime_now. exec print. send_answer.
Qed.

End Run.

(* ================================================================== *)
(** * Properties of the server *)
(* ================================================================== *)

Module Properties.
Import Py PyFacts Server Run.

Local Open Scope Z_scope.

(** ** Numerals *)

(** the code of a digit character, as a number *)
Ltac digit_code :=
  match goal with
  | |- context [Z.of_N (N_of_ascii ?a)] =>
    let v := eval vm_compute in (Z.of_N (N_of_ascii a)) in
    change (Z.of_N (N_of_ascii a)) with v
  end.

Lemma value_of_uint_acc (d : Decimal.uint) :
  forall acc : positive,
    Z.pos (Pos.of_uint_acc d acc)
    = fold_left (fun acc d => acc * 10 + (Z.of_N d - 0x30))
        (codes (NilEmpty.string_of_uint d)) (Z.pos acc).
Proof.
  induction d; intros acc; cbn [Pos.of_uint_acc NilEmpty.string_of_uint];
    try reflexivity;
    rewrite codes_String; cbn [fold_left]; rewrite IHd; f_equal;
    digit_code; lia.
Qed.

Lemma value_of_uint (d : Decimal.uint) :
  Z.of_N (Pos.of_uint d) = digits_value (codes (NilEmpty.string_of_uint d)).
Proof.
  unfold digits_value.
  induction d; cbn [Pos.of_uint NilEmpty.string_of_uint];
    try reflexivity;
    rewrite codes_String; cbn [fold_left]; digit_code;
    [ exact IHd
    | cbn [Z.of_N]; rewrite value_of_uint_acc; reflexivity .. ].
Qed.

(** the numeral of a number that is not negative, read as a number *)
Lemma digits_value_str_of_int (z : Z) :
  0 <= z -> digits_value (str_of_int z) = z.
Proof.
  intros H. pose proof (DecimalZ.of_to z) as E.
  unfold str_of_int, NilZero.string_of_int.
  destruct z as [|p|p]; [reflexivity| |lia].
  cbn [Z.to_int] in *. cbn [Z.of_int Z.of_uint] in E.
  unfold NilZero.string_of_uint.
  destruct (Pos.to_uint p) eqn:U;
    try (rewrite <- U at 1; rewrite <- value_of_uint, U; exact E).
  cbn in E. discriminate.
Qed.


(** ** When a POST returns and when it raises *)

Lemma int_raises (x : value) (e : exn) : int x = Raise e -> e = ValueError.
Proof.
  destruct x as [s|z]; simpl; [|discriminate].
  unfold int_of_str. destruct (int_of_codes _); simpl; congruence.
Qed.

Lemma utf8_decode_raises (b : bytes) (e : exn) :
  utf8_decode b = Raise e -> e = UnicodeDecodeError.
Proof.
  unfold utf8_decode. destruct (utf8_decode_codes _); simpl; congruence.
Qed.

Lemma uptime_raises (s : latin1) (e : exn) :
  uptime_seconds_of s = Raise e -> e = ValueError.
Proof.
  unfold uptime_seconds_of, float_of_str.
  destruct (negb _); [|discriminate].
  destruct (float_of_codes _); simpl; congruence.
Qed.

Lemma read_raises (size : Z) (available : bytes) (room : N) (e : exn) :
  read size available room = Raise e ->
  e = ValueError \/ e = OverflowError \/ e = MemoryError.
Proof.
  unfold read, read_error. destruct (readable _ _ _); [discriminate|].
  intros [= <-].
  repeat match goal with
         | |- context [if ?b then _ else _] => destruct b
         end; auto.
Qed.

Lemma raises_kind (self : handler) (w : world) (e : exn) :
  raises self w = Some e -> post_exception e.
Proof.
  unfold raises, post_data_of, payload_of, content_length_of, uptime_of,
    post_exception.
  destruct (int _) as [n|e1] eqn:E1.
  - destruct (read _ _ _) as [raw|e0] eqn:E0.
    + destruct (utf8_decode _) as [d|e2] eqn:E2.
      * destruct (uptime_seconds_of _) as [up|e3] eqn:E3; [discriminate|].
        intros [= <-]. left. eapply uptime_raises; eauto.
      * intros [= <-]. right. left. eapply utf8_decode_raises; eauto.
    + intros [= <-]. destruct (read_raises _ _ _ _ E0) as [H|[H|H]]; auto.
  - intros [= <-]. left. eapply int_raises; eauto.
Qed.

Lemma malformed_raises (self : handler) (w : world) :
  malformed self w = true <-> raises self w <> None.
Proof.
  unfold malformed, raises, post_data_of, payload_of.
  destruct (content_length_of self) as [n|e1]; simpl.
  - destruct (read _ _ _) as [raw|e0]; simpl.
    + destruct (utf8_decode _) as [d|e2]; simpl.
      * destruct (uptime_of self) as [up|e3]; simpl; split; congruence.
      * split; congruence.
    + split; congruence.
  - split; congruence.
Qed.

(** a POST that raises: counted, nothing printed, nothing sent *)
Lemma post_raise (self : handler) (w : world) (e : exn) :
  raises self w = Some e ->
  fails (do_POST self) w e
  /\ message_count (snd (do_POST self w)) = message_count w + 1.
Proof.
  unfold raises, post_data_of, payload_of, fails.
  rewrite do_POST_run.
  destruct (content_length_of self) as [n|e1].
  - destruct (read _ _ _) as [raw|e0].
    + cbn zeta. destruct (utf8_decode _) as [d|e2].
      * destruct (uptime_of self) as [up|e3]; [discriminate|].
        intros [= <-]. repeat split.
      * intros [= <-]. repeat split.
    + intros [= <-]. repeat split.
  - intros [= <-]. repeat split.
Qed.

(** a POST that returns: the console output and the answer *)
Lemma post_return (self : handler) (w : world) :
  raises self w = None ->
  exists n post_data up,
    content_length_of self = Ok n
    /\ post_data_of self w = Ok post_data
    /\ uptime_of self = Ok up
    /\ completes (do_POST self) w
         (post_log self (message_count w + 1) (timestamp_of (clock w))
                   post_data up)
         "text/plain"
         (response_message (esp32_counter_of self) (message_count w + 1)
                           (timestamp_of (clock w)) up)
    /\ message_count (snd (do_POST self w)) = message_count w + 1
    /\ rfile (snd (do_POST self w))
       = bytes_drop (read_size n (rfile w)) (rfile w).
Proof.
  unfold raises, post_data_of, payload_of, completes.
  rewrite do_POST_run.
  destruct (content_length_of self) as [n|e1]; [|discriminate].
  destruct (read _ _ _) as [raw|e0]; [|discriminate].
  cbn zeta. destruct (utf8_decode _) as [d|e2]; [|discriminate].
  destruct (uptime_of self) as [up|e3]; [|discriminate].
  intros _. exists n, d, up.
  destruct (utf8_encode_encodable _
              (response_message_encodable (esp32_counter_of self)
                 (message_count w + 1) (clock w) up)) as [b Hb].
  rewrite Hb. repeat split. exists b. repeat split.
Qed.

Lemma post_counts (self : handler) (w : world) :
  message_count (snd (do_POST self w)) = message_count w + 1.
Proof.
  destruct (raises self w) as [e|] eqn:E.
  - apply (post_raise self w e E).
  - destruct (post_return self w E) as (n & d & up & _ & _ & _ & _ & H & _).
    exact H.
Qed.

(** a GET: one line on the console, the page, the counter untouched *)
Lemma get_return (self : handler) (w : world) :
  completes (do_GET self) w
    [get_log self (strftime_seconds (clock w))]
    "text/html" (html_response (strftime_seconds (clock w)))
  /\ message_count (snd (do_GET self w)) = message_count w
  /\ rfile (snd (do_GET self w)) = rfile w.
Proof.
  unfold completes. rewrite do_GET_run. cbn zeta.
  destruct (utf8_encode_encodable _ (html_response_encodable (clock w)))
    as [b Hb].
  rewrite Hb. repeat split. exists b. repeat split.
Qed.

(** ** The request loop *)

Lemma handle_request_counts (r : request) (w : world) :
  message_count (snd (handle_request r w))
  = message_count w + (if is_post r then 1 else 0).
Proof.
  unfold handle_request, dispatch, is_post.
  destruct (command r).
  - destruct (do_GET (parsed r) (connect r w)) as [res w'] eqn:E.
    pose proof (get_return (parsed r) (connect r w)) as (_ & H & _).
    rewrite E in H. simpl in *. lia.
  - destruct (do_POST (parsed r) (connect r w)) as [res w'] eqn:E.
    pose proof (post_counts (parsed r) (connect r w)) as H.
    rewrite E in H. simpl in *. lia.
Qed.

Lemma serve_forever_cons (r : request) (rs : list request) (w : world) :
  serve_forever (r :: rs) w
  = (fst (handle_request r w)
       :: fst (serve_forever rs (snd (handle_request r w))),
     snd (serve_forever rs (snd (handle_request r w)))).
Proof.
  simpl. destruct (handle_request r w) as [rep w'].
  simpl. destruct (serve_forever rs w') as [reps w'']. reflexivity.
Qed.



(** the reply to one POST, from the world it was handled in *)
Lemma post_reply (r : request) (w : world) :
  command r = POST ->
  match outcome (fst (handle_request r w)) with
  | Ok _ =>
    exists up,
      uptime_of (parsed r) = Ok up
      /\ ok_response "text/plain"
           (response_message (esp32_counter_of (parsed r))
                             (message_count w + 1)
                             (timestamp_of (arrival r)) up)
           (sent (fst (handle_request r w)))
  | Raise _ => sent (fst (handle_request r w)) = []
  end.
Proof.
  intros Hc. unfold handle_request, dispatch. rewrite Hc.
  destruct (raises (parsed r) (connect r w)) as [e|] eqn:E.
  - destruct (post_raise _ _ _ E) as ((H1 & _ & H3) & _).
    destruct (do_POST (parsed r) (connect r w)) as [res w'].
    simpl in *. subst res. exact H3.
  - destruct (post_return _ _ E)
      as (n & d & up & _ & _ & Hup & (b & Hb & H1 & _ & H3) & _).
    destruct (do_POST (parsed r) (connect r w)) as [res w'].
    simpl in *. subst res.
    exists up. split; [exact Hup|]. exists b. split; [exact Hb | exact H3].
Qed.

(** a malformed POST raises: shared by the claims below *)
Lemma malformed_post_raises_aux (self : handler) (w : world) :
  malformed self w = true ->
  exists e,
    post_exception e
    /\ fails (do_POST self) w e
    /\ message_count (snd (do_POST self w)) = message_count w + 1.
Proof.
  intros M. apply malformed_raises in M.
  destruct (raises self w) as [e|] eqn:E; [|congruence].
  exists e. split; [eapply raises_kind; eauto|].
  apply post_raise. exact E.
Qed.

(** ** Values that the conversions reject *)

Lemma length_rejected (self : handler) (v : latin1) :
  headers_find (headers self) "Content-Length" = Some v ->
  int_of_str v = Raise ValueError ->
  content_length_of self = Raise ValueError.
Proof.
  intros Hv Hi. unfold content_length_of, headers_get.
  rewrite Hv. simpl. exact Hi.
Qed.

Lemma uptime_rejected (self : handler) (v : latin1) :
  headers_find (headers self) "X-ESP32-Uptime-MS" = Some v ->
  v <> "N/A"%string ->
  float_of_str v = Raise ValueError ->
  uptime_of self = Raise ValueError.
Proof.
  intros Hv Hna Hf.
  unfold uptime_of, esp32_uptime_of, headers_get_str, uptime_seconds_of.
  rewrite Hv. apply String.eqb_neq in Hna. rewrite Hna. simpl.
  rewrite Hf. reflexivity.
Qed.

(** a POST whose uptime [float] rejects raises: ValueError when the
    statements before line 27 went through, their exception otherwise *)
Lemma rejected_uptime_raises (self : handler) (w : world) :
  uptime_of self = Raise ValueError ->
  (exists e, post_exception e /\ fails (do_POST self) w e)
  /\ (forall post_data,
        post_data_of self w = Ok post_data ->
        fails (do_POST self) w ValueError).
Proof.
  intros Hu. split.
  - assert (M : malformed self w = true).
    { unfold malformed. rewrite Hu. simpl. rewrite !orb_true_r. reflexivity. }
    destruct (malformed_post_raises_aux self w M) as (e & K & F & _).
    exists e. split; assumption.
  - intros d Hd. apply post_raise. unfold raises. rewrite Hd, Hu.
    unfold post_data_of, payload_of in Hd.
    destruct (content_length_of self); [reflexivity|discriminate].
Qed.

(** ** Absent headers *)

Lemma counter_default (self : handler) :
  headers_find (headers self) "X-ESP32-Message-Counter" = None ->
  esp32_counter_of self = "N/A"%string.
Proof.
  intros H. unfold esp32_counter_of, headers_get_str. rewrite H. reflexivity.
Qed.

Lemma uptime_default (self : handler) :
  headers_find (headers self) "X-ESP32-Uptime-MS" = None ->
  uptime_of self = Ok (PyInt 0).
Proof.
  intros H. unfold uptime_of, esp32_uptime_of, headers_get_str.
  rewrite H. reflexivity.
Qed.

(** a POST that is not malformed returns; its log and its answer *)
Lemma well_formed_post (self : handler) (w : world) :
  malformed self w = false ->
  exists post_data up,
    post_data_of self w = Ok post_data
    /\ uptime_of self = Ok up
    /\ completes (do_POST self) w
         (post_log self (message_count w + 1) (timestamp_of (clock w))
                   post_data up)
         "text/plain"
         (response_message (esp32_counter_of self) (message_count w + 1)
                           (timestamp_of (clock w)) up).
Proof.
  intros H.
  destruct (raises self w) as [e|] eqn:E.
  - assert (false = true); [|discriminate].
    rewrite <- H. apply malformed_raises. rewrite E. discriminate.
  - destruct (post_return self w E) as (n & d & up & _ & Hd & Hu & C & _).
    exists d, up. auto.
Qed.

(** the lines of the log that the claims speak of *)
Lemma log_has_counter (self : handler) (count : Z) (ts post_data : pystr)
  (up : number) :
  In (u "   🔢 ESP32 Message Counter: " ++ str_of_latin1 (esp32_counter_of self))
     (post_log self count ts post_data up).
Proof. unfold post_log. apply in_or_app. left. do 4 right. left. reflexivity. Qed.

Lemma log_has_uptime (self : handler) (count : Z) (ts post_data : pystr)
  (up : number) :
  In (u "   ⏱️  ESP32 Uptime: " ++ format_3f up ++ u " seconds")
     (post_log self count ts post_data up).
Proof. unfold post_log. apply in_or_app. left. do 6 right. left. reflexivity. Qed.

Lemma log_has_length (self : handler) (count : Z) (ts post_data : pystr)
  (up : number) :
  In (u "📏 Message Length: "
        ++ str_of_int (Z.of_nat (List.length post_data)) ++ u " bytes")
     (post_log self count ts post_data up).
Proof.
  unfold post_log. apply in_or_app. right. apply in_or_app. right.
  apply in_or_app. left. do 4 right. left. reflexivity.
Qed.

Lemma log_has_payload (self : handler) (count : Z) (ts post_data : pystr)
  (up : number) :
  In post_data (post_log self count ts post_data up).
Proof.
  unfold post_log. apply in_or_app. right. apply in_or_app. right.
  apply in_or_app. left. do 2 right. left. reflexivity.
Qed.

(** the last line of the response message *)
Lemma response_ends_with_uptime (c : latin1) (count : Z) (ts : pystr)
  (up : number) :
  exists before,
    response_message c count ts up
    = before ++ u "🎯 ESP32 uptime: " ++ format_3f up ++ u " seconds".
Proof.
  unfold response_message. eexists. rewrite !app_assoc. reflexivity.
Qed.

(** the first line of the response message *)
Lemma response_starts_with_counter (c : latin1) (count : Z) (ts : pystr)
  (up : number) :
  exists rest,
    response_message c count ts up
    = (u "✅ Message #" ++ str_of_latin1 c
         ++ u " received successfully by your computer!") ++ rest.
Proof.
  unfold response_message. eexists. rewrite <- !app_assoc. reflexivity.
Qed.

(** ** The payload *)

Lemma length_string_of_list_ascii (l : list ascii) :
  String.length (string_of_list_ascii l) = List.length l.
Proof. induction l as [|a t IH]; simpl; congruence. Qed.

Lemma length_list_ascii_of_string (b : string) :
  List.length (list_ascii_of_string b) = String.length b.
Proof. induction b as [|a t IH]; simpl; congruence. Qed.

Lemma length_append (a b : string) :
  String.length (a ++ b) = (String.length a + String.length b)%nat.
Proof. induction a as [|c t IH]; simpl; congruence. Qed.

Lemma length_bytes_take (n : nat) (b : bytes) :
  String.length (bytes_take n b) = Nat.min n (String.length b).
Proof.
  unfold bytes_take.
  rewrite length_string_of_list_ascii, length_firstn,
    length_list_ascii_of_string.
  reflexivity.
Qed.

Lemma bytes_take_drop (n : nat) (b : bytes) :
  (bytes_take n b ++ bytes_drop n b)%string = b.
Proof.
  unfold bytes_take, bytes_drop.
  rewrite <- (string_of_list_ascii_of_string b) at 3.
  rewrite <- (firstn_skipn n (list_ascii_of_string b)) at 3.
  generalize (firstn n (list_ascii_of_string b)) as x.
  generalize (skipn n (list_ascii_of_string b)) as y.
  intros y x. induction x as [|a t IH]; simpl; congruence.
Qed.

Lemma read_size_nonneg (n : Z) (b : bytes) :
  0 <= n -> read_size n b = Nat.min (Z.to_nat n) (String.length b).
Proof.
  intros H. unfold read_size.
  destruct (Z.eqb_spec n (-1)); [lia|reflexivity].
Qed.

Lemma firstn_min {A : Type} (n : nat) (l : list A) :
  firstn (Nat.min n (List.length l)) l = firstn n l.
Proof.
  destruct (Nat.le_ge_cases n (List.length l)) as [H|H].
  - rewrite Nat.min_l by exact H. reflexivity.
  - rewrite Nat.min_r by exact H.
    rewrite firstn_all, firstn_all2 by exact H. reflexivity.
Qed.

Lemma skipn_min {A : Type} (n : nat) (l : list A) :
  skipn (Nat.min n (List.length l)) l = skipn n l.
Proof.
  destruct (Nat.le_ge_cases n (List.length l)) as [H|H].
  - rewrite Nat.min_l by exact H. reflexivity.
  - rewrite Nat.min_r by exact H.
    rewrite skipn_all, skipn_all2 by exact H. reflexivity.
Qed.

Lemma bytes_take_min (n : nat) (b : bytes) :
  bytes_take (Nat.min n (String.length b)) b = bytes_take n b.
Proof.
  unfold bytes_take.
  rewrite <- (length_list_ascii_of_string b), firstn_min. reflexivity.
Qed.

Lemma bytes_drop_min (n : nat) (b : bytes) :
  bytes_drop (Nat.min n (String.length b)) b = bytes_drop n b.
Proof.
  unfold bytes_drop.
  rewrite <- (length_list_ascii_of_string b), skipn_min. reflexivity.
Qed.

(** a read of no more than the connection holds never fails *)
Lemma readable_within (n : Z) (b : bytes) (room : N) :
  0 <= n <= Z.of_nat (String.length b) -> readable n b room = true.
Proof.
  intros [H0 H1]. unfold readable. cbv zeta.
  apply orb_true_iff. right. apply andb_true_iff. split.
  - apply Z.leb_le. exact H0.
  - apply orb_true_iff. left. apply Z.leb_le. exact H1.
Qed.

Lemma read_within (n : Z) (b : bytes) (room : N) :
  0 <= n <= Z.of_nat (String.length b) ->
  read n b room = Ok (bytes_take (Z.to_nat n) b).
Proof.
  intros H. unfold read. rewrite (readable_within n b room H).
  rewrite read_size_nonneg, bytes_take_min by lia. reflexivity.
Qed.

(** what is left of the connection after a POST whose read succeeds *)
Lemma post_consumes (self : handler) (w : world) (n : Z) :
  content_length_of self = Ok n ->
  readable n (rfile w) (room w) = true ->
  rfile (snd (do_POST self w)) = bytes_drop (read_size n (rfile w)) (rfile w).
Proof.
  intros H R. rewrite do_POST_run, H. unfold read. rewrite R. cbn zeta.
  destruct (utf8_decode _); [|reflexivity].
  destruct (uptime_of self); [|reflexivity].
  destruct (utf8_encode _); reflexivity.
Qed.

(** a read that fails leaves the connection as it was *)
Lemma post_read_fails (self : handler) (w : world) (n : Z) :
  content_length_of self = Ok n ->
  readable n (rfile w) (room w) = false ->
  fails (do_POST self) w (read_error n)
  /\ rfile (snd (do_POST self w)) = rfile w.
Proof.
  intros H R. unfold fails. rewrite do_POST_run, H. unfold read. rewrite R.
  repeat split.
Qed.

(** ** The scan for changing data *)

Lemma split_join (s : pystr) : str_join nl (str_split_lf s) = s.
Proof.
  induction s as [|c t IH]; [reflexivity|].
  simpl str_split_lf.
  destruct (c =? 0x0A)%N eqn:E.
  - apply N.eqb_eq in E. subst c.
    destruct (str_split_lf t) as [|l ls] eqn:S.
    + simpl in IH. subst t. discriminate.
    + change (str_join nl ([] :: l :: ls))
        with ([] ++ nl ++ str_join nl (l :: ls)).
      rewrite IH. reflexivity.
  - destruct (str_split_lf t) as [|l ls] eqn:S.
    + simpl in IH. subst t. reflexivity.
    + destruct ls as [|l' ls'].
      * simpl in *. congruence.
      * change (str_join nl ((c :: l) :: l' :: ls'))
          with (c :: (l ++ nl ++ str_join nl (l' :: ls'))).
        change (str_join nl (l :: l' :: ls'))
          with (l ++ nl ++ str_join nl (l' :: ls')) in IH.
        congruence.
Qed.

Lemma split_lines_have_no_lf (s : pystr) :
  Forall (fun line => ~ In 0x0A%N line) (str_split_lf s).
Proof.
  induction s as [|c t IH].
  - constructor; [|constructor]. intros [].
  - simpl. destruct (c =? 0x0A)%N eqn:E.
    + constructor; [intros []|exact IH].
    + destruct (str_split_lf t) as [|l ls].
      * constructor; [|constructor].
        intros [H|[]]. apply N.eqb_neq in E. congruence.
      * inversion IH as [|? ? Hl Hls]; subst.
        constructor; [|exact Hls].
        intros [H|H]; [apply N.eqb_neq in E; congruence | exact (Hl H)].
Qed.

(** the loop of lines 61-63 is a filter followed by a map *)
Lemma collect_is_filter_map {A B : Type} (p : A -> bool) (f : A -> B)
  (l : list A) (acc : list B) :
  fold_left (fun found x => if p x then found ++ [f x] else found) l acc
  = acc ++ map f (filter p l).
Proof.
  revert acc. induction l as [|x t IH]; intros acc; simpl.
  - rewrite app_nil_r. reflexivity.
  - rewrite IH. destruct (p x); simpl; [rewrite <- app_assoc|]; reflexivity.
Qed.

Lemma starts_with_spec (p s : list N) :
  starts_with p s = true <-> exists t, s = p ++ t.
Proof.
  revert s. induction p as [|a p IH]; intros s.
  - simpl. split; eauto.
  - destruct s as [|b s]; simpl.
    + split; [discriminate | intros [t H]; discriminate].
    + rewrite andb_true_iff, N.eqb_eq, IH. split.
      * intros [-> [t ->]]. eauto.
      * intros [t [= -> ->]]. eauto.
Qed.

Lemma str_in_spec (p s : pystr) :
  str_in p s = true <-> exists a b, s = a ++ p ++ b.
Proof.
  induction s as [|c t IH].
  - simpl. rewrite orb_false_r, starts_with_spec. split.
    + intros [b H]. exists [], b. exact H.
    + intros [a [b H]]. destruct a; [|discriminate]. eauto.
  - simpl str_in. rewrite orb_true_iff, starts_with_spec, IH. split.
    + intros [[b H]|[a [b H]]].
      * exists [], b. exact H.
      * exists (c :: a), b. simpl. congruence.
    + intros [a [b H]]. destruct a as [|x a].
      * left. eauto.
      * right. injection H as _ H. eauto.
Qed.

(** the lowercase form of one character: one character, in ASCII only
    for an ASCII character or the Kelvin sign, or the two of U+0130 *)
Lemma lower_cp_cases (c : N) :
  ((c < 0x80)%N /\ lower_cp c = [ascii_lower c])
  \/ (exists x, (0x80 <= x)%N /\ lower_cp c = [x])
  \/ lower_cp c = [0x69%N; 0x307%N]
  \/ lower_cp c = [0x6B%N].
Proof.
  unfold lower_cp, ascii_lower, in_range.
  destruct ((0x41 <=? c)%N && (c <=? 0x5A)%N) eqn:E1.
  - left. apply andb_true_iff in E1. rewrite !N.leb_le in E1.
    split; [lia | reflexivity].
  - destruct ((0xC0 <=? c)%N && (c <=? 0xDE)%N && negb (c =? 0xD7)%N) eqn:E2.
    + right. left. exists (c + 32)%N.
      rewrite !andb_true_iff, !N.leb_le in E2. split; [lia | reflexivity].
    + destruct (c =? 0x130)%N; [right; right; left; reflexivity|].
      destruct (c =? 0x212A)%N; [right; right; right; reflexivity|].
      destruct (c <? 0x80)%N eqn:E3.
      * left. apply N.ltb_lt in E3. split; [exact E3 | reflexivity].
      * right. left. exists c. apply N.ltb_ge in E3.
        split; [exact E3 | reflexivity].
Qed.

Lemma keyword_like_cons (a : N) (kw : pystr) :
  keyword_like (a :: kw) = true ->
  (a < 0x80)%N /\ a <> 0x6B%N /\ keyword_like kw = true
  /\ (kw = [] -> a <> 0x69%N)
  /\ (forall b t, kw = b :: t -> (b < 0x80)%N).
Proof.
  unfold keyword_like. simpl forallb. simpl last_is. intros H.
  rewrite !andb_true_iff, !negb_true_iff, N.ltb_lt, N.eqb_neq in H.
  destruct H as [[[Ha Hk] Hall] Hlast].
  split; [exact Ha|]. split; [exact Hk|]. split; [|split].
  - rewrite Hall. destruct kw; [reflexivity | rewrite Hlast; reflexivity].
  - intros ->. apply N.eqb_neq. exact Hlast.
  - intros b t ->. simpl in Hall.
    rewrite !andb_true_iff, N.ltb_lt in Hall. tauto.
Qed.

(** a keyword at the start of the lowered line is a lowered start of
    the line *)
Lemma lower_prefix (kw : pystr) :
  keyword_like kw = true ->
  forall l post,
    str_lower l = kw ++ post ->
    exists found rest, l = found ++ rest /\ map ascii_lower found = kw.
Proof.
  induction kw as [|a kw IH]; intros K l post H.
  - exists [], l. split; reflexivity.
  - destruct (keyword_like_cons a kw K) as (Ha & Hk & K' & Hi & Hb).
    destruct l as [|c t]; [discriminate|].
    unfold str_lower in H. simpl flat_map in H.
    fold (str_lower t) in H.
    destruct (lower_cp_cases c) as [[Hc E]|[[x [Hx E]]|[E|E]]];
      rewrite E in H; simpl in H.
    + injection H as Hh Ht.
      destruct (IH K' t post Ht) as (found & rest & -> & Hf).
      exists (c :: found), rest. split; [reflexivity|].
      simpl. congruence.
    + injection H as Hh Ht. lia.
    + injection H as Hh Ht. destruct kw as [|b kw'].
      * exfalso. apply Hi; [reflexivity | congruence].
      * injection Ht as Hb' _. specialize (Hb b kw' eq_refl). lia.
    + injection H as Hh Ht. congruence.
Qed.

Lemma lower_found (kw : pystr) :
  keyword_like kw = true ->
  forall l pre post,
    str_lower l = pre ++ kw ++ post -> contains_ignoring_case kw l.
Proof.
  intros K. induction l as [|c t IH]; intros pre post H.
  - destruct pre; [|discriminate]. destruct kw; [|discriminate].
    exists [], [], []. split; reflexivity.
  - destruct pre as [|p0 pre].
    + destruct (lower_prefix kw K (c :: t) post H) as (found & rest & E & Hf).
      exists [], found, rest. split; assumption.
    + unfold str_lower in H. simpl flat_map in H. fold (str_lower t) in H.
      assert (S : forall x, lower_cp c = [x] -> contains_ignoring_case kw (c :: t)).
      { intros x E. rewrite E in H. simpl in H. injection H as _ Ht.
        destruct (IH pre post Ht) as (b & f & a & -> & Hf).
        exists (c :: b), f, a. split; [reflexivity | exact Hf]. }
      destruct (lower_cp_cases c) as [[Hc E]|[[x [Hx E]]|[E|E]]];
        try (eapply S; eassumption).
      rewrite E in H. simpl in H. injection H as _ Ht.
      destruct pre as [|p1 pre].
      * destruct kw as [|b kw'].
        -- exists [], [], (c :: t). split; reflexivity.
        -- simpl in Ht. injection Ht as Hb _.
           destruct (keyword_like_cons b kw' K) as (Hlt & _). lia.
      * simpl in Ht. injection Ht as _ Ht.
        destruct (IH pre post Ht) as (b & f & a & -> & Hf).
        exists (c :: b), f, a. split; [reflexivity | exact Hf].
Qed.

Lemma lower_cp_ascii (c : N) :
  (c < 0x80)%N -> lower_cp c = [ascii_lower c].
Proof.
  intros H. unfold lower_cp, ascii_lower.
  destruct (in_range 0x41 0x5A c); [reflexivity|].
  unfold in_range.
  destruct ((0xC0 <=? c)%N && (c <=? 0xDE)%N && negb (c =? 0xD7)%N) eqn:E2.
  { rewrite !andb_true_iff, !N.leb_le in E2. lia. }
  destruct (c =? 0x130)%N eqn:E3; [apply N.eqb_eq in E3; lia|].
  destruct (c =? 0x212A)%N eqn:E4; [apply N.eqb_eq in E4; lia|].
  reflexivity.
Qed.

Lemma lower_of_found (found : pystr) :
  plain (map ascii_lower found) = true ->
  str_lower found = map ascii_lower found.
Proof.
  induction found as [|c t IH]; [reflexivity|].
  simpl map. unfold plain. simpl forallb.
  rewrite andb_true_iff, N.ltb_lt. intros [Hc Ht].
  unfold str_lower. simpl flat_map. fold (str_lower t).
  rewrite (IH Ht).
  assert (Hlow : (c < 0x80)%N).
  { unfold ascii_lower in Hc.
    destruct (in_range 0x41 0x5A c) eqn:E; [|exact Hc].
    unfold in_range in E. rewrite andb_true_iff, !N.leb_le in E. lia. }
  rewrite (lower_cp_ascii c Hlow). reflexivity.
Qed.

Lemma keyword_like_plain (kw : pystr) :
  keyword_like kw = true -> plain kw = true.
Proof.
  unfold keyword_like, plain. rewrite andb_true_iff, !forallb_forall.
  intros [H _] c Hc. specialize (H c Hc).
  apply andb_true_iff in H. tauto.
Qed.

(** [kw in line.lower()] says that [kw] occurs in [line], case ignored *)
Lemma in_lower_spec (kw line : pystr) :
  keyword_like kw = true ->
  str_in kw (str_lower line) = true <-> contains_ignoring_case kw line.
Proof.
  intros K. rewrite str_in_spec. split.
  - intros [a [b H]]. eapply lower_found; eauto.
  - intros (before & found & after & -> & Hf). subst kw.
    exists (str_lower before), (str_lower after).
    rewrite <- (lower_of_found found (keyword_like_plain _ K)).
    unfold str_lower. rewrite !flat_map_app. reflexivity.
Qed.

Lemma keywords_are_keyword_like : forallb keyword_like keywords = true.
Proof. vm_compute. reflexivity. Qed.

Lemma mentions_keyword_spec (line : pystr) :
  mentions_keyword line = true
  <-> exists kw, In kw keywords /\ contains_ignoring_case kw line.
Proof.
  unfold mentions_keyword, any. rewrite existsb_exists.
  pose proof keywords_are_keyword_like as K.
  rewrite forallb_forall in K.
  split; intros (kw & Hin & H); exists kw; (split; [exact Hin|]);
    apply (in_lower_spec kw line (K kw Hin)); exact H.
Qed.

Lemma changing_data_lines_spec (found : list pystr) :
  changing_data_lines (map str_strip found)
  = match found with
    | [] => []
    | _ :: _ =>
      (nl ++ u "🔍 CHANGING DATA DETECTED:")
      :: map (fun line => u "   📈 " ++ str_strip line) (firstn 5 found)
    end.
Proof.
  unfold changing_data_lines. destruct found as [|l ls]; [reflexivity|].
  cbn [map List.length Nat.eqb negb]. rewrite <- map_cons.
  rewrite firstn_map, map_map. reflexivity.
Qed.

(** ** The uptime *)

Lemma str_of_int_nonneg (z : Z) :
  0 <= z -> forallb is_digit (str_of_int z) = true /\ str_of_int z <> [].
Proof.
  intros H. unfold str_of_int, NilZero.string_of_int.
  destruct z as [|p|p]; [| |lia]; simpl Z.to_int; cbv beta iota.
  - split; [reflexivity | discriminate].
  - split; [apply digits_of_uint_zero|].
    destruct (Pos.to_uint p); discriminate.
Qed.

Lemma zero_pad_3 (z : Z) :
  0 <= z < 1000 ->
  List.length (zero_pad 3 z) = 3%nat /\ forallb is_digit (zero_pad 3 z) = true.
Proof.
  intros H.
  assert (A : forallb
                (fun n => Nat.eqb (List.length (zero_pad 3 (Z.of_nat n))) 3
                          && forallb is_digit (zero_pad 3 (Z.of_nat n)))
                (seq 0 1000) = true) by (vm_compute; reflexivity).
  rewrite forallb_forall in A.
  specialize (A (Z.to_nat z)).
  rewrite Z2Nat.id in A by lia.
  assert (I : In (Z.to_nat z) (seq 0 1000)) by (apply in_seq; lia).
  apply A in I. apply andb_true_iff in I. destruct I as [L D].
  apply Nat.eqb_eq in L. split; assumption.
Qed.

Lemma div_half_even_nearest (n d : Z) :
  0 <= n -> 0 < d ->
  0 <= div_half_even n d /\ 2 * Z.abs (div_half_even n d * d - n) <= d.
Proof.
  intros Hn Hd.
  pose proof (Z.div_mod n d ltac:(lia)) as E.
  pose proof (Z.mod_pos_bound n d Hd) as B.
  pose proof (Z.div_pos n d Hn Hd) as Q.
  unfold div_half_even. cbv zeta.
  assert (H0 : n / d * d - n = - (n mod d))
    by (rewrite (Z.mul_comm (n / d) d); lia).
  assert (H1 : (n / d + 1) * d - n = d - n mod d)
    by (rewrite Z.mul_add_distr_r, (Z.mul_comm (n / d) d); lia).
  destruct (2 * (n mod d) ?= d) eqn:C.
  - apply Z.compare_eq in C.
    destruct (Z.even (n / d)); rewrite ?H0, ?H1; clear E H0 H1; lia.
  - rewrite Z.compare_lt_iff in C. rewrite H0. clear E H0 H1. lia.
  - rewrite Z.compare_gt_iff in C. rewrite H1. clear E H0 H1. lia.
Qed.

Lemma div_half_even_tie (n d : Z) :
  0 <= n -> 0 < d ->
  2 * Z.abs (div_half_even n d * d - n) = d ->
  Z.even (div_half_even n d) = true.
Proof.
  intros Hn Hd.
  pose proof (Z.div_mod n d ltac:(lia)) as E.
  pose proof (Z.mod_pos_bound n d Hd) as B.
  unfold div_half_even. cbv zeta.
  assert (H0 : n / d * d - n = - (n mod d))
    by (rewrite (Z.mul_comm (n / d) d); lia).
  assert (H1 : (n / d + 1) * d - n = d - n mod d)
    by (rewrite Z.mul_add_distr_r, (Z.mul_comm (n / d) d); lia).
  destruct (2 * (n mod d) ?= d) eqn:C.
  - intros _. destruct (Z.even (n / d)) eqn:V; [exact V|].
    rewrite Z.even_add, V. reflexivity.
  - rewrite Z.compare_lt_iff in C. rewrite H0. clear E H0 H1. lia.
  - rewrite Z.compare_gt_iff in C. rewrite H1. clear E H0 H1. lia.
Qed.

Lemma nearest_even_unique (n d k k' : Z) :
  0 < d ->
  2 * Z.abs (k * d - n) <= d ->
  (2 * Z.abs (k * d - n) = d -> Z.even k = true) ->
  2 * Z.abs (k' * d - n) <= d ->
  (2 * Z.abs (k' * d - n) = d -> Z.even k' = true) ->
  k' = k.
Proof.
  intros Hd A T A' T'.
  assert (S : forall a b,
            a < b ->
            2 * Z.abs (a * d - n) <= d ->
            2 * Z.abs (b * d - n) <= d ->
            b = a + 1
            /\ 2 * Z.abs (a * d - n) = d /\ 2 * Z.abs (b * d - n) = d).
  { intros a b L Ha Hb.
    assert (G : 0 <= (b - a - 1) * d) by (apply Z.mul_nonneg_nonneg; lia).
    rewrite !Z.mul_sub_distr_r, Z.mul_1_l in G.
    assert (b - a - 1 <= 0).
    { destruct (Z.le_gt_cases (b - a - 1) 0) as [|P]; [assumption|].
      assert (1 * d <= (b - a - 1) * d)
        by (apply Z.mul_le_mono_nonneg_r; lia).
      rewrite !Z.mul_sub_distr_r, !Z.mul_1_l in H. lia. }
    assert (b = a + 1) by lia. subst b.
    rewrite Z.mul_add_distr_r, Z.mul_1_l in *. lia. }
  destruct (Z.lt_trichotomy k k') as [L|[L|L]]; [|congruence|].
  - destruct (S k k' L A A') as (-> & E & E').
    specialize (T E). specialize (T' E').
    rewrite Z.even_add, T in T'. discriminate.
  - destruct (S k' k L A' A) as (-> & E' & E).
    specialize (T E). specialize (T' E').
    rewrite Z.even_add, T' in T. discriminate.
Qed.

Lemma thousandths_nearest (m : positive) (e : Z) :
  0 <= thousandths m e /\ nearest_thousandth m e (thousandths m e).
Proof.
  unfold thousandths, nearest_thousandth.
  destruct (0 <=? e) eqn:E.
  - apply Z.leb_le in E. split; [|reflexivity].
    pose proof (Z.pow_nonneg 2 e ltac:(lia)). nia.
  - apply Z.leb_gt in E. cbv zeta.
    assert (P : 0 < 2 ^ (- e)) by (apply Z.pow_pos_nonneg; lia).
    destruct (div_half_even_nearest (Z.pos m * 1000) (2 ^ (- e)))
      as [K0 K]; [lia|exact P|].
    split; [exact K0|]. split; [exact K|].
    apply div_half_even_tie; [lia|exact P].
Qed.

Lemma thousandths_unique (m : positive) (e k : Z) :
  nearest_thousandth m e k -> k = thousandths m e.
Proof.
  intros H. destruct (thousandths_nearest m e) as [_ T]. revert H T.
  unfold nearest_thousandth. destruct (0 <=? e) eqn:E.
  - intros -> ->. reflexivity.
  - apply Z.leb_gt in E. cbv zeta. intros [A B] [A' B'].
    assert (P : 0 < 2 ^ (- e)) by (apply Z.pow_pos_nonneg; lia).
    exact (nearest_even_unique _ _ _ _ P A' B' A B).
Qed.

Lemma fixed_point_3_shape (neg : bool) (k : Z) :
  0 <= k -> three_decimals (fixed_point_3 neg k).
Proof.
  intros H. unfold three_decimals, fixed_point_3.
  destruct (str_of_int_nonneg (k / 1000)) as [D NE];
    [apply Z.div_pos; lia|].
  destruct (zero_pad_3 (k mod 1000)) as [L F];
    [apply Z.mod_pos_bound; lia|].
  exists (sign_text neg), (str_of_int (k / 1000)), (zero_pad 3 (k mod 1000)).
  split; [reflexivity|].
  split; [destruct neg; [right|left]; reflexivity|].
  repeat split; assumption.
Qed.

Lemma format_of_finite (x : spec_float) :
  is_finite x = true -> three_decimals (format_float_3f x).
Proof.
  destruct x as [s| | |s m e]; try discriminate; intros _.
  - change (format_float_3f (S754_zero s)) with (fixed_point_3 s 0).
    apply fixed_point_3_shape. lia.
  - apply fixed_point_3_shape. apply thousandths_nearest.
Qed.

Lemma format_of_infinite (x : spec_float) :
  is_finite x = false ->
  format_float_3f x = u "inf" \/ format_float_3f x = u "-inf"
  \/ format_float_3f x = u "nan".
Proof.
  destruct x as [s|[|]| |s m e]; try discriminate; intros _;
    [right; left | left | right; right]; reflexivity.
Qed.

Lemma no_three_decimals_without_point (t : pystr) :
  existsb (N.eqb 0x2E) t = false -> ~ three_decimals t.
Proof.
  intros H (sign & ip & fp & -> & _).
  rewrite !existsb_app in H. apply orb_false_iff in H. destruct H as [_ H].
  apply orb_false_iff in H. destruct H as [_ H].
  apply orb_false_iff in H. destruct H as [H _]. discriminate.
Qed.

Lemma uptime_of_number (self : handler) (v : latin1) (x : spec_float) :
  headers_find (headers self) "X-ESP32-Uptime-MS" = Some v ->
  float_of_str v = Ok x ->
  uptime_of self = Ok (PyFloat (float_div_int x 1000)).
Proof.
  intros Hv Hx. unfold uptime_of, esp32_uptime_of, headers_get_str.
  rewrite Hv. unfold uptime_seconds_of.
  destruct (String.eqb v "N/A") eqn:E.
  - apply String.eqb_eq in E. subst v. vm_compute in Hx. discriminate.
  - simpl. rewrite Hx. reflexivity.
Qed.

(* ------------------------------------------------------------------ *)
(** ** The claims *)



(** C2, as the code has it. No malformed input is brought to a default.
    A Content-Length that [int] rejects ends the handler with ValueError.
    A payload (the bytes that the read returned) that is not UTF-8 ends
    it with UnicodeDecodeError. An uptime header that [float] rejects
    (and is not "N/A") ends it with an exception: ValueError when the
    Content-Length and the payload went through, the exception of those
    otherwise. In each case the exception leaves the handler after the
    request was counted; nothing is printed and nothing is sent. *)
Theorem malformed_post_raises (self : handler) (w : world) :
  (forall v,
     headers_find (headers self) "Content-Length" = Some v ->
     int_of_str v = Raise ValueError ->
     fails (do_POST self) w ValueError)
  /\ (forall n raw,
        content_length_of self = Ok n ->
        read n (rfile w) (room w) = Ok raw ->
        utf8_decode raw = Raise UnicodeDecodeError ->
        fails (do_POST self) w UnicodeDecodeError)
  /\ (forall v,
        headers_find (headers self) "X-ESP32-Uptime-MS" = Some v ->
        v <> "N/A"%string ->
        float_of_str v = Raise ValueError ->
        (exists e, post_exception e /\ fails (do_POST self) w e)
        /\ (forall post_data,
              post_data_of self w = Ok post_data ->
              fails (do_POST self) w ValueError))
  /\ message_count (snd (do_POST self w)) = message_count w + 1.
Proof.
  split; [|split; [|split]].
  - intros v Hv Hi. apply post_raise. unfold raises.
    rewrite (length_rejected self v Hv Hi). reflexivity.
  - intros n raw Hn Hr Hd. apply post_raise.
    unfold raises, post_data_of, payload_of. rewrite Hn, Hr, Hd. reflexivity.
  - intros v Hv Hna Hf. apply rejected_uptime_raises.
    exact (uptime_rejected self v Hv Hna Hf).
  - apply post_counts.
Qed.

(** C2 as the specification states it fails: a Content-Length "abc", a
    body that is the byte 0xFF, an uptime "abc" each end the handler
    with an exception and leave the client without an answer. *)
Lemma malformed_posts_get_no_answer :
  fst (handle_request sample_bad_length initial_world)
  = {| outcome := Raise ValueError; sent := [] |}
  /\ fst (handle_request sample_bad_body initial_world)
     = {| outcome := Raise UnicodeDecodeError; sent := [] |}
  /\ fst (handle_request sample_bad_uptime initial_world)
     = {| outcome := Raise ValueError; sent := [] |}.
Proof. repeat split; vm_compute; reflexivity. Qed.

(** C3, as the code has it. When the request has no X-ESP32-Uptime-MS
    header, the uptime is 0: a POST that is otherwise well formed shows
    it as "0.000" in the log record and in the body of its 200 answer.
    A header that is present with a value that [float] rejects (other
    than "N/A") is not recovered from: the handler raises, prints
    nothing and sends nothing. The exception is ValueError when the
    Content-Length and the payload went through; otherwise it is the
    exception of those, raised before the uptime is looked at. *)
Theorem absent_uptime_is_zero (self : handler) (w : world) :
  (headers_find (headers self) "X-ESP32-Uptime-MS" = None ->
   malformed self w = false ->
   uptime_of self = Ok (PyInt 0)
   /\ exists post_data out message before,
       completes (do_POST self) w out "text/plain" message
       /\ out = post_log self (message_count w + 1) (timestamp_of (clock w))
                         post_data (PyInt 0)
       /\ In (u "   ⏱️  ESP32 Uptime: 0.000 seconds") out
       /\ message = before ++ u "🎯 ESP32 uptime: 0.000 seconds")
  /\ (forall v,
        headers_find (headers self) "X-ESP32-Uptime-MS" = Some v ->
        v <> "N/A"%string ->
        float_of_str v = Raise ValueError ->
        (exists e, post_exception e /\ fails (do_POST self) w e)
        /\ (forall post_data,
              post_data_of self w = Ok post_data ->
              fails (do_POST self) w ValueError)).
Proof.
  split.
  - intros Habsent Hwf.
    pose proof (uptime_default self Habsent) as Hu.
    split; [exact Hu|].
    destruct (well_formed_post self w Hwf) as (d & up & _ & Hup & C).
    rewrite Hu in Hup. injection Hup as <-.
    destruct (response_ends_with_uptime (esp32_counter_of self)
                (message_count w + 1) (timestamp_of (clock w)) (PyInt 0))
      as (before & Hb).
    exists d. eexists. eexists. exists before.
    split; [exact C|]. split; [reflexivity|]. split.
    + exact (log_has_uptime self _ _ d (PyInt 0)).
    + exact Hb.
  - intros v Hv Hna Hf. apply rejected_uptime_raises.
    exact (uptime_rejected self v Hv Hna Hf).
Qed.

(** a POST without any header shows 0.000 *)
Lemma absent_uptime_is_zero_witness :
  uptime_of (parsed sample_bare_post) = Ok (PyInt 0).
Proof.
  refine (proj1 (proj1 (absent_uptime_is_zero (parsed sample_bare_post)
                          (connect sample_bare_post initial_world)) _ _));
    reflexivity.
Defined.

(** C3 as the specification states it fails: the uptime "abc" is not
    shown as 0.000; the handler raises ValueError and the client gets no
    answer. *)
Lemma unparseable_uptime_is_fatal :
  float_of_str "abc" = Raise ValueError
  /\ fst (handle_request sample_bad_uptime initial_world)
     = {| outcome := Raise ValueError; sent := [] |}
  /\ stdout (snd (handle_request sample_bad_uptime initial_world)) = [].
Proof. repeat split; vm_compute; reflexivity. Qed.

(** C4, as the code has it. When the X-ESP32-Uptime-MS header is present
    and [float] accepts its value [x], the uptime is the double [x / 1000]
    and the log record and the response body show it in the format
    [.3f]. When the quotient is finite that is a fixed-point numeral with
    exactly three decimals: the sign, then [k / 1000], a point and the
    three digits of [k mod 1000], where [k] thousandths is the one
    decimal with three places nearest to the double, the even one when
    the double lies half way (62.5 milliseconds are shown as "0.062",
    187.5 as "0.188"). For an infinity or a NaN it is "inf", "-inf" or
    "nan". The header value "2500" is shown as "2.500". *)
Theorem uptime_in_seconds (self : handler) (w : world) (v : latin1)
  (x : spec_float) :
  headers_find (headers self) "X-ESP32-Uptime-MS" = Some v ->
  float_of_str v = Ok x ->
  let q := float_div_int x 1000 in
  uptime_of self = Ok (PyFloat q)
  /\ (malformed self w = false ->
      exists post_data out message before,
        completes (do_POST self) w out "text/plain" message
        /\ out = post_log self (message_count w + 1) (timestamp_of (clock w))
                          post_data (PyFloat q)
        /\ In (u "   ⏱️  ESP32 Uptime: " ++ format_float_3f q ++ u " seconds")
              out
        /\ message
           = before ++ u "🎯 ESP32 uptime: " ++ format_float_3f q
                    ++ u " seconds")
  /\ (is_finite q = true -> three_decimals (format_float_3f q))
  /\ (forall s m e,
        q = S754_finite s m e ->
        exists k,
          0 <= k
          /\ nearest_thousandth m e k
          /\ (forall k', nearest_thousandth m e k' -> k' = k)
          /\ format_float_3f q
             = (if s then u "-" else [])
                 ++ str_of_int (k / 1000) ++ u "." ++ zero_pad 3 (k mod 1000))
  /\ (is_finite q = false ->
      format_float_3f q = u "inf" \/ format_float_3f q = u "-inf"
      \/ format_float_3f q = u "nan")
  /\ (v = "2500"%string -> format_float_3f q = u "2.500")
  /\ (v = "62.5"%string -> format_float_3f q = u "0.062")
  /\ (v = "187.5"%string -> format_float_3f q = u "0.188").
Proof.
  intros Hv Hx q.
  pose proof (uptime_of_number self v x Hv Hx) as Hu. fold q in Hu.
  split; [exact Hu|]. split; [|split; [|split; [|split; [|split; [|split]]]]].
  - intros Hwf.
    destruct (well_formed_post self w Hwf) as (d & up & _ & Hup & C).
    rewrite Hu in Hup. injection Hup as <-.
    destruct (response_ends_with_uptime (esp32_counter_of self)
                (message_count w + 1) (timestamp_of (clock w)) (PyFloat q))
      as (before & Hb).
    exists d. eexists. eexists. exists before.
    split; [exact C|]. split; [reflexivity|]. split.
    + exact (log_has_uptime self _ _ d (PyFloat q)).
    + exact Hb.
  - apply format_of_finite.
  - intros s m e E. rewrite E. exists (thousandths m e).
    destruct (thousandths_nearest m e) as [K0 K].
    split; [exact K0|]. split; [exact K|].
    split; [intros k' Hk'; exact (thousandths_unique m e k' Hk')|].
    reflexivity.
  - apply format_of_infinite.
  - intros ->. vm_compute in Hx. injection Hx as <-.
    vm_compute. reflexivity.
  - intros ->. vm_compute in Hx. injection Hx as <-.
    vm_compute. reflexivity.
  - intros ->. vm_compute in Hx. injection Hx as <-.
    vm_compute. reflexivity.
Qed.

(** the message of the firmware, with the uptime 2500 ms *)
Lemma uptime_in_seconds_witness :
  format_float_3f
    (float_div_int (S754_finite false 5497558138880000 (-41)) 1000)
  = u "2.500".
Proof.
  refine (proj1 (proj2 (proj2 (proj2 (proj2 (proj2
    (uptime_in_seconds (parsed sample_post)
       (connect sample_post initial_world) "2500"
       (S754_finite false 5497558138880000 (-41)) _ _)))))) eq_refl);
    vm_compute; reflexivity.
Defined.

(** C4 as the specification states it fails: "1e400" is a number that
    [float] accepts, and the answer shows "inf", which has no decimals. *)
Lemma huge_uptime_has_no_decimals :
  float_of_str "1e400" = Ok (S754_infinity false)
  /\ fst (handle_request sample_huge_uptime initial_world)
     = {| outcome := Ok tt;
          sent := [Status 200; Header "Content-type" "text/plain";
                   EndHeaders;
                   Body "✅ Message #N/A received successfully by your computer!
📊 Server has now received 1 total messages.
⏰ Received at: 2025-03-07 12:00:01.023
🎯 ESP32 uptime: inf seconds"] |}
  /\ format_float_3f (float_div_int (S754_infinity false) 1000) = u "inf"
  /\ ~ three_decimals (u "inf").
Proof.
  split; [vm_compute; reflexivity|].
  split; [vm_compute; reflexivity|].
  split; [vm_compute; reflexivity|].
  apply no_three_decimals_without_point. vm_compute. reflexivity.
Qed.

(** C5, as the code has it. The declared length is the number that the
    text of the Content-Length header denotes, 0 when the header is
    absent. When it is a number [n] from 0 to the number of bytes that
    the client sends, the handler reads exactly [n] bytes: the payload
    is the first [n] bytes of the stream, the rest is left unread, and
    it is the decoding of the payload that the log record shows. The
    request is counted. With the length 0 the payload is empty whatever
    the stream holds; when the request has no device header either, it
    is answered 200 with the message that shows the defaults "N/A" and
    "0.000", and the log record shows them and the length 0. *)
Theorem payload_is_content_length_bytes (self : handler) (w : world) (n : Z) :
  content_length_of self = Ok n ->
  0 <= n <= Z.of_nat (String.length (rfile w)) ->
  match headers_find (headers self) "Content-Length" with
  | Some v => int_of_str v = Ok n
  | None => n = 0
  end
  /\ payload_of self w = Ok (bytes_take (Z.to_nat n) (rfile w))
  /\ Z.of_nat (String.length (bytes_take (Z.to_nat n) (rfile w))) = n
  /\ (bytes_take (Z.to_nat n) (rfile w)
        ++ rfile (snd (do_POST self w)))%string = rfile w
  /\ message_count (snd (do_POST self w)) = message_count w + 1
  /\ (malformed self w = false ->
      exists post_data up,
        utf8_decode (bytes_take (Z.to_nat n) (rfile w)) = Ok post_data
        /\ uptime_of self = Ok up
        /\ completes (do_POST self) w
             (post_log self (message_count w + 1) (timestamp_of (clock w))
                       post_data up)
             "text/plain"
             (response_message (esp32_counter_of self) (message_count w + 1)
                               (timestamp_of (clock w)) up)
        /\ In post_data
              (post_log self (message_count w + 1) (timestamp_of (clock w))
                        post_data up))
  /\ (n = 0 ->
      headers_find (headers self) "X-ESP32-Message-Counter" = None ->
      headers_find (headers self) "X-ESP32-Uptime-MS" = None ->
      payload_of self w = Ok ""%string
      /\ exists out,
          completes (do_POST self) w out "text/plain"
            (u "✅ Message #N/A received successfully by your computer!" ++ nl
             ++ u "📊 Server has now received "
               ++ str_of_int (message_count w + 1)
               ++ u " total messages." ++ nl
             ++ u "⏰ Received at: " ++ timestamp_of (clock w) ++ nl
             ++ u "🎯 ESP32 uptime: 0.000 seconds")
          /\ In (u "   🔢 ESP32 Message Counter: N/A") out
          /\ In (u "   ⏱️  ESP32 Uptime: 0.000 seconds") out
          /\ In (u "📏 Message Length: 0 bytes") out).
Proof.
  intros Hn Hin.
  assert (Hr : read n (rfile w) (room w)
               = Ok (bytes_take (Z.to_nat n) (rfile w)))
    by (apply read_within; exact Hin).
  assert (Hp : payload_of self w = Ok (bytes_take (Z.to_nat n) (rfile w)))
    by (unfold payload_of; rewrite Hn; exact Hr).
  split.
  { unfold content_length_of, headers_get in Hn.
    destruct (headers_find (headers self) "Content-Length");
      simpl in Hn; congruence. }
  split; [exact Hp|].
  split; [rewrite length_bytes_take; lia|].
  split.
  { rewrite (post_consumes self w n Hn (readable_within _ _ _ Hin)).
    rewrite read_size_nonneg, bytes_drop_min by lia.
    apply bytes_take_drop. }
  split; [apply post_counts|].
  split.
  { intros Hwf.
    destruct (well_formed_post self w Hwf) as (d & up & Hd & Hu & C).
    exists d, up.
    unfold post_data_of in Hd. rewrite Hp in Hd.
    repeat split; try assumption. apply log_has_payload. }
  intros -> Hc Hu.
  assert (He : payload_of self w = Ok ""%string) by exact Hp.
  split; [exact He|].
  assert (Hd : post_data_of self w = Ok [])
    by (unfold post_data_of; rewrite He; reflexivity).
  pose proof (uptime_default self Hu) as Hup.
  assert (Hwf : malformed self w = false)
    by (unfold malformed; rewrite Hn, Hd, Hup; reflexivity).
  destruct (well_formed_post self w Hwf) as (d & up & Hd' & Hup' & C).
  rewrite Hd in Hd'. injection Hd' as <-.
  rewrite Hup in Hup'. injection Hup' as <-.
  rewrite (counter_default self Hc) in C.
  eexists. split; [exact C|]. split; [|split].
  - pose proof (log_has_counter self (message_count w + 1)
                  (timestamp_of (clock w)) [] (PyInt 0)) as L.
    rewrite (counter_default self Hc) in L. exact L.
  - exact (log_has_uptime self _ _ [] (PyInt 0)).
  - exact (log_has_length self _ _ [] (PyInt 0)).
Qed.

(** the message of the firmware: the length 16 and a body of 16 bytes *)
Lemma payload_is_content_length_bytes_witness :
  payload_of (parsed sample_post) (connect sample_post initial_world)
  = Ok "Random value: 42"%string.
Proof.
  refine (proj1 (proj2
    (payload_is_content_length_bytes (parsed sample_post)
       (connect sample_post initial_world) 16 _ _)));
    [reflexivity | vm_compute; split; discriminate].
Defined.

(** C5 as the specification states it fails: the handler does not read
    exactly Content-Length bytes from every POST. With the length 8 and
    a body of five bytes the payload is those five bytes, and the
    request is answered as if nothing were amiss; with the length -1
    the payload is the whole body. *)
Lemma declared_length_is_not_always_read :
  content_length_of (parsed sample_short_body) = Ok 8
  /\ String.length (stream sample_short_body) = 5%nat
  /\ payload_of (parsed sample_short_body)
                (connect sample_short_body initial_world)
     = Ok "hello"%string
  /\ outcome (fst (handle_request sample_short_body initial_world)) = Ok tt
  /\ In (u "📏 Message Length: 5 bytes")
        (stdout (snd (handle_request sample_short_body initial_world)))
  /\ content_length_of (parsed sample_negative_length) = Ok (-1)
  /\ payload_of (parsed sample_negative_length)
                (connect sample_negative_length initial_world)
     = Ok "hello"%string.
Proof.
  split; [vm_compute; reflexivity|]. split; [reflexivity|].
  split; [vm_compute; reflexivity|]. split; [vm_compute; reflexivity|].
  split; [|split; vm_compute; reflexivity].
  vm_compute. do 14 right. left. reflexivity.
Qed.

(** a POST with Content-Length 0 and nothing after the headers: the
    answer that is sent *)
Example empty_post_is_answered :
  fst (handle_request sample_empty_post initial_world)
  = {| outcome := Ok tt;
       sent := [Status 200; Header "Content-type" "text/plain";
                EndHeaders;
                Body "✅ Message #N/A received successfully by your computer!
📊 Server has now received 1 total messages.
⏰ Received at: 2025-03-07 12:00:01.023
🎯 ESP32 uptime: 0.000 seconds"] |}
  /\ message_count (snd (handle_request sample_empty_post initial_world)) = 1.
Proof. split; vm_compute; reflexivity. Qed.

(** C6. The payload is split at its line feeds: the lines, joined by
    line feeds, are the payload, and no line holds a line feed. A line is
    selected exactly when one of the six keywords occurs in it, the case
    of letters ignored. The selected lines are kept in the order of the
    payload, each stripped of surrounding white space, and the log
    record that a POST with this payload prints shows the first 5 of
    them, in that order, under the heading "CHANGING DATA DETECTED"
    (nothing when no line is selected). *)
Theorem changing_data_scan (post_data : pystr) :
  let lines := str_split_lf post_data in
  let found := filter mentions_keyword lines in
  str_join nl lines = post_data
  /\ Forall (fun line => ~ In 0x0A%N line) lines
  /\ keywords = [u "counter"; u "uptime"; u "random"; u "hash"; u "heap";
                 u "message number"]
  /\ (forall line,
        mentions_keyword line = true
        <-> exists kw, In kw keywords /\ contains_ignoring_case kw line)
  /\ changing_data_of post_data = map str_strip found
  /\ (forall self w,
        post_data_of self w = Ok post_data ->
        malformed self w = false ->
        exists up,
          completes (do_POST self) w
            (post_log self (message_count w + 1) (timestamp_of (clock w))
                      post_data up)
            "text/plain"
            (response_message (esp32_counter_of self) (message_count w + 1)
                              (timestamp_of (clock w)) up))
  /\ (forall self count ts up,
        exists before,
          post_log self count ts post_data up
          = before ++ changing_data_lines (map str_strip found)
                   ++ [str_repeat (u "=") 80 ++ nl])
  /\ changing_data_lines (map str_strip found)
     = match found with
       | [] => []
       | _ :: _ =>
         (nl ++ u "🔍 CHANGING DATA DETECTED:")
         :: map (fun line => u "   📈 " ++ str_strip line) (firstn 5 found)
       end.
Proof.
  cbn zeta.
  assert (C : changing_data_of post_data
              = map str_strip (filter mentions_keyword (str_split_lf post_data))).
  { unfold changing_data_of. cbn zeta.
    rewrite (collect_is_filter_map mentions_keyword str_strip). reflexivity. }
  split; [apply split_join|].
  split; [apply split_lines_have_no_lf|].
  split; [reflexivity|].
  split; [exact mentions_keyword_spec|].
  split; [exact C|].
  split.
  { intros self w Hd Hwf.
    destruct (well_formed_post self w Hwf) as (d & up & Hd' & _ & Hc).
    rewrite Hd in Hd'. injection Hd' as <-. exists up. exact Hc. }
  split; [|apply changing_data_lines_spec].
  intros self count ts up. unfold post_log. rewrite C.
  eexists. rewrite !app_assoc. reflexivity.
Qed.

(** five lines, one of which mentions "random" with a capital *)
Example random_value_is_detected :
  changing_data_of (u "Hello from ESP32
Random value: 42
Chip: esp32
WiFi: connected
Status: OK")
  = [u "Random value: 42"].
Proof. vm_compute. reflexivity. Qed.

(** seven matching lines: the first five are printed, in their order *)
Example first_five_are_logged :
  changing_data_lines
    (changing_data_of (u "counter 1
uptime 2
random 3
hash 4
heap 5
message number 6
Counter 7"))
  = [nl ++ u "🔍 CHANGING DATA DETECTED:";
     u "   📈 counter 1"; u "   📈 uptime 2"; u "   📈 random 3";
     u "   📈 hash 4"; u "   📈 heap 5"].
Proof. vm_compute. reflexivity. Qed.

(** C7. Every GET, whatever its path and headers, returns: it prints one
    line, answers 200 with content type text/html and the status page,
    and leaves the Server Counter and the unread bytes of the connection
    as they were. The page is the text of lines 92-101 with the time of
    the request, to the second, in its fifth line; it depends on the
    clock only. *)
Theorem get_serves_status_page (self : handler) (w : world) :
  let timestamp := strftime_seconds (clock w) in
  let page := u "
        <html>
        <body>
            <h1>🎉 ESP32 HTTP Server is Running!</h1>
            <p>✅ Server is ready to receive ESP32 messages</p>
            <p>⏰ Current time: " ++ timestamp ++ u "</p>
            <p>💡 Check the console for POST messages from your ESP32</p>
        </body>
        </html>
        " in
  (exists body,
     utf8_encode page = Ok body
     /\ fst (do_GET self w) = Ok tt
     /\ wfile (snd (do_GET self w))
        = wfile w ++ [Status 200; Header "Content-type" "text/html";
                      EndHeaders; Body body])
  /\ stdout (snd (do_GET self w))
     = stdout w
       ++ [nl ++ u "📡 GET request from "
              ++ str_of_latin1 (fst (client_address self)) ++ u " to "
              ++ str_of_latin1 (path self) ++ u " at " ++ timestamp]
  /\ message_count (snd (do_GET self w)) = message_count w
  /\ rfile (snd (do_GET self w)) = rfile w
  /\ (forall other : handler,
        wfile (snd (do_GET other w)) = wfile (snd (do_GET self w)))
  /\ strftime_seconds noon = u "2025-03-07 12:00:01".
Proof.
  intros timestamp page.
  destruct (get_return self w) as ((b & Hb & Hr & Ho & Hw) & Hc & Hf).
  split; [exists b; repeat split; assumption|].
  split; [exact Ho|]. split; [exact Hc|]. split; [exact Hf|].
  split; [|reflexivity].
  intros other. rewrite !do_GET_run. cbn zeta.
  destruct (utf8_encode _); reflexivity.
Qed.

(** C8, on the code. The log record says "bytes", and what it prints is
    [len(post_data)], the number of characters of the decoded payload:
    for the two bytes of "é" it prints 1. *)
Theorem message_length_counts_characters :
  String.length (stream sample_two_bytes) = 2%nat
  /\ payload_of (parsed sample_two_bytes)
                (connect sample_two_bytes initial_world)
     = Ok (stream sample_two_bytes)
  /\ outcome (fst (handle_request sample_two_bytes initial_world)) = Ok tt
  /\ In (u "📏 Message Length: 1 bytes")
        (stdout (snd (handle_request sample_two_bytes initial_world)))
  /\ (forall self count ts post_data up,
        In (u "📏 Message Length: "
              ++ str_of_int (Z.of_nat (List.length post_data)) ++ u " bytes")
           (post_log self count ts post_data up)).
Proof.
  split; [reflexivity|]. split; [vm_compute; reflexivity|].
  split; [vm_compute; reflexivity|]. split.
  - vm_compute. do 14 right. left. reflexivity.
  - exact log_has_length.
Qed.

(** C9. When the request has no X-ESP32-Message-Counter header, the
    device counter is the text "N/A": a POST that is otherwise well
    formed prints it in the log record and echoes it in the body of its
    200 answer. *)
Theorem missing_counter_is_NA (self : handler) (w : world) :
  headers_find (headers self) "X-ESP32-Message-Counter" = None ->
  malformed self w = false ->
  esp32_counter_of self = "N/A"%string
  /\ exists post_data up out message rest,
      completes (do_POST self) w out "text/plain" message
      /\ out = post_log self (message_count w + 1) (timestamp_of (clock w))
                        post_data up
      /\ In (u "   🔢 ESP32 Message Counter: N/A") out
      /\ message
         = u "✅ Message #N/A received successfully by your computer!"
             ++ rest.
Proof.
  intros Habsent Hwf.
  pose proof (counter_default self Habsent) as Hc.
  split; [exact Hc|].
  destruct (well_formed_post self w Hwf) as (d & up & _ & _ & C).
  destruct (response_starts_with_counter (esp32_counter_of self)
              (message_count w + 1) (timestamp_of (clock w)) up)
    as (rest & Hrest).
  exists d, up. eexists. eexists. exists rest.
  split; [exact C|]. split; [reflexivity|]. split.
  - pose proof (log_has_counter self (message_count w + 1)
                  (timestamp_of (clock w)) d up) as L.
    rewrite Hc in L. exact L.
  - rewrite Hrest, Hc. reflexivity.
Qed.

(** a POST without any header *)
Lemma missing_counter_is_NA_witness :
  esp32_counter_of (parsed sample_bare_post) = "N/A"%string.
Proof.
  refine (proj1 (missing_counter_is_NA (parsed sample_bare_post)
                   (connect sample_bare_post initial_world) _ _));
    reflexivity.
Defined.

(** C10. An X-ESP32-Uptime-MS header whose value is the text "N/A" is
    taken for an absent header. [float] rejects "N/A", so parsing it
    would raise; the handler does not raise on it, the uptime is the 0
    of an absent header, and a POST that is otherwise well formed shows
    "0.000" in the log record and in its answer. *)
Theorem sentinel_uptime_is_absent (self : handler) (w : world) :
  headers_find (headers self) "X-ESP32-Uptime-MS" = Some "N/A"%string ->
  float_of_str "N/A" = Raise ValueError
  /\ uptime_of self = Ok (PyInt 0)
  /\ (forall other : handler,
        headers_find (headers other) "X-ESP32-Uptime-MS" = None ->
        uptime_of other = uptime_of self)
  /\ (malformed self w = false ->
      exists post_data out message before,
        completes (do_POST self) w out "text/plain" message
        /\ out = post_log self (message_count w + 1) (timestamp_of (clock w))
                          post_data (PyInt 0)
        /\ In (u "   ⏱️  ESP32 Uptime: 0.000 seconds") out
        /\ message = before ++ u "🎯 ESP32 uptime: 0.000 seconds").
Proof.
  intros Hv.
  assert (Hu : uptime_of self = Ok (PyInt 0)).
  { unfold uptime_of, esp32_uptime_of, headers_get_str. rewrite Hv.
    reflexivity. }
  split; [vm_compute; reflexivity|]. split; [exact Hu|]. split.
  - intros other Ho. rewrite Hu. apply uptime_default. exact Ho.
  - intros Hwf.
    destruct (well_formed_post self w Hwf) as (d & up & _ & Hup & C).
    rewrite Hu in Hup. injection Hup as <-.
    destruct (response_ends_with_uptime (esp32_counter_of self)
                (message_count w + 1) (timestamp_of (clock w)) (PyInt 0))
      as (before & Hb).
    exists d. eexists. eexists. exists before.
    split; [exact C|]. split; [reflexivity|]. split.
    + exact (log_has_uptime self _ _ d (PyInt 0)).
    + exact Hb.
Qed.

(** a POST whose uptime header says "N/A" *)
Lemma sentinel_uptime_is_absent_witness :
  uptime_of (parsed sample_sentinel_uptime) = Ok (PyInt 0).
Proof.
  refine (proj1 (proj2 (sentinel_uptime_is_absent
                          (parsed sample_sentinel_uptime)
                          (connect sample_sentinel_uptime initial_world) _)));
    reflexivity.
Defined.

End Properties.

(* ================================================================== *)
(** * UTF-8: encoding and decoding are inverse to each other *)
(* ================================================================== *)

Module Utf8.
Import Py PyFacts Properties.

Local Open Scope N_scope.

(** arithmetic on code points, with [/] and [mod] by a constant *)
Ltac arith := zify; Z.to_euclidean_division_equations; lia.

(** settle the comparisons of a goal, dropping the cases that the
    hypotheses exclude *)
Ltac decide_tests :=
  repeat match goal with
  | |- context [(?a <? ?b)%N] =>
    destruct (N.ltb_spec a b); try (exfalso; arith)
  | |- context [(?a <=? ?b)%N] =>
    destruct (N.leb_spec a b); try (exfalso; arith)
  | |- context [(?a =? ?b)%N] =>
    destruct (N.eqb_spec a b); try (exfalso; arith)
  end.

(** one step of the decoder *)
Lemma utf8_decode_codes_cons (b0 : N) (t0 : list N) :
  utf8_decode_codes (b0 :: t0) =
    if b0 <? 0x80 then
      option_map (cons b0) (utf8_decode_codes t0)
    else if in_range 0xC2 0xDF b0 then
      match t0 with
      | b1 :: t1 =>
        if is_cont b1 then
          option_map (cons ((b0 - 0xC0) * 64 + (b1 - 0x80)))
                     (utf8_decode_codes t1)
        else None
      | _ => None
      end
    else if in_range 0xE0 0xEF b0 then
      match t0 with
      | b1 :: b2 :: t2 =>
        if second_of_three b0 b1 && is_cont b2 then
          option_map
            (cons ((b0 - 0xE0) * 4096 + (b1 - 0x80) * 64 + (b2 - 0x80)))
            (utf8_decode_codes t2)
        else None
      | _ => None
      end
    else if in_range 0xF0 0xF4 b0 then
      match t0 with
      | b1 :: b2 :: b3 :: t3 =>
        if second_of_four b0 b1 && is_cont b2 && is_cont b3 then
          option_map
            (cons ((b0 - 0xF0) * 262144 + (b1 - 0x80) * 4096
                   + (b2 - 0x80) * 64 + (b3 - 0x80)))
            (utf8_decode_codes t3)
        else None
      | _ => None
      end
    else None.
Proof. reflexivity. Qed.

Lemma some_inj {A : Type} (a b : A) : Some a = Some b -> a = b.
Proof. congruence. Qed.

(** the decoder reads the bytes of one encoded character as that
    character *)
Lemma decode_encoded_cp (c : N) (x rest : list N) :
  utf8_encode_cp c = Some x ->
  utf8_decode_codes (x ++ rest)
  = option_map (cons c) (utf8_decode_codes rest).
Proof.
  unfold utf8_encode_cp, in_range.
  destruct (N.ltb_spec c 0x80).
  { intros E. apply some_inj in E. subst x.
    cbn [app]. rewrite utf8_decode_codes_cons.
    decide_tests. reflexivity. }
  destruct (N.ltb_spec c 0x800).
  { intros E. apply some_inj in E. subst x.
    cbn [app]. rewrite utf8_decode_codes_cons.
    unfold is_cont, in_range.
    decide_tests; cbn [andb]; f_equal; f_equal; arith. }
  destruct (N.ltb_spec c 0x10000).
  { destruct ((0xD800 <=? c) && (c <=? 0xDFFF)) eqn:S; [discriminate|].
    assert (c < 0xD800 \/ 0xDFFF < c).
    { apply andb_false_iff in S. rewrite !N.leb_gt in S. tauto. }
    clear S. intros E. apply some_inj in E. subst x.
    cbn [app]. rewrite utf8_decode_codes_cons.
    unfold second_of_three, is_cont, in_range.
    decide_tests; cbn [andb]; f_equal; f_equal; arith. }
  destruct (N.ltb_spec c 0x110000); [|discriminate].
  intros E. apply some_inj in E. subst x.
  cbn [app]. rewrite utf8_decode_codes_cons.
  unfold second_of_four, is_cont, in_range.
  decide_tests; cbn [andb]; f_equal; f_equal; arith.
Qed.

(** the boolean tests among the hypotheses, as inequalities *)
Ltac facts :=
  repeat match goal with
  | H : (_ && _) = true |- _ => apply andb_true_iff in H; destruct H
  | H : (_ <=? _)%N = true |- _ => apply N.leb_le in H
  | H : (_ <=? _)%N = false |- _ => apply N.leb_gt in H
  | H : (_ <? _)%N = true |- _ => apply N.ltb_lt in H
  | H : (_ <? _)%N = false |- _ => apply N.ltb_ge in H
  | H : (_ =? _)%N = true |- _ => apply N.eqb_eq in H
  | H : (_ =? _)%N = false |- _ => apply N.eqb_neq in H
  | H : (if ?c then _ else _) = true |- _ => destruct c eqn:?
  end.

(** a well-formed sequence of two, three or four bytes is the encoding
    of the character it decodes to *)
Lemma encode_cp_2 (b0 b1 : N) :
  in_range 0xC2 0xDF b0 = true -> is_cont b1 = true ->
  utf8_encode_cp ((b0 - 0xC0) * 64 + (b1 - 0x80)) = Some [b0; b1].
Proof.
  unfold is_cont, in_range. intros H0 H1. facts.
  unfold utf8_encode_cp, in_range.
  decide_tests; cbn [andb]; repeat (f_equal; try arith).
Qed.

Lemma encode_cp_3 (b0 b1 b2 : N) :
  in_range 0xE0 0xEF b0 = true ->
  second_of_three b0 b1 = true -> is_cont b2 = true ->
  utf8_encode_cp ((b0 - 0xE0) * 4096 + (b1 - 0x80) * 64 + (b2 - 0x80))
  = Some [b0; b1; b2].
Proof.
  unfold second_of_three, is_cont, in_range. intros H0 H1 H2. facts.
  all: unfold utf8_encode_cp, in_range.
  all: decide_tests; cbn [andb]; repeat (f_equal; try arith).
Qed.

Lemma encode_cp_4 (b0 b1 b2 b3 : N) :
  in_range 0xF0 0xF4 b0 = true ->
  second_of_four b0 b1 = true -> is_cont b2 = true -> is_cont b3 = true ->
  utf8_encode_cp ((b0 - 0xF0) * 262144 + (b1 - 0x80) * 4096
                  + (b2 - 0x80) * 64 + (b3 - 0x80))
  = Some [b0; b1; b2; b3].
Proof.
  unfold second_of_four, is_cont, in_range. intros H0 H1 H2 H3. facts.
  all: unfold utf8_encode_cp, in_range.
  all: decide_tests; cbn [andb]; repeat (f_equal; try arith).
Qed.

Lemma encode_decoded_codes (n : nat) :
  forall bs s,
    (List.length bs <= n)%nat ->
    utf8_decode_codes bs = Some s ->
    utf8_encode_codes s = Some bs
    /\ (List.length s <= List.length bs <= 4 * List.length s)%nat.
Proof.
  induction n as [|n IH]; intros bs s Hl Hd.
  - destruct bs; [|simpl in Hl; lia].
    simpl in Hd. apply some_inj in Hd. subst s. split; [reflexivity|simpl; lia].
  - destruct bs as [|b0 t0].
    { simpl in Hd. apply some_inj in Hd. subst s.
      split; [reflexivity|simpl; lia]. }
    rewrite utf8_decode_codes_cons in Hd. cbn [List.length] in Hl.
    destruct (b0 <? 0x80) eqn:T1.
    { destruct (utf8_decode_codes t0) as [s'|] eqn:E; [|discriminate].
      cbn [option_map] in Hd. apply some_inj in Hd. subst s.
      destruct (IH t0 s' ltac:(lia) E) as [He Hb].
      cbn [utf8_encode_codes]. unfold utf8_encode_cp at 1.
      rewrite T1, He. split; [reflexivity | cbn [List.length]; lia]. }
    destruct (in_range 0xC2 0xDF b0) eqn:T2.
    { destruct t0 as [|b1 t1]; [discriminate|].
      destruct (is_cont b1) eqn:C1; [|discriminate].
      destruct (utf8_decode_codes t1) as [s'|] eqn:E; [|discriminate].
      cbn [option_map] in Hd. apply some_inj in Hd. subst s.
      cbn [List.length] in Hl.
      destruct (IH t1 s' ltac:(lia) E) as [He Hb].
      cbn [utf8_encode_codes]. rewrite (encode_cp_2 b0 b1 T2 C1), He.
      split; [reflexivity | cbn [List.length]; lia]. }
    destruct (in_range 0xE0 0xEF b0) eqn:T3.
    { destruct t0 as [|b1 [|b2 t2]]; try discriminate.
      destruct (second_of_three b0 b1) eqn:C1; [|discriminate].
      destruct (is_cont b2) eqn:C2; [|discriminate].
      cbn [andb] in Hd.
      destruct (utf8_decode_codes t2) as [s'|] eqn:E; [|discriminate].
      cbn [option_map] in Hd. apply some_inj in Hd. subst s.
      cbn [List.length] in Hl.
      destruct (IH t2 s' ltac:(lia) E) as [He Hb].
      cbn [utf8_encode_codes]. rewrite (encode_cp_3 b0 b1 b2 T3 C1 C2), He.
      split; [reflexivity | cbn [List.length]; lia]. }
    destruct (in_range 0xF0 0xF4 b0) eqn:T4; [|discriminate].
    destruct t0 as [|b1 [|b2 [|b3 t3]]]; try discriminate.
    destruct (second_of_four b0 b1) eqn:C1; [|discriminate].
    destruct (is_cont b2) eqn:C2; [|discriminate].
    destruct (is_cont b3) eqn:C3; [|discriminate].
    cbn [andb] in Hd.
    destruct (utf8_decode_codes t3) as [s'|] eqn:E; [|discriminate].
    cbn [option_map] in Hd. apply some_inj in Hd. subst s.
    cbn [List.length] in Hl.
    destruct (IH t3 s' ltac:(lia) E) as [He Hb].
    cbn [utf8_encode_codes]. rewrite (encode_cp_4 b0 b1 b2 b3 T4 C1 C2 C3), He.
    split; [reflexivity | cbn [List.length]; lia].
Qed.

Lemma decode_encoded_codes (s : pystr) :
  forall bs, utf8_encode_codes s = Some bs -> utf8_decode_codes bs = Some s.
Proof.
  induction s as [|c t IH]; intros bs H.
  - simpl in H. apply some_inj in H. subst bs. reflexivity.
  - cbn [utf8_encode_codes] in H.
    destruct (utf8_encode_cp c) as [x|] eqn:E; [|discriminate].
    destruct (utf8_encode_codes t) as [y|] eqn:F; [|discriminate].
    apply some_inj in H. subst bs.
    rewrite (decode_encoded_cp c x y E), (IH y eq_refl). reflexivity.
Qed.

Lemma encoded_bytes (c : N) (x : list N) :
  utf8_encode_cp c = Some x -> Forall (fun b => b < 256) x /\ scalar c = true.
Proof.
  unfold utf8_encode_cp, in_range. rewrite scalar_spec.
  destruct (N.ltb_spec c 0x80).
  { intros E. apply some_inj in E. subst x.
    split; [repeat constructor; lia | lia]. }
  destruct (N.ltb_spec c 0x800).
  { intros E. apply some_inj in E. subst x.
    split; [repeat constructor; arith | lia]. }
  destruct (N.ltb_spec c 0x10000).
  { destruct ((0xD800 <=? c) && (c <=? 0xDFFF)) eqn:S; [discriminate|].
    assert (c < 0xD800 \/ 0xDFFF < c).
    { apply andb_false_iff in S. rewrite !N.leb_gt in S. tauto. }
    intros E. apply some_inj in E. subst x.
    split; [repeat constructor; arith | lia]. }
  destruct (N.ltb_spec c 0x110000); [|discriminate].
  intros E. apply some_inj in E. subst x.
  split; [repeat constructor; arith | lia].
Qed.

Lemma encoded_codes (s : pystr) (bs : list N) :
  utf8_encode_codes s = Some bs ->
  Forall (fun b => b < 256) bs /\ encodable s = true.
Proof.
  revert bs. induction s as [|c t IH]; intros bs H.
  - simpl in H. apply some_inj in H. subst bs. split; [constructor|reflexivity].
  - cbn [utf8_encode_codes] in H.
    destruct (utf8_encode_cp c) as [x|] eqn:E; [|discriminate].
    destruct (utf8_encode_codes t) as [y|] eqn:F; [|discriminate].
    apply some_inj in H. subst bs.
    destruct (encoded_bytes c x E) as [B S].
    destruct (IH y eq_refl) as [B' S'].
    split; [apply Forall_app; split; assumption|].
    unfold encodable in *. cbn [forallb]. rewrite S, S'. reflexivity.
Qed.

Lemma of_codes_codes (b : string) : of_codes (codes b) = b.
Proof.
  unfold of_codes, codes. rewrite map_map.
  rewrite (map_ext _ (fun a => a)) by (intros a; apply ascii_N_embedding).
  rewrite map_id. apply string_of_list_ascii_of_string.
Qed.

Lemma codes_of_codes (l : list N) :
  Forall (fun b => b < 256) l -> codes (of_codes l) = l.
Proof.
  intros H. unfold of_codes, codes.
  rewrite list_ascii_of_string_of_list_ascii, map_map.
  induction H as [|b t Hb _ IH]; [reflexivity|].
  cbn [map]. rewrite IH, N_ascii_embedding by exact Hb. reflexivity.
Qed.

Lemma length_codes (b : string) : List.length (codes b) = String.length b.
Proof.
  unfold codes. rewrite length_map. apply length_list_ascii_of_string.
Qed.

(** encoding and then decoding gives the text back *)
Lemma decode_encode (s : pystr) (b : bytes) :
  utf8_encode s = Ok b -> utf8_decode b = Ok s.
Proof.
  unfold utf8_encode, utf8_decode.
  destruct (utf8_encode_codes s) as [bs|] eqn:E; [|discriminate].
  cbn. intros [= <-].
  rewrite (codes_of_codes bs (proj1 (encoded_codes s bs E))).
  rewrite (decode_encoded_codes s bs E). reflexivity.
Qed.

(** decoding and then encoding gives the bytes back *)
Lemma encode_decode (b : bytes) (s : pystr) :
  utf8_decode b = Ok s ->
  utf8_encode s = Ok b
  /\ encodable s = true
  /\ (List.length s <= String.length b <= 4 * List.length s)%nat.
Proof.
  unfold utf8_encode, utf8_decode.
  destruct (utf8_decode_codes (codes b)) as [s'|] eqn:E; [|discriminate].
  cbn. intros [= <-].
  destruct (encode_decoded_codes _ _ _ (Nat.le_refl _) E) as [He Hb].
  rewrite He. cbn. rewrite of_codes_codes.
  split; [reflexivity|]. split.
  - apply (encoded_codes s' _ He).
  - rewrite <- length_codes. exact Hb.
Qed.

(** ** How many bytes a text takes *)

Lemma encoded_cp_length (c : N) (x : list N) :
  utf8_encode_cp c = Some x ->
  (1 <= List.length x)%nat /\ (List.length x = 1%nat <-> (c <? 0x80) = true).
Proof.
  unfold utf8_encode_cp.
  destruct (c <? 0x80).
  { intros E. apply some_inj in E. subst x. cbn [List.length]. intuition lia. }
  destruct (c <? 0x800).
  { intros E. apply some_inj in E. subst x. cbn [List.length].
    intuition (try lia; try discriminate). }
  destruct (c <? 0x10000).
  { destruct (in_range 0xD800 0xDFFF c); [discriminate|].
    intros E. apply some_inj in E. subst x. cbn [List.length].
    intuition (try lia; try discriminate). }
  destruct (c <? 0x110000); [|discriminate].
  intros E. apply some_inj in E. subst x. cbn [List.length].
  intuition (try lia; try discriminate).
Qed.

Lemma encoded_codes_length (s : pystr) :
  forall bs, utf8_encode_codes s = Some bs ->
  (List.length s <= List.length bs)%nat
  /\ (List.length bs = List.length s <-> plain s = true).
Proof.
  induction s as [|c t IH]; intros bs H.
  - simpl in H. apply some_inj in H. subst bs. simpl. intuition lia.
  - cbn [utf8_encode_codes] in H.
    destruct (utf8_encode_cp c) as [x|] eqn:E; [|discriminate].
    destruct (utf8_encode_codes t) as [y|] eqn:F; [|discriminate].
    apply some_inj in H. subst bs.
    destruct (encoded_cp_length c x E) as [L1 L2].
    destruct (IH y eq_refl) as [M1 M2].
    rewrite length_app. unfold plain in *. cbn [List.length forallb].
    rewrite andb_true_iff. split; [lia|]. split.
    + intros K. split; [apply L2; lia | apply M2; lia].
    + intros [K1 K2]. apply L2 in K1. apply M2 in K2. lia.
Qed.

(** a text takes as many bytes as it has characters exactly when it is
    in ASCII *)
Lemma encoded_length (s : pystr) (b : bytes) :
  utf8_encode s = Ok b ->
  (String.length b = List.length s <-> plain s = true).
Proof.
  unfold utf8_encode.
  destruct (utf8_encode_codes s) as [bs|] eqn:E; [|discriminate].
  cbn. intros [= <-].
  rewrite <- length_codes,
    (codes_of_codes bs (proj1 (encoded_codes s bs E))).
  apply (encoded_codes_length s bs E).
Qed.

End Utf8.

(* ================================================================== *)
(** * Decimal numerals: [int] reads what [str] writes *)
(* ================================================================== *)

Module Numerals.
Import Py PyFacts Properties Utf8.

Local Open Scope Z_scope.

Lemma digit_cases (c : N) :
  is_digit c = true -> (0x30 <= c <= 0x39)%N.
Proof.
  unfold is_digit, in_range. rewrite andb_true_iff, !N.leb_le. tauto.
Qed.

Lemma digits_to_number_char (ds : list N) :
  forallb is_digit ds = true -> map to_number_char ds = ds.
Proof.
  induction ds as [|c t IH]; [reflexivity|].
  cbn [forallb map]. rewrite andb_true_iff. intros [Hc Ht].
  rewrite (IH Ht). f_equal. unfold to_number_char.
  apply digit_cases in Hc.
  destruct (N.ltb_spec c 127); [reflexivity | lia].
Qed.

Lemma digits_underscores_ok (ds : list N) :
  forallb is_digit ds = true ->
  forall prev, (prev =? 0x5F)%N = false -> underscores_ok prev ds = true.
Proof.
  induction ds as [|c t IH]; intros H prev Hp; cbn [underscores_ok].
  - rewrite Hp. reflexivity.
  - cbn [forallb] in H. apply andb_true_iff in H. destruct H as [Hc Ht].
    pose proof (digit_cases c Hc) as B.
    assert (E : (c =? 0x5F)%N = false) by (apply N.eqb_neq; lia).
    rewrite E, Hp, (IH Ht c E). reflexivity.
Qed.

Lemma digits_drop_while (ds : list N) :
  forallb is_digit ds = true -> drop_while is_c_space ds = ds.
Proof.
  destruct ds as [|c t]; [reflexivity|].
  cbn [forallb drop_while]. rewrite andb_true_iff. intros [Hc _].
  apply digit_cases in Hc.
  unfold is_c_space, in_range.
  destruct (N.leb_spec 9 c); [|lia].
  destruct (N.leb_spec c 13); [lia|].
  destruct (N.eqb_spec c 32); [lia|]. reflexivity.
Qed.

Lemma digits_rev (ds : list N) :
  forallb is_digit ds = true -> forallb is_digit (rev ds) = true.
Proof.
  rewrite !forallb_forall. intros H c Hc. apply H, in_rev, Hc.
Qed.

Lemma digits_strip (ds : list N) :
  forallb is_digit ds = true -> strip_with is_c_space ds = ds.
Proof.
  intros H. unfold strip_with.
  rewrite (digits_drop_while ds H),
    (digits_drop_while (rev ds) (digits_rev ds H)).
  apply rev_involutive.
Qed.

Lemma digits_without_underscores (ds : list N) :
  forallb is_digit ds = true -> without_underscores ds = ds.
Proof.
  unfold without_underscores.
  induction ds as [|c t IH]; [reflexivity|].
  cbn [forallb filter]. rewrite andb_true_iff. intros [Hc Ht].
  apply digit_cases in Hc.
  destruct (N.eqb_spec c 0x5F); [lia|]. cbn [negb]. rewrite (IH Ht).
  reflexivity.
Qed.

Lemma digits_split_sign (ds : list N) :
  forallb is_digit ds = true -> split_sign ds = (false, ds).
Proof.
  destruct ds as [|c t]; [reflexivity|].
  cbn [forallb split_sign]. rewrite andb_true_iff. intros [Hc _].
  apply digit_cases in Hc.
  destruct (N.eqb_spec c 0x2D); [lia|].
  destruct (N.eqb_spec c 0x2B); [lia|]. reflexivity.
Qed.

(** [int] reads a sequence of digits as the number it writes *)
Lemma int_of_digits (ds : list N) :
  forallb is_digit ds = true -> ds <> [] ->
  (List.length ds <= int_max_str_digits)%nat ->
  int_of_codes ds = Some (digits_value ds).
Proof.
  intros H Hne Hlen. unfold int_of_codes.
  rewrite (digits_to_number_char ds H),
    (digits_underscores_ok ds H 0%N eq_refl),
    (digits_strip ds H), (digits_split_sign ds H),
    (digits_without_underscores ds H).
  destruct ds as [|c t]; [contradiction|].
  rewrite H.
  destruct (Nat.ltb_spec int_max_str_digits (List.length (c :: t)));
    [lia | reflexivity].
Qed.

(** [int(str(n)) == n] for [n >= 0] of at most 4300 digits *)
Lemma int_of_numeral (z : Z) :
  0 <= z ->
  (String.length (numeral z) <= int_max_str_digits)%nat ->
  int_of_str (numeral z) = Ok z.
Proof.
  intros H L. unfold int_of_str.
  change (codes (numeral z)) with (str_of_int z).
  destruct (str_of_int_nonneg z H) as [D Hne].
  rewrite (int_of_digits (str_of_int z) D Hne).
  - rewrite (digits_value_str_of_int z H). reflexivity.
  - unfold str_of_int. rewrite length_codes. exact L.
Qed.

(** ** Numerals of a fixed width *)

Lemma digits_value_from (ds : list N) (acc : Z) :
  fold_left (fun acc d => acc * 10 + (Z.of_N d - 0x30)) ds acc
  = acc * 10 ^ Z.of_nat (List.length ds) + digits_value ds.
Proof.
  unfold digits_value. revert acc.
  induction ds as [|c t IH]; intros acc.
  - cbn [fold_left List.length]. change (10 ^ Z.of_nat 0) with 1. lia.
  - cbn [fold_left List.length]. rewrite IH, (IH (0 * 10 + _)).
    rewrite Nat2Z.inj_succ, Z.pow_succ_r by lia. ring.
Qed.

Lemma digits_value_cons (c : N) (t : list N) :
  digits_value (c :: t)
  = (Z.of_N c - 0x30) * 10 ^ Z.of_nat (List.length t) + digits_value t.
Proof.
  unfold digits_value at 1. cbn [fold_left]. rewrite digits_value_from.
  ring.
Qed.

Lemma digits_value_app (a b : list N) :
  digits_value (a ++ b)
  = digits_value a * 10 ^ Z.of_nat (List.length b) + digits_value b.
Proof.
  unfold digits_value at 1. rewrite fold_left_app, digits_value_from.
  reflexivity.
Qed.

Lemma digits_value_range (ds : list N) :
  forallb is_digit ds = true ->
  0 <= digits_value ds < 10 ^ Z.of_nat (List.length ds).
Proof.
  induction ds as [|c t IH]; intros H.
  - cbn. lia.
  - cbn [forallb] in H. apply andb_true_iff in H. destruct H as [Hc Ht].
    apply digit_cases in Hc. specialize (IH Ht).
    rewrite digits_value_cons. cbn [List.length].
    rewrite Nat2Z.inj_succ, Z.pow_succ_r by lia. nia.
Qed.

(** two numerals of the same width that write the same number are the
    same *)
Lemma digits_unique (a : list N) :
  forall b,
    List.length a = List.length b ->
    forallb is_digit a = true -> forallb is_digit b = true ->
    digits_value a = digits_value b -> a = b.
Proof.
  induction a as [|c t IH]; intros [|c' t'] L Ha Hb E;
    try discriminate; [reflexivity|].
  cbn [List.length] in L. injection L as L.
  cbn [forallb] in Ha, Hb.
  apply andb_true_iff in Ha. destruct Ha as [Hc Ht].
  apply andb_true_iff in Hb. destruct Hb as [Hc' Ht'].
  rewrite !digits_value_cons, <- L in E.
  pose proof (digits_value_range t Ht) as R.
  pose proof (digits_value_range t' Ht') as R'. rewrite <- L in R'.
  apply digit_cases in Hc. apply digit_cases in Hc'.
  assert (P : 0 < 10 ^ Z.of_nat (List.length t)) by (apply Z.pow_pos_nonneg; lia).
  assert (Ec : c = c') by nia. subst c'.
  f_equal. apply (IH t' L Ht Ht'). lia.
Qed.

(** a numeral that begins with a digit from 1 to 9 *)
Lemma digits_value_lower (c : N) (t : list N) :
  (0x31 <= c <= 0x39)%N -> forallb is_digit t = true ->
  10 ^ Z.of_nat (List.length t) <= digits_value (c :: t).
Proof.
  intros Hc Ht. rewrite digits_value_cons.
  pose proof (digits_value_range t Ht) as R.
  assert (P : 0 < 10 ^ Z.of_nat (List.length t)) by (apply Z.pow_pos_nonneg; lia).
  nia.
Qed.

(** [str] writes no zero in front of a positive number *)
Lemma to_uint_head (p : positive) :
  forall d, Pos.to_uint p <> Decimal.D0 d.
Proof.
  intros d E.
  pose proof (DecimalPos.Unsigned.to_of (Pos.to_uint p)) as T.
  rewrite DecimalPos.Unsigned.of_to in T. cbn [N.to_uint] in T.
  pose proof (DecimalPos.Unsigned.to_uint_nonzero p) as Z.
  rewrite E in T, Z. rewrite DecimalFacts.unorm_D0 in T.
  unfold Decimal.unorm in T.
  destruct (Decimal.nzhead d) eqn:H;
    try (symmetry in T; rewrite <- H in T;
         exact (DecimalFacts.nzhead_nonzero _ _ T)).
  exact (Z T).
Qed.

Lemma str_of_int_pos (p : positive) :
  exists c t,
    str_of_int (Z.pos p) = c :: t
    /\ (0x31 <= c <= 0x39)%N /\ forallb is_digit t = true.
Proof.
  pose proof (to_uint_head p) as H.
  pose proof (DecimalPos.Unsigned.to_uint_nonnil p) as Hn.
  unfold str_of_int, NilZero.string_of_int. cbn [Z.to_int].
  unfold NilZero.string_of_uint.
  destruct (Pos.to_uint p) as [|d|d|d|d|d|d|d|d|d|d];
    [contradiction | exfalso; exact (H d eq_refl) | ..];
    cbn [NilEmpty.string_of_uint]; rewrite codes_String;
    eexists _, _; (split; [reflexivity|]);
    (split; [vm_compute; split; discriminate | apply digits_of_uint]).
Qed.

(** a number below [10 ^ k] is written with at most [k] digits *)
Lemma str_of_int_length (k : nat) (z : Z) :
  0 <= z < 10 ^ Z.of_nat k -> (1 <= k)%nat ->
  (List.length (str_of_int z) <= k)%nat.
Proof.
  intros [H0 H1] Hk. destruct z as [|p|p]; [cbn; lia| |lia].
  destruct (str_of_int_pos p) as (c & t & E & Hc & Ht).
  pose proof (digits_value_str_of_int (Z.pos p) H0) as V.
  rewrite E in V |- *.
  pose proof (digits_value_lower c t Hc Ht) as L. rewrite V in L.
  cbn [List.length].
  assert (Z.of_nat (List.length t) < Z.of_nat k); [|lia].
  apply (Z.pow_lt_mono_r_iff 10); lia.
Qed.

Lemma length_str_repeat_one (c : N) (n : nat) :
  List.length (str_repeat [c] n) = n.
Proof. induction n as [|n IH]; simpl; congruence. Qed.

Lemma digits_value_zeros (n : nat) (s : list N) :
  digits_value (str_repeat [0x30%N] n ++ s) = digits_value s.
Proof.
  induction n as [|n IH]; [reflexivity|].
  cbn [str_repeat app]. rewrite digits_value_cons, IH.
  change (Z.of_N 48 - 48) with 0. lia.
Qed.

(** a number below [10 ^ k], padded to [k] digits *)
Lemma zero_pad_digits (k : nat) (z : Z) :
  0 <= z < 10 ^ Z.of_nat k -> (1 <= k)%nat ->
  List.length (zero_pad k z) = k
  /\ forallb is_digit (zero_pad k z) = true
  /\ digits_value (zero_pad k z) = z.
Proof.
  intros H Hk. pose proof (str_of_int_length k z H Hk) as L.
  destruct (str_of_int_nonneg z (proj1 H)) as [D _].
  unfold zero_pad. cbv zeta. split; [|split].
  - rewrite length_app, length_str_repeat_one. lia.
  - rewrite forallb_app, D, andb_true_r.
    generalize (k - List.length (str_of_int z))%nat as n.
    induction n as [|n IH]; [reflexivity | exact IH].
  - rewrite digits_value_zeros. apply digits_value_str_of_int, H.
Qed.

(** the first digits of a padded number are the padded quotient *)
Lemma zero_pad_firstn (k j : nat) (z : Z) :
  0 <= z < 10 ^ Z.of_nat (k + j) -> (1 <= k)%nat ->
  firstn k (zero_pad (k + j) z) = zero_pad k (z / 10 ^ Z.of_nat j).
Proof.
  intros H Hk.
  assert (Pj : 0 < 10 ^ Z.of_nat j) by (apply Z.pow_pos_nonneg; lia).
  assert (Hq : 0 <= z / 10 ^ Z.of_nat j < 10 ^ Z.of_nat k).
  { split; [apply Z.div_pos; lia|].
    apply Z.div_lt_upper_bound; [lia|].
    rewrite <- Z.pow_add_r, <- Nat2Z.inj_add, Nat.add_comm by lia.
    apply H. }
  destruct (zero_pad_digits (k + j) z H ltac:(lia)) as (L & D & V).
  destruct (zero_pad_digits k _ Hq Hk) as (L' & D' & V').
  set (s := zero_pad (k + j) z) in *.
  assert (Lf : List.length (firstn k s) = k)
    by (rewrite length_firstn; lia).
  assert (Ls : List.length (skipn k s) = j)
    by (rewrite length_skipn; lia).
  assert (Df : forallb is_digit (firstn k s) = true
               /\ forallb is_digit (skipn k s) = true).
  { rewrite <- (firstn_skipn k s), forallb_app in D.
    apply andb_true_iff in D. exact D. }
  destruct Df as [Df Ds].
  apply digits_unique; [lia | exact Df | exact D' |].
  rewrite V'. rewrite <- (firstn_skipn k s), digits_value_app, Ls in V.
  pose proof (digits_value_range _ Ds) as R. rewrite Ls in R.
  apply (Z.div_unique z (10 ^ Z.of_nat j) _ (digits_value (skipn k s)));
    [left; exact R | lia].
Qed.

End Numerals.

(* ================================================================== *)
(** * Doubles: whole numbers, and their quotient by 1000 *)
(* ================================================================== *)

Module Doubles.
Import Py PyFacts Properties Utf8 Numerals.

Local Open Scope Z_scope.

(** ** Binary digits *)

Lemma digits2_pos_spec (p : positive) :
  2 ^ (Z.pos (digits2_pos p) - 1) <= Z.pos p < 2 ^ Z.pos (digits2_pos p).
Proof.
  induction p as [p IH|p IH|]; cbn [digits2_pos].
  - rewrite Pos2Z.inj_succ.
    replace (Z.succ (Z.pos (digits2_pos p)) - 1)
      with (Z.succ (Z.pos (digits2_pos p) - 1)) by lia.
    rewrite !Z.pow_succ_r by lia. lia.
  - rewrite Pos2Z.inj_succ.
    replace (Z.succ (Z.pos (digits2_pos p)) - 1)
      with (Z.succ (Z.pos (digits2_pos p) - 1)) by lia.
    rewrite !Z.pow_succ_r by lia. lia.
  - cbn. lia.
Qed.

Lemma digits2_pos_unique (p : positive) (d : Z) :
  2 ^ (d - 1) <= Z.pos p < 2 ^ d -> Z.pos (digits2_pos p) = d.
Proof.
  intros [L U]. pose proof (digits2_pos_spec p) as [L' U'].
  assert (0 < d).
  { destruct (Z.ltb_spec 0 d) as [|N]; [assumption|].
    assert (2 ^ d <= 2 ^ 0) by (apply Z.pow_le_mono_r; lia).
    change (2 ^ 0) with 1 in *. lia. }
  assert (d - 1 < Z.pos (digits2_pos p))
    by (apply (Z.pow_lt_mono_r_iff 2); lia).
  assert (Z.pos (digits2_pos p) - 1 < d)
    by (apply (Z.pow_lt_mono_r_iff 2); lia).
  lia.
Qed.

Lemma iter_xO (m d : positive) :
  Z.pos (Pos.iter xO m d) = Z.pos m * 2 ^ Z.pos d.
Proof.
  revert m. induction d as [|d IH] using Pos.peano_ind; intros m.
  - cbn. lia.
  - rewrite Pos.iter_succ, Pos2Z.inj_succ, Z.pow_succ_r by lia.
    rewrite Pos2Z.inj_xO, IH. ring.
Qed.

(** ** Whole numbers as doubles *)

(** a mantissa of 53 bits and an exponent in range are a double as they
    stand *)
Lemma binary_round_aux_exact (s : bool) (m : positive) (e : Z) :
  Z.pos (digits2_pos m) = 53 -> -1074 <= e <= 971 ->
  binary_round_aux prec emax s (Z.pos m) e loc_Exact = S754_finite s m e.
Proof.
  intros D E. unfold binary_round_aux, shr_fexp, shr_record_of_loc.
  cbn [Zdigits2]. rewrite D.
  assert (F : fexp prec emax (53 + e) - e = 0).
  { unfold fexp, emin, prec, emax. lia. }
  rewrite F. cbn [shr shr_m loc_of_shr_record round_nearest_even Zdigits2].
  rewrite D, F. cbn [shr shr_m].
  unfold emax, prec. destruct (Z.leb_spec e (1024 - 53)); [reflexivity | lia].
Qed.

(** [float(n)] for [0 < n < 2 ^ 53] is [n], exactly *)
Lemma float_of_int_exact (n : Z) :
  0 < n < 2 ^ 53 ->
  exists m e,
    float_of_int n = S754_finite false m e
    /\ Z.pos (digits2_pos m) = 53
    /\ -52 <= e <= 0
    /\ Z.pos m = n * 2 ^ (- e).
Proof.
  intros [H0 H1]. destruct n as [|p|p]; try lia.
  unfold float_of_int, binary_normalize, binary_round.
  pose proof (digits2_pos_spec p) as [L U].
  set (d := Z.pos (digits2_pos p)) in *.
  assert (Hd : 1 <= d <= 53).
  { split; [unfold d; lia|].
    assert (d - 1 < 53) by (apply (Z.pow_lt_mono_r_iff 2); lia). lia. }
  assert (F : fexp prec emax (d + 0) = d - 53).
  { unfold fexp, emin, prec, emax. lia. }
  rewrite F. unfold shl_align.
  replace (d - 53 - 0) with (d - 53) by lia.
  destruct (d - 53) as [|q|q] eqn:K; try lia.
  - exists p, 0. rewrite binary_round_aux_exact by (fold d; lia).
    split; [reflexivity|]. split; [fold d; lia|]. split; [lia|].
    cbn. lia.
  - exists (Pos.iter xO p q), (Z.neg q).
    assert (V : Z.pos (Pos.iter xO p q) = Z.pos p * 2 ^ Z.pos q)
      by apply iter_xO.
    assert (D : Z.pos (digits2_pos (Pos.iter xO p q)) = 53).
    { apply digits2_pos_unique. rewrite V.
      replace 53 with (d + Z.pos q) at 2 by lia.
      replace (53 - 1) with ((d - 1) + Z.pos q) by lia.
      rewrite !Z.pow_add_r by lia.
      assert (0 < 2 ^ Z.pos q) by (apply Z.pow_pos_nonneg; lia).
      nia. }
    rewrite binary_round_aux_exact by (try exact D; lia).
    split; [reflexivity|]. split; [exact D|]. split; [lia|].
    rewrite V. reflexivity.
Qed.

(** ** Rounding to nearest, ties to even *)

Lemma record_of_loc (m : Z) (l : location) :
  shr_m (shr_record_of_loc m l) = m
  /\ loc_of_shr_record (shr_record_of_loc m l) = l.
Proof. destruct l as [|[| |]]; split; reflexivity. Qed.

(** the second step of [binary_round_aux]: a mantissa that the rounding
    brought up to [2 ^ 53] is halved *)
Lemma round_finish (m1 e : Z) :
  2 ^ 52 <= m1 <= 2 ^ 53 -> -1074 <= e <= 960 ->
  exists m' e',
    (let '(mrs, e'') := shr_fexp prec emax m1 e loc_Exact in
     match shr_m mrs with
     | 0 => S754_zero false
     | Z.pos m =>
       if e'' <=? emax - prec then S754_finite false m e''
       else S754_infinity false
     | Z.neg _ => S754_nan
     end) = S754_finite false m' e'
    /\ Z.pos (digits2_pos m') = 53
    /\ e <= e' <= e + 1
    /\ Z.pos m' * 2 ^ (e' - e) = m1.
Proof.
  intros Hm He.
  destruct (Z.eq_dec m1 (2 ^ 53)) as [->|Hne].
  - exists 4503599627370496%positive, (e + 1).
    unfold shr_fexp. change (Zdigits2 (2 ^ 53)) with 54.
    assert (F : fexp prec emax (54 + e) - e = 1)
      by (unfold fexp, emin, prec, emax; lia).
    rewrite F. cbn [shr shr_record_of_loc iter_pos].
    change (2 ^ 53) with (Z.pos 9007199254740992). cbn [shr_1 orb shr_m].
    unfold emax, prec.
    destruct (Z.leb_spec (e + 1) (1024 - 53)); [|lia].
    split; [reflexivity|]. split; [reflexivity|]. split; [lia|].
    replace (e + 1 - e) with 1 by lia. reflexivity.
  - destruct m1 as [|p|p]; try lia.
    assert (D : Z.pos (digits2_pos p) = 53)
      by (apply digits2_pos_unique; lia).
    exists p, e. unfold shr_fexp. cbn [Zdigits2]. rewrite D.
    assert (F : fexp prec emax (53 + e) - e = 0)
      by (unfold fexp, emin, prec, emax; lia).
    rewrite F. cbn [shr shr_record_of_loc shr_m].
    unfold emax, prec.
    destruct (Z.leb_spec e (1024 - 53)); [|lia].
    split; [reflexivity|]. split; [reflexivity|]. split; [lia|].
    rewrite Z.sub_diag. cbn. lia.
Qed.

Lemma round_nearest_even_spec (q num den : Z) :
  0 < den -> q * den <= num < (q + 1) * den ->
  let m := round_nearest_even q (located q num den) in
  q <= m <= q + 1 /\ 2 * Z.abs (m * den - num) <= den.
Proof.
  intros Hd H. unfold located.
  destruct (Z.eqb_spec (num - q * den) 0) as [E|E]; cbn [round_nearest_even].
  - lia.
  - destruct (Z.compare_spec (2 * (num - q * den)) den) as [C|C|C].
    + destruct (Z.even q); lia.
    + lia.
    + lia.
Qed.

(** one more binary digit dropped: the location among the halves *)
Lemma shr_1_located (q : positive) (num den : Z) :
  (1 < q)%positive -> 0 < den ->
  Z.pos q * den <= num < (Z.pos q + 1) * den ->
  let mrs := shr_1 (shr_record_of_loc (Z.pos q) (located (Z.pos q) num den)) in
  shr_m mrs = Z.pos q / 2
  /\ loc_of_shr_record mrs = located (Z.pos q / 2) num (2 * den)
  /\ (Z.pos q / 2) * (2 * den) <= num < (Z.pos q / 2 + 1) * (2 * den).
Proof.
  intros Hq Hd H. cbv zeta.
  assert (Sh : forall m c,
             shr_1 (shr_record_of_loc m (loc_Inexact c))
             = shr_1 {| shr_m := m; shr_r := true; shr_s := true |})
    by (intros [|[m|m|]|[m|m|]] [| |]; reflexivity).
  destruct q as [p|p|]; [| |lia].
  - assert (E : Z.pos p~1 / 2 = Z.pos p)
      by (rewrite Pos2Z.inj_xI; symmetry;
          apply (Z.div_unique _ 2 _ 1); lia).
    rewrite E. unfold located.
    destruct (Z.eqb_spec (num - Z.pos p~1 * den) 0) as [Z|Z];
      destruct (Z.eqb_spec (num - Z.pos p * (2 * den)) 0) as [Z'|Z'];
      try lia;
      destruct (Z.compare_spec (2 * (num - Z.pos p * (2 * den))) (2 * den));
      try lia; rewrite ?Sh;
      cbn [shr_record_of_loc shr_1 orb shr_m loc_of_shr_record];
      (split; [reflexivity|]); (split; [reflexivity | lia]).
  - assert (E : Z.pos p~0 / 2 = Z.pos p)
      by (rewrite Pos2Z.inj_xO; symmetry;
          apply (Z.div_unique _ 2 _ 0); lia).
    rewrite E. unfold located.
    destruct (Z.eqb_spec (num - Z.pos p~0 * den) 0) as [Z|Z];
      destruct (Z.eqb_spec (num - Z.pos p * (2 * den)) 0) as [Z'|Z'];
      try lia;
      try (destruct (Z.compare_spec (2 * (num - Z.pos p * (2 * den)))
                                    (2 * den)); try lia);
      rewrite ?Sh;
      cbn [shr_record_of_loc shr_1 orb shr_m loc_of_shr_record];
      (split; [reflexivity|]); (split; [reflexivity | lia]).
Qed.

(** [binary_round_aux] on a quotient of 53 or 54 bits: the double
    nearest to [num / den * 2 ^ e] *)
Lemma binary_round_aux_nearest (q : positive) (e num den : Z) :
  0 < den ->
  Z.pos q * den <= num < (Z.pos q + 1) * den ->
  2 ^ 52 <= Z.pos q < 2 ^ 54 ->
  -1074 <= e <= 900 ->
  exists m' e',
    binary_round_aux prec emax false (Z.pos q) e (located (Z.pos q) num den)
    = S754_finite false m' e'
    /\ Z.pos (digits2_pos m') = 53
    /\ e <= e' <= e + 2
    /\ 2 * Z.abs (Z.pos m' * 2 ^ (e' - e) * den - num) <= den * 2 ^ (e' - e).
Proof.
  intros Hd H Hq He. unfold binary_round_aux.
  destruct (Z.ltb_spec (Z.pos q) (2 ^ 53)) as [Small|Big].
  - assert (D : Z.pos (digits2_pos q) = 53)
      by (apply digits2_pos_unique; lia).
    unfold shr_fexp at 1. cbn [Zdigits2]. rewrite D.
    assert (F : fexp prec emax (53 + e) - e = 0)
      by (unfold fexp, emin, prec, emax; lia).
    rewrite F. cbn [shr].
    destruct (record_of_loc (Z.pos q) (located (Z.pos q) num den)) as [-> ->].
    destruct (round_nearest_even_spec (Z.pos q) num den Hd H) as [R B].
    destruct (round_finish
                (round_nearest_even (Z.pos q) (located (Z.pos q) num den)) e)
      as (m' & e' & E & D' & He' & V); [lia | lia |].
    exists m', e'. split; [exact E|]. split; [exact D'|]. split; [lia|].
    rewrite V.
    assert (1 <= 2 ^ (e' - e))
      by (pose proof (Z.pow_pos_nonneg 2 (e' - e)); lia).
    nia.
  - assert (D : Z.pos (digits2_pos q) = 54)
      by (apply digits2_pos_unique; lia).
    unfold shr_fexp at 1. cbn [Zdigits2]. rewrite D.
    assert (F : fexp prec emax (54 + e) - e = 1)
      by (unfold fexp, emin, prec, emax; lia).
    rewrite F. cbn [shr iter_pos].
    destruct (shr_1_located q num den) as (-> & -> & H2); [lia | lia | lia |].
    assert (Hd2 : 0 < 2 * den) by lia.
    destruct (round_nearest_even_spec (Z.pos q / 2) num (2 * den) Hd2 H2)
      as [R B].
    assert (Q : Z.pos q = 2 * (Z.pos q / 2) + Z.pos q mod 2)
      by (apply Z.div_mod; lia).
    assert (M : 0 <= Z.pos q mod 2 < 2) by (apply Z.mod_pos_bound; lia).
    destruct (round_finish
                (round_nearest_even (Z.pos q / 2)
                   (located (Z.pos q / 2) num (2 * den))) (e + 1))
      as (m' & e' & E & D' & He' & V); [lia | lia |].
    exists m', e'. split; [exact E|]. split; [exact D'|]. split; [lia|].
    replace (e' - e) with (Z.succ (e' - (e + 1))) by lia.
    rewrite Z.pow_succ_r by lia.
    replace (Z.pos m' * (2 * 2 ^ (e' - (e + 1))) * den)
      with (Z.pos m' * 2 ^ (e' - (e + 1)) * (2 * den)) by ring.
    rewrite V.
    assert (1 <= 2 ^ (e' - (e + 1)))
      by (pose proof (Z.pow_pos_nonneg 2 (e' - (e + 1))); lia).
    nia.
Qed.

(** ** A whole number of milliseconds, in seconds *)

Lemma float_of_int_1000 :
  float_of_int 1000 = S754_finite false 8796093022208000 (-43).
Proof. vm_compute. reflexivity. Qed.

(** the quotient of a double of 53 bits by 1000 *)
Lemma div_1000_nearest (mx : positive) (ex : Z) :
  Z.pos (digits2_pos mx) = 53 -> -52 <= ex <= 0 ->
  exists m' e',
    float_div_int (S754_finite false mx ex) 1000 = S754_finite false m' e'
    /\ Z.pos (digits2_pos m') = 53
    /\ ex - 10 <= e' <= ex - 8
    /\ 2 * Z.abs (Z.pos m' * 1000 - Z.pos mx * 2 ^ (ex - e')) <= 1000.
Proof.
  intros D He. unfold float_div_int. rewrite float_of_int_1000.
  unfold SFdiv, SFdiv_core_binary. cbn [Zdigits2 xorb]. rewrite D.
  change (Z.pos (digits2_pos 8796093022208000)) with 53.
  assert (F : Z.min (fexp prec emax (53 + ex - (53 + -43))) (ex - -43)
              = ex - 10)
    by (unfold fexp, emin, prec, emax; lia).
  rewrite F. replace (ex - -43 - (ex - 10)) with 53 by lia.
  rewrite Z.shiftl_mul_pow2 by lia.
  set (my := 8796093022208000). set (num := Z.pos mx * 2 ^ 53).
  pose proof (digits2_pos_spec mx) as [L U]. rewrite D in L, U.
  change (2 ^ (53 - 1)) with 4503599627370496 in L.
  change (2 ^ 53) with 9007199254740992 in U, num.
  change (2 ^ 52) with 4503599627370496.
  change (2 ^ 54) with 18014398509481984.
  pose proof (Z_div_mod num my ltac:(unfold my; lia)) as DM.
  destruct (Z.div_eucl num my) as [q r]. destruct DM as [Eq Hr].
  assert (Hq : 4503599627370496 <= q < 18014398509481984)
    by (unfold num, my in *; lia).
  destruct q as [|q|q]; try lia.
  assert (Loc : new_location my r = located (Z.pos q) num my).
  { unfold new_location, new_location_even, located.
    change (Z.even my) with true. cbv iota.
    replace (num - Z.pos q * my) with r by lia. reflexivity. }
  rewrite Loc.
  destruct (binary_round_aux_nearest q (ex - 10) num my)
    as (m' & e' & E & D' & He' & B);
    [unfold my; lia | lia | exact Hq | lia |].
  exists m', e'. split; [exact E|]. split; [exact D'|]. split; [lia|].
  assert (K : e' - (ex - 10) = 0 \/ e' - (ex - 10) = 1 \/ e' - (ex - 10) = 2)
    by lia.
  unfold num, my in B.
  replace (ex - e') with (10 - (e' - (ex - 10))) by lia.
  destruct K as [K|[K|K]]; rewrite K in B |- *.
  - change (2 ^ 0) with 1 in B. change (2 ^ (10 - 0)) with 1024. lia.
  - change (2 ^ 1) with 2 in B. change (2 ^ (10 - 1)) with 512. lia.
  - change (2 ^ 2) with 4 in B. change (2 ^ (10 - 2)) with 256. lia.
Qed.

(** [n] milliseconds, divided by 1000 as a double and shown with three
    decimals, are [n] thousandths *)
Lemma thousandths_of_milliseconds (n : Z) :
  0 < n < 2 ^ 52 ->
  format_float_3f (float_div_int (float_of_int n) 1000)
  = fixed_point_3 false n.
Proof.
  intros Hn. change (2 ^ 52) with 4503599627370496 in Hn.
  destruct (float_of_int_exact n) as (mx & ex & -> & D & He & V);
    [change (2 ^ 53) with 9007199254740992; lia|].
  destruct (div_1000_nearest mx ex D He) as (m' & e' & -> & D' & He' & B).
  cbn [format_float_3f]. f_equal.
  rewrite V, <- Z.mul_assoc, <- Z.pow_add_r in B by lia.
  replace (- ex + (ex - e')) with (- e') in B by lia.
  pose proof (digits2_pos_spec m') as [L' _]. rewrite D' in L'.
  change (2 ^ (53 - 1)) with 4503599627370496 in L'.
  set (P := 2 ^ (- e')) in *.
  assert (HP : 1024 <= P).
  { destruct (Z.leb_spec 10 (- e')) as [G|G].
    - change 1024 with (2 ^ 10). apply Z.pow_le_mono_r; lia.
    - exfalso.
      assert (P <= 2 ^ 9) by (apply Z.pow_le_mono_r; lia).
      change (2 ^ 9) with 512 in *. nia. }
  unfold thousandths.
  destruct (Z.leb_spec 0 e'); [lia|]. fold P.
  destruct (div_half_even_nearest (Z.pos m' * 1000) P) as [K0 K]; [lia | lia |].
  set (k := div_half_even (Z.pos m' * 1000) P) in *.
  assert (A : Z.abs (k - n) * P < 1 * P).
  { assert (Z.abs (k - n) * P = Z.abs (k * P - n * P)) as ->
      by (rewrite <- Z.mul_sub_distr_r, Z.abs_mul, (Z.abs_eq P); lia).
    lia. }
  apply Z.mul_lt_mono_pos_r in A; lia.
Qed.

Lemma span_all_digits (ds : list N) :
  forallb is_digit ds = true -> span_digits ds = (ds, []).
Proof.
  induction ds as [|c t IH]; [reflexivity|].
  cbn [forallb span_digits]. rewrite andb_true_iff. intros [Hc Ht].
  rewrite Hc, (IH Ht). reflexivity.
Qed.

(** [float(str(n))] is [float(n)] *)
Lemma float_of_numeral (n : Z) :
  0 <= n -> float_of_str (numeral n) = Ok (float_of_int n).
Proof.
  intros H. unfold float_of_str, float_of_codes.
  change (codes (numeral n)) with (str_of_int n).
  destruct (str_of_int_nonneg n H) as [D Hne].
  rewrite (digits_to_number_char _ D), (digits_underscores_ok _ D 0%N eq_refl),
    (digits_without_underscores _ D), (digits_strip _ D),
    (digits_split_sign _ D).
  unfold decimal_of. rewrite (span_all_digits _ D), app_nil_r.
  destruct (str_of_int n) as [|c t] eqn:E; [contradiction|].
  cbn [exponent_of List.length]. rewrite <- E, (digits_value_str_of_int n H).
  destruct n as [|p|p]; [reflexivity| |lia].
  cbn [Z.eqb of_option]. unfold float_of_decimal.
  replace (0 - Z.of_nat 0) with 0 by reflexivity.
  cbn [Z.leb Z.compare]. change (10 ^ 0) with 1.
  rewrite Z.mul_1_r. reflexivity.
Qed.

Lemma seconds_of_milliseconds (n : Z) :
  0 <= n < 2 ^ 52 ->
  format_float_3f (float_div_int (float_of_int n) 1000)
  = str_of_int (n / 1000) ++ u "." ++ zero_pad 3 (n mod 1000).
Proof.
  intros [H0 H1]. destruct (Z.eq_dec n 0) as [->|Hne].
  - vm_compute. reflexivity.
  - rewrite thousandths_of_milliseconds by lia. reflexivity.
Qed.

(** beyond that bound the last digit can be off: [2 ^ 53 - 1]
    milliseconds are shown with 990 thousandths, not 991 *)
Example milliseconds_beyond_the_bound :
  format_float_3f (float_div_int (float_of_int (2 ^ 53 - 1)) 1000)
  = u "9007199254740.990".
Proof. vm_compute. reflexivity. Qed.

End Doubles.

(* ================================================================== *)
(** * Further properties of the server *)
(* ================================================================== *)

Module Further.
Import Py PyFacts Server Run Properties Utf8 Numerals Doubles.

Local Open Scope Z_scope.

(** ** Requests of both kinds, one after the other *)

(** A handler looks at the counter, the stream and the clock, never at
    the console: two worlds with the same counter give the same reply,
    the same new counter, and the same lines added to their consoles. *)
Lemma handle_request_frame (r : request) (w w' : world) :
  message_count w = message_count w' ->
  fst (handle_request r w) = fst (handle_request r w')
  /\ message_count (snd (handle_request r w))
     = message_count (snd (handle_request r w'))
  /\ exists out,
      stdout (snd (handle_request r w)) = stdout w ++ out
      /\ stdout (snd (handle_request r w')) = stdout w' ++ out.
Proof.
  intros H. unfold handle_request, dispatch.
  destruct (command r).
  - rewrite (do_GET_run (parsed r) (connect r w)),
      (do_GET_run (parsed r) (connect r w')).
    unfold connect, answered.
    cbn [message_count stdout rfile wfile clock room].
    destruct (utf8_encode _); cbn; rewrite H;
      (split; [reflexivity|]); (split; [reflexivity|]);
      eexists; split; reflexivity.
  - rewrite (do_POST_run (parsed r) (connect r w)),
      (do_POST_run (parsed r) (connect r w')).
    unfold connect, answered, consumed, counted.
    cbn [message_count stdout rfile wfile clock room].
    rewrite H.
    destruct (content_length_of (parsed r)) as [n|e].
    + destruct (read _ _ _) as [raw|e].
      * cbn zeta. cbn [message_count stdout rfile wfile clock room].
        destruct (utf8_decode _) as [d|e].
        -- destruct (uptime_of (parsed r)) as [up|e].
           ++ destruct (utf8_encode _); cbn;
                (split; [reflexivity|]); (split; [reflexivity|]);
                eexists; split; reflexivity.
           ++ cbn. split; [reflexivity|]. split; [reflexivity|].
              exists []. rewrite !app_nil_r. split; reflexivity.
        -- cbn. split; [reflexivity|]. split; [reflexivity|].
           exists []. rewrite !app_nil_r. split; reflexivity.
      * cbn. split; [reflexivity|]. split; [reflexivity|].
        exists []. rewrite !app_nil_r. split; reflexivity.
    + cbn. split; [reflexivity|]. split; [reflexivity|].
      exists []. rewrite !app_nil_r. split; reflexivity.
Qed.

Lemma handle_request_prints (r : request) (w : world) :
  stdout (snd (handle_request r w)) = stdout w ++ printed_by r w.
Proof.
  destruct (handle_request_frame r w (with_stdout w []) eq_refl)
    as (_ & _ & out & H1 & H2).
  unfold printed_by. rewrite H2, H1. reflexivity.
Qed.

Lemma serve_forever_frame (rs : list request) (w w' : world) :
  message_count w = message_count w' ->
  fst (serve_forever rs w) = fst (serve_forever rs w')
  /\ message_count (snd (serve_forever rs w))
     = message_count (snd (serve_forever rs w'))
  /\ exists out,
      stdout (snd (serve_forever rs w)) = stdout w ++ out
      /\ stdout (snd (serve_forever rs w')) = stdout w' ++ out.
Proof.
  revert w w'. induction rs as [|r rs IH]; intros w w' H.
  - simpl. split; [reflexivity|]. split; [exact H|].
    exists []. rewrite !app_nil_r. split; reflexivity.
  - rewrite !serve_forever_cons. cbn [fst snd].
    destruct (handle_request_frame r w w' H) as (E1 & E2 & out1 & O1 & O2).
    destruct (IH _ _ E2) as (F1 & F2 & out2 & P1 & P2).
    rewrite E1, F1. split; [reflexivity|]. split; [exact F2|].
    exists (out1 ++ out2).
    rewrite P1, P2, O1, O2, <- !app_assoc. split; reflexivity.
Qed.

Lemma serve_forever_prints (rs : list request) (w : world) :
  stdout (snd (serve_forever rs w)) = stdout w ++ printed_by_all rs w.
Proof.
  destruct (serve_forever_frame rs w (with_stdout w []) eq_refl)
    as (_ & _ & out & H1 & H2).
  unfold printed_by_all. rewrite H2, H1. reflexivity.
Qed.

Lemma posts_in_cons (r : request) (rs : list request) :
  Z.of_nat (posts_in (r :: rs))
  = (if is_post r then 1 else 0) + Z.of_nat (posts_in rs).
Proof.
  unfold posts_in. simpl. destruct (is_post r); simpl List.length; lia.
Qed.

Lemma serve_forever_counts_posts (rs : list request) (w : world) :
  message_count (snd (serve_forever rs w))
  = message_count w + Z.of_nat (posts_in rs).
Proof.
  revert w. induction rs as [|r rs IH]; intros w.
  - simpl. unfold posts_in. simpl. lia.
  - rewrite serve_forever_cons. cbn [snd].
    rewrite IH, handle_request_counts, posts_in_cons. lia.
Qed.

(** the reply at position [n] comes from a world that counted the POSTs
    among the [n] requests before it *)
Lemma serve_forever_nth_any (rs : list request) (w : world) (n : nat)
  (r : request) (rep : reply) :
  nth_error rs n = Some r ->
  nth_error (fst (serve_forever rs w)) n = Some rep ->
  exists wn,
    message_count wn = message_count w + Z.of_nat (posts_in (firstn n rs))
    /\ rep = fst (handle_request r wn).
Proof.
  revert w n. induction rs as [|r0 rs IH]; intros w n Hn Hrep.
  - destruct n; discriminate.
  - rewrite serve_forever_cons in Hrep. cbn [fst] in Hrep.
    destruct n as [|n].
    + simpl in Hn, Hrep. injection Hn as ->. injection Hrep as <-.
      exists w. split; [|reflexivity].
      unfold posts_in. simpl. lia.
    + simpl in Hn, Hrep.
      destruct (IH _ _ Hn Hrep) as (wn & Hc & ->).
      exists wn. split; [|reflexivity].
      rewrite Hc, handle_request_counts.
      change (firstn (S n) (r0 :: rs)) with (r0 :: firstn n rs).
      rewrite posts_in_cons. lia.
Qed.

Lemma posts_in_upto (rs : list request) (n : nat) (r : request) :
  nth_error rs n = Some r ->
  command r = POST ->
  Z.of_nat (posts_in (firstn (S n) rs))
  = Z.of_nat (posts_in (firstn n rs)) + 1.
Proof.
  revert n. induction rs as [|r0 rs IH]; intros n Hn Hp.
  - destruct n; discriminate.
  - destruct n as [|n].
    + simpl in Hn. injection Hn as ->.
      change (firstn 1 (r :: rs)) with (r :: firstn 0 rs).
      rewrite posts_in_cons. unfold is_post. rewrite Hp.
      unfold posts_in. simpl. lia.
    + simpl in Hn.
      change (firstn (S (S n)) (r0 :: rs)) with (r0 :: firstn (S n) rs).
      change (firstn (S n) (r0 :: rs)) with (r0 :: firstn n rs).
      rewrite !posts_in_cons, (IH n Hn Hp). lia.
Qed.

(** ** What a request leaves behind *)

Lemma post_log_length (self : handler) (count : Z) (ts post_data : pystr)
  (up : number) :
  (16 <= List.length (post_log self count ts post_data up) <= 23)%nat.
Proof.
  unfold post_log, changing_data_lines.
  rewrite !length_app. cbn [List.length].
  destruct (negb (Nat.eqb (List.length (esp32_headers_of (headers self))) 0));
    destruct (negb (Nat.eqb (List.length (changing_data_of post_data)) 0));
    cbn [List.length]; rewrite ?length_map, ?length_firstn; lia.
Qed.

(** the reply to a request and what the request prints, in full *)
Lemma handle_request_cases (r : request) (w : world) :
  match command r with
  | GET =>
    outcome (fst (handle_request r w)) = Ok tt
    /\ ok_response "text/html" (html_response (strftime_seconds (arrival r)))
         (sent (fst (handle_request r w)))
    /\ printed_by r w = [get_log (parsed r) (strftime_seconds (arrival r))]
  | POST =>
    if malformed (parsed r) (connect r w) then
      (exists e,
         post_exception e /\ outcome (fst (handle_request r w)) = Raise e)
      /\ sent (fst (handle_request r w)) = []
      /\ printed_by r w = []
    else
      outcome (fst (handle_request r w)) = Ok tt
      /\ exists post_data up,
          post_data_of (parsed r) (connect r w) = Ok post_data
          /\ uptime_of (parsed r) = Ok up
          /\ ok_response "text/plain"
               (response_message (esp32_counter_of (parsed r))
                                 (message_count w + 1)
                                 (timestamp_of (arrival r)) up)
               (sent (fst (handle_request r w)))
          /\ printed_by r w
             = post_log (parsed r) (message_count w + 1)
                        (timestamp_of (arrival r)) post_data up
  end.
Proof.
  pose proof (handle_request_prints r w) as P. revert P.
  unfold handle_request, dispatch.
  destruct (command r).
  - destruct (get_return (parsed r) (connect r w))
      as ((b & Hb & H1 & H2 & H3) & _).
    destruct (do_GET (parsed r) (connect r w)) as [res w1].
    cbn in *. intros P. rewrite H2 in P. apply app_inv_head in P.
    split; [exact H1|]. split; [|symmetry; exact P].
    exists b. split; [exact Hb | exact H3].
  - destruct (malformed (parsed r) (connect r w)) eqn:M.
    + destruct (malformed_post_raises_aux _ _ M) as (e & K & (F1 & F2 & F3) & _).
      destruct (do_POST (parsed r) (connect r w)) as [res w1].
      cbn in *. intros P. rewrite F2 in P.
      rewrite <- (app_nil_r (stdout w)) in P at 1. apply app_inv_head in P.
      split; [exists e; split; assumption|].
      split; [exact F3 | symmetry; exact P].
    + destruct (well_formed_post _ _ M)
        as (d & up & Hd & Hu & (b & Hb & H1 & H2 & H3)).
      destruct (do_POST (parsed r) (connect r w)) as [res w1].
      cbn in *. intros P. rewrite H2 in P. apply app_inv_head in P.
      split; [exact H1|]. exists d, up.
      split; [exact Hd|]. split; [exact Hu|]. split.
      * exists b. split; [exact Hb | exact H3].
      * symmetry. exact P.
Qed.

Lemma startup_prints_banner :
  startup initial_world = (Ok tt, with_stdout initial_world banner).
Proof. reflexivity. Qed.

Lemma post_data_is_decoded (self : handler) (w : world) (post_data : pystr) :
  post_data_of self w = Ok post_data ->
  exists raw, payload_of self w = Ok raw /\ utf8_decode raw = Ok post_data.
Proof.
  unfold post_data_of. destruct (payload_of self w) as [raw|e]; [|discriminate].
  intros H. exists raw. split; [reflexivity | exact H].
Qed.

(** ** The payload as the client sent it *)

Lemma bytes_take_app (body rest : bytes) :
  bytes_take (String.length body) (body ++ rest) = body.
Proof.
  unfold bytes_take. induction body as [|a t IH]; simpl.
  - reflexivity.
  - f_equal. exact IH.
Qed.

Lemma bytes_drop_app (body rest : bytes) :
  bytes_drop (String.length body) (body ++ rest) = rest.
Proof.
  unfold bytes_drop. induction body as [|a t IH]; simpl.
  - apply string_of_list_ascii_of_string.
  - exact IH.
Qed.

Lemma handle_post_rfile (r : request) (w : world) (n : Z) :
  command r = POST ->
  content_length_of (parsed r) = Ok n ->
  readable n (stream r) (spare r) = true ->
  rfile (snd (handle_request r w))
  = bytes_drop (read_size n (stream r)) (stream r).
Proof.
  intros Hp Hn Hr. unfold handle_request, dispatch. rewrite Hp.
  pose proof (post_consumes (parsed r) (connect r w) n Hn Hr) as C.
  destruct (do_POST (parsed r) (connect r w)) as [res w1].
  exact C.
Qed.

(** ** The [dict] of the custom headers *)

Lemma dict_set_keys (d : dict) (k v : latin1) :
  map fst (dict_set d k v)
  = map fst d ++ (if in_dec string_dec k (map fst d) then [] else [k]).
Proof.
  induction d as [|[k0 v0] t IH]; [reflexivity|].
  cbn [dict_set map fst]. destruct (String.eqb_spec k0 k) as [->|Hne].
  - cbn [map fst app]. destruct (in_dec string_dec k (k :: map fst t)) as [_|n].
    + rewrite app_nil_r. reflexivity.
    + exfalso. apply n. left. reflexivity.
  - cbn [map fst app]. rewrite IH. f_equal.
    destruct (in_dec string_dec k (map fst t)) as [i|n];
      destruct (in_dec string_dec k (k0 :: map fst t)) as [i'|n'];
      try reflexivity.
    + exfalso. apply n'. right. exact i.
    + exfalso. destruct i' as [E|i']; [exact (Hne E) | exact (n i')].
Qed.

Lemma dict_set_NoDup (d : dict) (k v : latin1) :
  NoDup (map fst d) -> NoDup (map fst (dict_set d k v)).
Proof.
  intros H. rewrite dict_set_keys.
  destruct (in_dec string_dec k (map fst d)) as [i|n].
  - rewrite app_nil_r. exact H.
  - apply NoDup_app; [exact H | repeat constructor; intros [] |].
    intros x Hx [<-|[]]. exact (n Hx).
Qed.

(** [d[k] = v]: the entry of [k] is [v], the others are as before *)
Lemma dict_set_In (d : dict) (k v k' v' : latin1) :
  NoDup (map fst d) ->
  In (k', v') (dict_set d k v)
  <-> (k' = k /\ v' = v) \/ (k' <> k /\ In (k', v') d).
Proof.
  induction d as [|[k0 v0] t IH]; intros H.
  - cbn [dict_set In]. split.
    + intros [[= <- <-]|[]]. left. split; reflexivity.
    + intros [[-> ->]|[_ []]]. left. reflexivity.
  - cbn [map fst] in H. inversion H as [|? ? Hk0 Ht]. subst.
    cbn [dict_set]. destruct (String.eqb_spec k0 k) as [->|Hne]; cbn [In].
    + split.
      * intros [[= <- <-]|Hin]; [left; split; reflexivity|].
        right. split; [|right; exact Hin].
        intros ->. apply Hk0. apply (in_map fst _ _ Hin).
      * intros [[-> ->]|[Hk [[= E _]|Hin]]].
        -- left. reflexivity.
        -- congruence.
        -- right. exact Hin.
    + rewrite (IH Ht). split.
      * intros [[= <- <-]|[[-> ->]|[Hk Hin]]].
        -- right. split; [exact Hne | left; reflexivity].
        -- left. split; reflexivity.
        -- right. split; [exact Hk | right; exact Hin].
      * intros [[-> ->]|[Hk [[= <- <-]|Hin]]].
        -- right. left. split; reflexivity.
        -- left. reflexivity.
        -- right. right. split; assumption.
Qed.

(** entries set one after the other: the last value set for a key is
    its value *)
Lemma dict_of_items (l : list (latin1 * latin1)) :
  forall d : dict,
    NoDup (map fst d) ->
    NoDup (map fst (fold_left (fun d kv => dict_set d (fst kv) (snd kv)) l d))
    /\ forall k v,
        In (k, v) (fold_left (fun d kv => dict_set d (fst kv) (snd kv)) l d)
        <-> (exists l1 l2, l = l1 ++ (k, v) :: l2 /\ ~ In k (map fst l2))
            \/ (~ In k (map fst l) /\ In (k, v) d).
Proof.
  induction l as [|[k0 v0] t IH]; intros d H.
  - cbn [fold_left]. split; [exact H|]. intros k v. split.
    + intros Hin. right. split; [intros [] | exact Hin].
    + intros [(l1 & l2 & E & _)|[_ Hin]]; [|exact Hin].
      destruct l1; discriminate.
  - cbn [fold_left fst snd].
    destruct (IH (dict_set d k0 v0) (dict_set_NoDup d k0 v0 H)) as [N I].
    split; [exact N|]. intros k v. rewrite I, (dict_set_In d k0 v0 k v H).
    cbn [map fst In]. split.
    + intros [(l1 & l2 & -> & Hl2)|[Hk [[-> ->]|[Hne Hin]]]].
      * left. exists ((k0, v0) :: l1), l2. split; [reflexivity | exact Hl2].
      * left. exists [], t. split; [reflexivity | exact Hk].
      * right. split; [|exact Hin]. intros [E|Hin']; [congruence | exact (Hk Hin')].
    + intros [(l1 & l2 & E & Hl2)|[Hk Hin]].
      * destruct l1 as [|x l1].
        -- cbn [app] in E. injection E as <- <- <-.
           right. split; [exact Hl2|]. left. split; reflexivity.
        -- cbn [app] in E. injection E as _ ->.
           left. exists l1, l2. split; [reflexivity | exact Hl2].
      * right. split; [intros Hin'; apply Hk; right; exact Hin'|].
        right. split; [|exact Hin]. intros ->. apply Hk. left. reflexivity.
Qed.

Lemma dict_of_distinct_items (l : list (latin1 * latin1)) :
  forall d : dict,
    NoDup (map fst (d ++ l)) ->
    fold_left (fun d kv => dict_set d (fst kv) (snd kv)) l d = d ++ l.
Proof.
  induction l as [|[k0 v0] t IH]; intros d H.
  - cbn [fold_left]. rewrite app_nil_r. reflexivity.
  - cbn [fold_left fst snd].
    assert (E : dict_set d k0 v0 = d ++ [(k0, v0)]).
    { rewrite map_app in H. apply NoDup_app_remove_r in H as Hd.
      assert (Hk : ~ In k0 (map fst d)).
      { intros Hin. rewrite <- map_app in H.
        clear - H Hin. induction d as [|[k1 v1] d IHd]; [destruct Hin|].
        cbn [app map fst] in H. inversion H as [|? ? Hn Hr]. subst.
        cbn [map fst In] in Hin. destruct Hin as [->|Hin].
        - apply Hn. rewrite map_app. apply in_or_app. right. left. reflexivity.
        - exact (IHd Hr Hin). }
      clear - Hk. induction d as [|[k1 v1] d IHd]; [reflexivity|].
      cbn [dict_set app]. cbn [map fst In] in Hk.
      destruct (String.eqb_spec k1 k0) as [->|Hne].
      - exfalso. apply Hk. left. reflexivity.
      - f_equal. apply IHd. intros Hin. apply Hk. right. exact Hin. }
    rewrite E, IH.
    + rewrite <- app_assoc. reflexivity.
    + rewrite <- app_assoc. exact H.
Qed.

Lemma dict_of_items_nil (l : list (latin1 * latin1)) :
  forall d : dict,
    fold_left (fun d kv => dict_set d (fst kv) (snd kv)) l d = [] ->
    l = [] /\ d = [].
Proof.
  induction l as [|[k0 v0] t IH]; intros d H.
  - split; [reflexivity | exact H].
  - cbn [fold_left fst snd] in H. apply IH in H. destruct H as [_ H].
    destruct d as [|[k1 v1] d]; [discriminate|].
    cbn [dict_set] in H. destruct (String.eqb k1 k0); discriminate.
Qed.

Lemma filter_split {A : Type} (p : A -> bool) (h : list A) :
  forall l1 x l2,
    filter p h = l1 ++ x :: l2 ->
    exists h1 h2,
      h = h1 ++ x :: h2 /\ filter p h1 = l1 /\ filter p h2 = l2
      /\ p x = true.
Proof.
  induction h as [|y h IH]; intros l1 x l2 H.
  - destruct l1; discriminate.
  - cbn [filter] in H. destruct (p y) eqn:E.
    + destruct l1 as [|z l1].
      * cbn [app] in H. injection H as -> <-.
        exists [], h. repeat split. exact E.
      * cbn [app] in H. injection H as -> H.
        destruct (IH _ _ _ H) as (h1 & h2 & -> & <- & <- & Hp).
        exists (z :: h1), h2. cbn [filter app]. rewrite E. repeat split.
        exact Hp.
    + destruct (IH _ _ _ H) as (h1 & h2 & -> & <- & <- & Hp).
      exists (y :: h1), h2. cbn [filter app]. rewrite E. repeat split.
      exact Hp.
Qed.

Lemma NoDup_keys_filter (p : latin1 * latin1 -> bool)
  (h : list (latin1 * latin1)) :
  NoDup (map fst h) -> NoDup (map fst (filter p h)).
Proof.
  induction h as [|x h IH]; intros H; [constructor|].
  cbn [map] in H. inversion H as [|? ? Hn Hr]. subst.
  cbn [filter]. destruct (p x); [|exact (IH Hr)].
  cbn [map]. constructor; [|exact (IH Hr)].
  intros Hin. apply Hn. apply in_map_iff in Hin.
  destruct Hin as (y & E & Hy). apply filter_In in Hy.
  apply in_map_iff. exists y. split; [exact E | apply Hy].
Qed.

Lemma log_has_custom_headers (self : handler) (count : Z)
  (ts post_data : pystr) (up : number) :
  esp32_headers_of (headers self) <> [] ->
  In (u "   🏷️  ESP32 Custom Headers: "
        ++ repr_dict (esp32_headers_of (headers self)))
     (post_log self count ts post_data up).
Proof.
  intros Hne. unfold post_log.
  apply in_or_app. right. apply in_or_app. left.
  destruct (esp32_headers_of (headers self)) as [|x t]; [contradiction|].
  cbn [List.length Nat.eqb negb]. left. reflexivity.
Qed.

(** ** White space around a line *)

Lemma drop_while_split (p : N -> bool) (s : list N) :
  exists b,
    s = b ++ drop_while p s
    /\ forallb p b = true
    /\ (forall c t, drop_while p s = c :: t -> p c = false).
Proof.
  induction s as [|x s IH].
  - exists []. repeat split. discriminate.
  - cbn [drop_while]. destruct (p x) eqn:E.
    + destruct IH as (b & H1 & H2 & H3).
      exists (x :: b). cbn [app forallb]. rewrite E, H2.
      split; [f_equal; exact H1|]. split; [reflexivity | exact H3].
    + exists []. split; [reflexivity|]. split; [reflexivity|].
      intros c t [= <- _]. exact E.
Qed.

Lemma forallb_rev (p : N -> bool) (l : list N) :
  forallb p l = true -> forallb p (rev l) = true.
Proof.
  rewrite !forallb_forall. intros H c Hc. apply H, in_rev, Hc.
Qed.

(** [s.strip()] is [s] without the white space before and after it, and
    neither begins nor ends with white space *)
Lemma strip_split (s : pystr) :
  exists before after,
    s = before ++ str_strip s ++ after
    /\ forallb is_space before = true
    /\ forallb is_space after = true
    /\ trimmed (str_strip s).
Proof.
  unfold str_strip, strip_with.
  destruct (drop_while_split is_space s) as (b & Hs & Hb & Hhead).
  destruct (drop_while_split is_space (rev (drop_while is_space s)))
    as (a & Hr & Ha & Hlast).
  set (s1 := drop_while is_space s) in *.
  set (r := drop_while is_space (rev s1)) in *.
  assert (E : s1 = rev r ++ rev a).
  { rewrite <- rev_app_distr, <- Hr. symmetry. apply rev_involutive. }
  exists b, (rev a). split; [rewrite <- E; exact Hs|].
  split; [exact Hb|]. split; [apply forallb_rev; exact Ha|].
  split.
  - intros c t H. apply (Hhead c (t ++ rev a)). rewrite E, H. reflexivity.
  - intros t c H. apply (Hlast c (rev t)).
    rewrite <- (rev_involutive r), H, rev_app_distr. reflexivity.
Qed.

Lemma strip_trimmed (s : pystr) : trimmed s -> str_strip s = s.
Proof.
  intros [Hf Hl]. unfold str_strip, strip_with.
  assert (A : drop_while is_space s = s).
  { destruct s as [|c t]; [reflexivity|].
    cbn [drop_while]. rewrite (Hf c t eq_refl). reflexivity. }
  rewrite A.
  assert (B : drop_while is_space (rev s) = rev s).
  { destruct (rev s) as [|c t] eqn:E; [reflexivity|].
    cbn [drop_while]. rewrite (Hl (rev t) c); [reflexivity|].
    rewrite <- (rev_involutive s), E. reflexivity. }
  rewrite B. apply rev_involutive.
Qed.

Lemma space_cases (c : N) :
  is_space c = true ->
  (9 <= c <= 13 \/ 28 <= c <= 32 \/ c = 0x85 \/ c = 0xA0 \/ c = 0x1680
   \/ 0x2000 <= c <= 0x205F \/ c = 0x3000)%N.
Proof.
  unfold is_space, in_range.
  rewrite !orb_true_iff, !andb_true_iff, !N.leb_le, !N.eqb_eq. lia.
Qed.

(** white space has no capitals *)
Lemma lower_of_spaces (s : pystr) :
  forallb is_space s = true -> str_lower s = s.
Proof.
  induction s as [|c t IH]; [reflexivity|].
  cbn [forallb]. rewrite andb_true_iff. intros [Hc Ht].
  unfold str_lower in *. cbn [flat_map]. rewrite (IH Ht).
  assert (E : lower_cp c = [c]); [|rewrite E; reflexivity].
  apply space_cases in Hc. unfold lower_cp, in_range.
  destruct (N.leb_spec 0x41 c); destruct (N.leb_spec c 0x5A);
    cbn [andb]; try lia;
    destruct (N.leb_spec 0xC0 c); destruct (N.leb_spec c 0xDE);
    cbn [andb]; try lia;
    destruct (N.eqb_spec c 0x130); try lia;
    destruct (N.eqb_spec c 0x212A); try lia; reflexivity.
Qed.

(** a word that begins with no white space and occurs in a text occurs
    in what follows the white space at the start of the text *)
Lemma occurrence_after_spaces (B L pre post kt : list N) (k0 : N) :
  forallb is_space B = true ->
  is_space k0 = false ->
  B ++ L = pre ++ (k0 :: kt) ++ post ->
  exists pre', L = pre' ++ (k0 :: kt) ++ post.
Proof.
  intros HB Hk. revert pre. induction B as [|b B IH]; intros pre H.
  - exists pre. exact H.
  - cbn [forallb] in HB. apply andb_true_iff in HB. destruct HB as [Hb HB].
    destruct pre as [|x pre].
    + cbn [app] in H. injection H as -> _. congruence.
    + cbn [app] in H. injection H as _ H. exact (IH HB pre H).
Qed.

Lemma occurrence_before_spaces (L A pre post kt : list N) (k1 : N) :
  forallb is_space A = true ->
  is_space k1 = false ->
  L ++ A = pre ++ (kt ++ [k1]) ++ post ->
  exists post', L = pre ++ (kt ++ [k1]) ++ post'.
Proof.
  intros HA Hk H.
  assert (R : rev A ++ rev L = rev post ++ (k1 :: rev kt) ++ rev pre).
  { rewrite <- rev_app_distr, H, !rev_app_distr. cbn [rev app].
    rewrite <- app_assoc. reflexivity. }
  destruct (occurrence_after_spaces _ _ _ _ _ _ (forallb_rev _ _ HA) Hk R)
    as (pre' & E).
  exists (rev pre').
  rewrite <- (rev_involutive L), E, !rev_app_distr. cbn [rev].
  rewrite !rev_involutive, <- !app_assoc. reflexivity.
Qed.

(** no keyword begins or ends with white space *)
Lemma keywords_have_ends (kw : pystr) :
  In kw keywords ->
  exists k0 kt k1 kh,
    kw = k0 :: kt /\ kw = kh ++ [k1]
    /\ is_space k0 = false /\ is_space k1 = false.
Proof.
  intros H.
  exists (hd 0%N kw), (tl kw), (last kw 0%N), (removelast kw).
  unfold keywords in H. cbn [In] in H.
  repeat (destruct H as [<-|H]; [vm_compute; repeat split|]).
  contradiction.
Qed.

(** stripping a line keeps the keywords that it mentions *)
Lemma strip_keeps_keywords (line : pystr) :
  mentions_keyword line = true -> mentions_keyword (str_strip line) = true.
Proof.
  unfold mentions_keyword, any. rewrite !existsb_exists.
  intros (kw & Hin & H). exists kw. split; [exact Hin|].
  destruct (strip_split line) as (before & after & E & Hb & Ha & _).
  destruct (keywords_have_ends kw Hin)
    as (k0 & kt & k1 & kh & E0 & E1 & S0 & S1).
  rewrite str_in_spec in *. destruct H as (pre & post & H).
  rewrite E in H at 1. unfold str_lower in H.
  rewrite !flat_map_app in H. fold (str_lower before) in H.
  fold (str_lower after) in H. fold (str_lower (str_strip line)) in H.
  rewrite (lower_of_spaces _ Hb), (lower_of_spaces _ Ha) in H.
  rewrite E0 in H.
  destruct (occurrence_after_spaces _ _ _ _ _ _ Hb S0 H) as (pre' & H').
  rewrite <- E0, E1 in H'.
  destruct (occurrence_before_spaces _ _ _ _ _ _ Ha S1 H') as (post' & H'').
  exists pre', post'. rewrite E1. exact H''.
Qed.

(** ** The timestamp *)

Lemma firstn_app_exact {A : Type} (a b : list A) (n : nat) :
  firstn (List.length a + n) (a ++ b) = a ++ firstn n b.
Proof. induction a as [|x a IH]; simpl; [reflexivity | rewrite IH; reflexivity]. Qed.

Lemma drop_last_micros (a : pystr) (us : Z) :
  0 <= us <= 999999 ->
  drop_last 3 (a ++ u "." ++ zero_pad 6 us)
  = a ++ u "." ++ zero_pad 3 (us / 1000).
Proof.
  intros H.
  assert (R : 0 <= us < 10 ^ Z.of_nat (3 + 3)) by (cbn; lia).
  destruct (zero_pad_digits 6 us R ltac:(lia)) as (L & _ & _).
  unfold drop_last. rewrite !length_app, L.
  change (List.length (u ".")) with 1%nat.
  replace (List.length a + (1 + 6) - 3)%nat with (List.length a + 4)%nat by lia.
  rewrite firstn_app_exact. f_equal.
  change (u ".") with [0x2E%N]. cbn [app firstn]. f_equal.
  apply (zero_pad_firstn 3 3 us R). lia.
Qed.

Lemma length_strftime_seconds (t : datetime) :
  on_the_clock t -> List.length (strftime_seconds t) = 19%nat.
Proof.
  intros (Hy & Hm & Hd & Hh & Hmi & Hs & _). unfold strftime_seconds.
  destruct (zero_pad_digits 4 (year t)) as (Ly & _); [cbn; lia | lia |].
  destruct (zero_pad_digits 2 (month t)) as (Lm & _); [cbn; lia | lia |].
  destruct (zero_pad_digits 2 (day t)) as (Ld & _); [cbn; lia | lia |].
  destruct (zero_pad_digits 2 (hour t)) as (Lh & _); [cbn; lia | lia |].
  destruct (zero_pad_digits 2 (minute t)) as (Lmi & _); [cbn; lia | lia |].
  destruct (zero_pad_digits 2 (second t)) as (Ls & _); [cbn; lia | lia |].
  rewrite !length_app, Ly, Lm, Ld, Lh, Lmi, Ls. reflexivity.
Qed.

(** ** GET requests among the POSTs *)

Lemma get_does_not_count (r : request) (w : world) :
  is_post r = false ->
  message_count (snd (handle_request r w)) = message_count w.
Proof.
  intros H. rewrite handle_request_counts, H. lia.
Qed.

(** ** A Content-Length that is not the length of the body *)

Lemma bytes_take_all (n : nat) (b : bytes) :
  (String.length b <= n)%nat -> bytes_take n b = b.
Proof.
  intros H. unfold bytes_take.
  rewrite firstn_all2 by (rewrite length_list_ascii_of_string; exact H).
  apply string_of_list_ascii_of_string.
Qed.

Lemma bytes_drop_all (n : nat) (b : bytes) :
  (String.length b <= n)%nat -> bytes_drop n b = ""%string.
Proof.
  intros H. unfold bytes_drop.
  rewrite skipn_all2 by (rewrite length_list_ascii_of_string; exact H).
  reflexivity.
Qed.

(** ** [repr]: nothing but printable characters *)

Lemma hex_digit_printable (n : N) :
  (n < 16)%N -> printable_latin1 (hex_digit n) = true.
Proof.
  intros H. unfold hex_digit, printable_latin1, in_range.
  destruct (N.ltb_spec n 10);
    apply orb_true_iff; left; apply andb_true_iff;
    rewrite !N.leb_le; lia.
Qed.

Lemma repr_char_printable (quote c : N) :
  printable_latin1 quote = true -> (c < 256)%N ->
  forallb printable_latin1 (repr_char quote c) = true.
Proof.
  intros Hq Hc. unfold repr_char.
  destruct ((c =? quote)%N || (c =? 0x5C)%N) eqn:E1.
  { cbn [forallb]. rewrite andb_true_r.
    apply orb_true_iff in E1. destruct E1 as [E|E];
      apply N.eqb_eq in E; subst c; [rewrite Hq|]; reflexivity. }
  destruct (c =? 0x09)%N; [reflexivity|].
  destruct (c =? 0x0A)%N; [reflexivity|].
  destruct (c =? 0x0D)%N; [reflexivity|].
  destruct (printable_latin1 c) eqn:P; [cbn [forallb]; rewrite P; reflexivity|].
  cbn [forallb].
  rewrite !hex_digit_printable; [reflexivity | |].
  - apply N.mod_lt. discriminate.
  - apply N.Div0.div_lt_upper_bound. exact Hc.
Qed.

Lemma repr_str_printable (s : latin1) :
  forallb printable_latin1 (repr_str s) = true.
Proof.
  unfold repr_str. cbv zeta.
  match goal with
  | |- context [if ?b then 0x22%N else 0x27%N] =>
    set (quote := if b then 0x22%N else 0x27%N)
  end.
  assert (Hq : printable_latin1 quote = true)
    by (unfold quote; destruct (_ && _); reflexivity).
  cbn [forallb]. rewrite Hq, forallb_app. cbn [forallb].
  rewrite Hq, andb_true_r. cbn [andb].
  unfold codes. induction (list_ascii_of_string s) as [|a t IH];
    [reflexivity|].
  cbn [map flat_map]. rewrite forallb_app, IH, andb_true_r.
  apply repr_char_printable; [exact Hq | apply N_ascii_bounded].
Qed.

Lemma str_join_printable (sep : pystr) (l : list pystr) :
  forallb printable_latin1 sep = true ->
  Forall (fun x => forallb printable_latin1 x = true) l ->
  forallb printable_latin1 (str_join sep l) = true.
Proof.
  intros Hs H. induction H as [|x t Hx Ht IH]; [reflexivity|].
  cbn [str_join]. destruct t as [|y t]; [exact Hx|].
  rewrite !forallb_app, Hx, Hs, IH. reflexivity.
Qed.

(* ------------------------------------------------------------------ *)
(** ** The properties *)

(** X1. GET requests do not count. A GET leaves the counter as it is.
    After any sequence of requests the counter has grown by the number
    of POSTs among them, and the answer to a POST that returned has, in
    the second line of its body, the decimal numeral of the counter at
    the start plus the number of POSTs received up to and including it,
    however many GETs came in between. *)
Theorem counter_is_number_of_posts (rs : list request) (w : world) :
  message_count (snd (serve_forever rs w))
  = message_count w + Z.of_nat (List.length (filter is_post rs))
  /\ (forall r w',
        command r = GET ->
        message_count (snd (handle_request r w')) = message_count w')
  /\ (forall n r rep,
        nth_error rs n = Some r ->
        nth_error (fst (serve_forever rs w)) n = Some rep ->
        command r = POST ->
        outcome rep = Ok tt ->
        exists up body,
          uptime_of (parsed r) = Ok up
          /\ utf8_encode
               (u "✅ Message #" ++ str_of_latin1 (esp32_counter_of (parsed r))
                  ++ u " received successfully by your computer!" ++ nl
                ++ u "📊 Server has now received "
                  ++ str_of_int
                       (message_count w
                        + Z.of_nat
                            (List.length (filter is_post (firstn (S n) rs))))
                  ++ u " total messages." ++ nl
                ++ u "⏰ Received at: " ++ timestamp_of (arrival r) ++ nl
                ++ u "🎯 ESP32 uptime: " ++ format_3f up ++ u " seconds")
             = Ok body
          /\ sent rep = [Status 200; Header "Content-type" "text/plain";
                         EndHeaders; Body body]).
Proof.
  split; [apply serve_forever_counts_posts|]. split.
  - intros r w' Hg. rewrite handle_request_counts. unfold is_post.
    rewrite Hg. lia.
  - intros n r rep Hn Hrep Hp Hok.
    destruct (serve_forever_nth_any rs w n r rep Hn Hrep) as (wn & Hc & ->).
    pose proof (post_reply r wn Hp) as R. rewrite Hok in R.
    destruct R as (up & Hu & b & Hb & Hs). exists up, b.
    split; [exact Hu|]. split; [|exact Hs].
    change (List.length (filter is_post (firstn (S n) rs)))
      with (posts_in (firstn (S n) rs)).
    rewrite (posts_in_upto rs n r Hn Hp), Z.add_assoc, <- Hc. exact Hb.
Qed.

(** X2. The handler answers in full or not at all. For a GET or a POST
    the calls that the handler makes to answer are either
    [send_response(200)], one [send_header] with the content type
    (text/html for a GET, text/plain for a POST), [end_headers()] and
    one write of the body, in this order, and the handler returns; or
    there is none of them, and the handler raised. It raises exactly
    when the request is a POST and one of the statements of lines 19 to
    27 raises ([int], [read], [decode], [float]), and what leaves the
    handler is the exception of the first of them that does:
    ValueError, UnicodeDecodeError, OverflowError or MemoryError. The
    handler calls [send_response] with no other status, and leaves no
    answer half made. *)
Theorem reply_is_whole_or_nothing (r : request) (w : world) :
  let rep := fst (handle_request r w) in
  match (if is_post r then raises (parsed r) (connect r w) else None) with
  | Some e =>
    outcome rep = Raise e
    /\ sent rep = []
    /\ (e = ValueError \/ e = UnicodeDecodeError
        \/ e = OverflowError \/ e = MemoryError)
  | None =>
    outcome rep = Ok tt
    /\ exists b,
        sent rep
        = [Status 200;
           Header "Content-type"
                  (if is_post r then "text/plain" else "text/html")%string;
           EndHeaders; Body b]
  end
  /\ (forall self w0,
        raises self w0
        = match content_length_of self with
          | Raise e => Some e
          | Ok n =>
            match read n (rfile w0) (room w0) with
            | Raise e => Some e
            | Ok raw =>
              match utf8_decode raw with
              | Raise e => Some e
              | Ok _ =>
                match uptime_of self with
                | Raise e => Some e
                | Ok _ => None
                end
              end
            end
          end).
Proof.
  cbn zeta. split.
  - pose proof (handle_request_cases r w) as C.
    unfold is_post in *. destruct (command r) eqn:Hc.
    + destruct C as (H1 & (b & _ & H2) & _). split; [exact H1|]. eauto.
    + destruct (raises (parsed r) (connect r w)) as [e|] eqn:E.
      * destruct (post_raise _ _ _ E) as ((F1 & F2 & F3) & _).
        pose proof (raises_kind _ _ _ E) as K.
        unfold handle_request, dispatch. rewrite Hc.
        destruct (do_POST (parsed r) (connect r w)) as [res w1].
        cbn in *. repeat split; assumption.
      * assert (M : malformed (parsed r) (connect r w) = false).
        { destruct (malformed (parsed r) (connect r w)) eqn:M;
            [|reflexivity].
          apply malformed_raises in M. congruence. }
        rewrite M in C.
        destruct C as (H1 & d & up & _ & _ & (b & _ & H2) & _).
        split; [exact H1|]. eauto.
  - intros self w0. unfold raises, post_data_of, payload_of.
    destruct (content_length_of self); [|reflexivity].
    destruct (read _ _ _); reflexivity.
Qed.

(** X3. The console only grows, and by a bounded amount. A request adds
    its lines after what is there and changes nothing before; what it
    adds does not depend on what was printed before. A GET adds exactly
    one line (the access log of the base class is silent), a malformed
    POST adds nothing, and any other POST adds between 16 and 23 entries,
    however long its payload is. A sequence of requests adds what its
    requests add, one after the other. *)
Theorem console_only_grows (r : request) (rs : list request) (w : world) :
  stdout (snd (handle_request r w)) = stdout w ++ printed_by r w
  /\ (forall w', message_count w = message_count w' ->
                 printed_by r w = printed_by r w')
  /\ match command r with
     | GET => List.length (printed_by r w) = 1%nat
     | POST =>
       if malformed (parsed r) (connect r w) then printed_by r w = []
       else (16 <= List.length (printed_by r w) <= 23)%nat
     end
  /\ stdout (snd (serve_forever rs w)) = stdout w ++ printed_by_all rs w
  /\ printed_by_all (r :: rs) w
     = printed_by r w ++ printed_by_all rs (snd (handle_request r w)).
Proof.
  split; [apply handle_request_prints|]. split; [|split; [|split]].
  - intros w' H. unfold printed_by.
    destruct (handle_request_frame r (with_stdout w []) (with_stdout w' []) H)
      as (_ & _ & out & H1 & H2).
    rewrite H1, H2. reflexivity.
  - pose proof (handle_request_cases r w) as C.
    destruct (command r).
    + destruct C as (_ & _ & ->). reflexivity.
    + destruct (malformed (parsed r) (connect r w)).
      * destruct C as (_ & _ & ->). reflexivity.
      * destruct C as (_ & d & up & _ & _ & _ & ->). apply post_log_length.
  - apply serve_forever_prints.
  - unfold printed_by_all. rewrite serve_forever_cons. cbn [snd].
    rewrite serve_forever_prints, handle_request_prints. cbn [stdout].
    unfold printed_by_all, printed_by. cbn [with_stdout stdout].
    destruct (handle_request_frame r w (with_stdout w []) eq_refl)
      as (_ & Hc & _).
    destruct (serve_forever_frame rs
                (with_stdout (snd (handle_request r w)) [])
                (with_stdout (snd (handle_request r (with_stdout w []))) [])
                Hc) as (_ & _ & out & H1 & H2).
    cbn [with_stdout stdout message_count] in *.
    rewrite H1, H2. reflexivity.
Qed.

(** X4. A run of the server, on a port that could be bound and with the
    interrupt coming while the server waits for a request. When
    [run_server] returns, the console holds the five lines of the
    banner, then what the requests print, in their order, then the line
    "Server stopped by user" as its last; the banner names the port of
    [server_address]; the counter is the number of POSTs received; and
    the replies are those of the requests served from the initial
    world: the banner and the console do not bear on them. *)
Theorem run_server_console (arrivals : list request) :
  fst (run_server arrivals initial_world)
  = Ok (fst (serve_forever arrivals initial_world))
  /\ stdout (snd (run_server arrivals initial_world))
     = [ u "🚀 ESP32 Message Server Starting...";
         u "📡 Listening on port " ++ str_of_int (snd server_address);
         u "🌐 Your computer's IP should be used in ESP32 code";
         u "💡 You can also test by visiting http://localhost:8000 in your browser";
         u "🔍 Waiting for ESP32 messages..." ++ nl ]
       ++ printed_by_all arrivals initial_world
       ++ [ nl ++ nl ++ u "👋 Server stopped by user" ]
  /\ message_count (snd (run_server arrivals initial_world))
     = Z.of_nat (List.length (filter is_post arrivals)).
Proof.
  unfold run_server, bind. rewrite startup_prints_banner.
  destruct (serve_forever_frame arrivals
              (with_stdout initial_world banner)
              (with_stdout initial_world []) eq_refl)
    as (E1 & E2 & out & O1 & O2).
  pose proof (serve_forever_frame arrivals initial_world
                (with_stdout initial_world []) eq_refl) as (F1 & F2 & _).
  pose proof (serve_forever_counts_posts arrivals initial_world) as Hc.
  unfold printed_by_all. rewrite O2.
  destruct (serve_forever arrivals (with_stdout initial_world banner))
    as [reps w2].
  unfold print, ret.
  cbn [fst snd stdout message_count with_stdout app] in *.
  split; [rewrite E1, <- F1; reflexivity|]. split.
  - rewrite O1, <- app_assoc. reflexivity.
  - rewrite E2, <- F2, Hc. reflexivity.
Qed.

(** X5. What the client reads is the message. The body of every answer
    is the UTF-8 encoding of the response message (POST) or of the
    status page (GET), and decoding the body as UTF-8 gives that text
    back, character by character, although the answer names no charset.
    The body has at least as many bytes as the text has characters and
    at most four times as many. *)
Theorem answer_decodes_to_message (r : request) (w : world) :
  outcome (fst (handle_request r w)) = Ok tt ->
  exists b message,
    sent (fst (handle_request r w))
    = [Status 200;
       Header "Content-type"
              (if is_post r then "text/plain" else "text/html")%string;
       EndHeaders; Body b]
    /\ utf8_encode message = Ok b
    /\ utf8_decode b = Ok message
    /\ (List.length message <= String.length b <= 4 * List.length message)%nat
    /\ match command r with
       | GET => message = html_response (strftime_seconds (arrival r))
       | POST =>
         exists up,
           uptime_of (parsed r) = Ok up
           /\ message
              = response_message (esp32_counter_of (parsed r))
                  (message_count w + 1) (timestamp_of (arrival r)) up
       end.
Proof.
  intros Hok. pose proof (handle_request_cases r w) as C.
  unfold is_post. destruct (command r).
  - destruct C as (_ & (b & Hb & Hs) & _).
    pose proof (decode_encode _ _ Hb) as D.
    destruct (encode_decode _ _ D) as (_ & _ & L).
    exists b, (html_response (strftime_seconds (arrival r))).
    repeat split; try assumption; apply L.
  - destruct (malformed (parsed r) (connect r w)).
    + destruct C as ((e & _ & K) & _). rewrite K in Hok. discriminate.
    + destruct C as (_ & d & up & _ & Hu & (b & Hb & Hs) & _).
      pose proof (decode_encode _ _ Hb) as D.
      destruct (encode_decode _ _ D) as (_ & _ & L).
      exists b, (response_message (esp32_counter_of (parsed r))
                   (message_count w + 1) (timestamp_of (arrival r)) up).
      split; [exact Hs|]. split; [exact Hb|]. split; [exact D|].
      split; [exact L|]. exists up. split; [exact Hu | reflexivity].
Qed.

(** the answer to the message of the firmware *)
Lemma answer_decodes_to_message_witness :
  exists b message,
    sent (fst (handle_request sample_post initial_world))
    = [Status 200;
       Header "Content-type"
              (if is_post sample_post then "text/plain" else "text/html")%string;
       EndHeaders; Body b]
    /\ utf8_encode message = Ok b
    /\ utf8_decode b = Ok message
    /\ (List.length message <= String.length b <= 4 * List.length message)%nat
    /\ match command sample_post with
       | GET => message = html_response (strftime_seconds (arrival sample_post))
       | POST =>
         exists up,
           uptime_of (parsed sample_post) = Ok up
           /\ message
              = response_message (esp32_counter_of (parsed sample_post))
                  (message_count initial_world + 1)
                  (timestamp_of (arrival sample_post)) up
       end.
Proof.
  apply (answer_decodes_to_message sample_post initial_world).
  vm_compute. reflexivity.
Defined.

(** X6. The payload is shown as it was sent. When a POST is answered,
    the text printed under MESSAGE CONTENT is the strict UTF-8 decoding
    of the bytes read: encoding it again gives those bytes, so no byte
    was dropped or replaced. The number printed as Message Length, the
    number of characters of that text, is at most the number of bytes
    read and at least a quarter of it, and it is the number of bytes
    exactly when the payload is in ASCII. *)
Theorem logged_payload_is_exact (r : request) (w : world) :
  command r = POST ->
  outcome (fst (handle_request r w)) = Ok tt ->
  exists raw post_data,
    payload_of (parsed r) (connect r w) = Ok raw
    /\ utf8_decode raw = Ok post_data
    /\ utf8_encode post_data = Ok raw
    /\ In post_data (printed_by r w)
    /\ In (u "📏 Message Length: "
             ++ str_of_int (Z.of_nat (List.length post_data)) ++ u " bytes")
          (printed_by r w)
    /\ (List.length post_data <= String.length raw
        <= 4 * List.length post_data)%nat
    /\ (List.length post_data = String.length raw <-> plain post_data = true).
Proof.
  intros Hp Hok. pose proof (handle_request_cases r w) as C.
  rewrite Hp in C.
  destruct (malformed (parsed r) (connect r w)).
  { destruct C as ((e & _ & K) & _). rewrite K in Hok. discriminate. }
  destruct C as (_ & d & up & Hd & _ & _ & Hlog).
  destruct (post_data_is_decoded _ _ _ Hd) as (raw & Hraw & Hdec).
  destruct (encode_decode _ _ Hdec) as (Henc & _ & L).
  exists raw, d.
  split; [exact Hraw|]. split; [exact Hdec|]. split; [exact Henc|].
  rewrite Hlog. split; [apply log_has_payload|].
  split; [apply log_has_length|]. split; [exact L|].
  pose proof (encoded_length _ _ Henc) as E.
  split; intros K.
  - apply E. symmetry. exact K.
  - symmetry. apply E. exact K.
Qed.

(** a payload of two bytes that is one character, and is shown as one *)
Lemma logged_payload_is_exact_witness :
  exists raw post_data,
    payload_of (parsed sample_two_bytes)
               (connect sample_two_bytes initial_world) = Ok raw
    /\ utf8_decode raw = Ok post_data
    /\ utf8_encode post_data = Ok raw
    /\ In post_data (printed_by sample_two_bytes initial_world)
    /\ In (u "📏 Message Length: "
             ++ str_of_int (Z.of_nat (List.length post_data)) ++ u " bytes")
          (printed_by sample_two_bytes initial_world)
    /\ (List.length post_data <= String.length raw
        <= 4 * List.length post_data)%nat
    /\ (List.length post_data = String.length raw <-> plain post_data = true).
Proof.
  apply (logged_payload_is_exact sample_two_bytes initial_world).
  - reflexivity.
  - vm_compute. reflexivity.
Defined.

(** X7. A text that is sent arrives. When a client sends a text as
    UTF-8, with a Content-Length header that holds the number of bytes
    of the encoding in decimal (of at most 4300 digits, the longest
    numeral [int] converts), and an uptime header that [float] accepts,
    then [int] reads that number, the handler reads exactly those
    bytes, decodes them to the text that was sent and prints it, answers
    the request, and leaves what follows the payload on the connection
    unread. *)
Theorem sent_text_is_shown (r : request) (w : world) (text : pystr)
  (body rest : bytes) :
  command r = POST ->
  utf8_encode text = Ok body ->
  headers_find (headers (parsed r)) "Content-Length"
  = Some (numeral (Z.of_nat (String.length body))) ->
  (String.length (numeral (Z.of_nat (String.length body)))
   <= int_max_str_digits)%nat ->
  stream r = (body ++ rest)%string ->
  is_raise (uptime_of (parsed r)) = false ->
  outcome (fst (handle_request r w)) = Ok tt
  /\ content_length_of (parsed r) = Ok (Z.of_nat (String.length body))
  /\ payload_of (parsed r) (connect r w) = Ok body
  /\ post_data_of (parsed r) (connect r w) = Ok text
  /\ In text (printed_by r w)
  /\ rfile (snd (handle_request r w)) = rest.
Proof.
  intros Hp Henc Hcl Hlen Hs Hup.
  assert (Cl : content_length_of (parsed r)
               = Ok (Z.of_nat (String.length body))).
  { unfold content_length_of, headers_get. rewrite Hcl. cbn [int].
    apply int_of_numeral; [lia | exact Hlen]. }
  assert (Pl : payload_of (parsed r) (connect r w) = Ok body).
  { unfold payload_of. rewrite Cl. cbn [connect rfile room].
    rewrite read_within, Nat2Z.id, Hs, bytes_take_app; [reflexivity|].
    rewrite Hs, length_append. lia. }
  assert (Pd : post_data_of (parsed r) (connect r w) = Ok text).
  { unfold post_data_of. rewrite Pl. apply decode_encode, Henc. }
  assert (M : malformed (parsed r) (connect r w) = false).
  { unfold malformed. rewrite Cl, Pd, Hup. reflexivity. }
  pose proof (handle_request_cases r w) as C.
  rewrite Hp, M in C.
  destruct C as (Hok & d & up & Hd & _ & _ & Hlog).
  rewrite Pd in Hd. injection Hd as <-.
  split; [exact Hok|]. split; [exact Cl|]. split; [exact Pl|].
  split; [exact Pd|]. split.
  - rewrite Hlog. apply log_has_payload.
  - rewrite (handle_post_rfile r w _ Hp Cl);
      [|apply readable_within; rewrite Hs, length_append; lia].
    rewrite read_size_nonneg, bytes_drop_min, Nat2Z.id, Hs by lia.
    apply bytes_drop_app.
Qed.

(** the message of the firmware: 16 bytes, announced as "16" *)
Lemma sent_text_is_shown_witness :
  outcome (fst (handle_request sample_post initial_world)) = Ok tt
  /\ content_length_of (parsed sample_post) = Ok 16
  /\ payload_of (parsed sample_post) (connect sample_post initial_world)
     = Ok "Random value: 42"%string
  /\ post_data_of (parsed sample_post) (connect sample_post initial_world)
     = Ok (u "Random value: 42")
  /\ In (u "Random value: 42") (printed_by sample_post initial_world)
  /\ rfile (snd (handle_request sample_post initial_world)) = ""%string.
Proof.
  apply (sent_text_is_shown sample_post initial_world
           (u "Random value: 42") "Random value: 42" "");
    solve [reflexivity | vm_compute; lia].
Defined.

(** X8. The custom headers that are listed. The [dict] of lines 47-48
    has one entry for each header name that begins with "X-ESP32-"
    (capitals as written: the test is [startswith], which does not
    ignore case as [headers.get] does), and no other entry; no name is
    listed twice; when a name is sent more than once, the value listed
    is that of the last header of that name. When no name is sent twice
    the entries are those headers, in the order in which they were
    sent. The line "ESP32 Custom Headers" is printed whenever there is
    such a header, and the [dict] is empty exactly when there is
    none. *)
Theorem custom_headers_listed (self : handler) :
  let custom := fun kv : latin1 * latin1 => String.prefix "X-ESP32-" (fst kv) in
  let esp32_headers := esp32_headers_of (headers self) in
  NoDup (map fst esp32_headers)
  /\ (forall k v,
        In (k, v) esp32_headers
        <-> String.prefix "X-ESP32-" k = true
            /\ exists h1 h2,
                headers self = h1 ++ (k, v) :: h2 /\ ~ In k (map fst h2))
  /\ (NoDup (map fst (headers self)) ->
      esp32_headers = filter custom (headers self))
  /\ (esp32_headers = []
      <-> forall k, In k (map fst (headers self)) ->
                    String.prefix "X-ESP32-" k = false)
  /\ (esp32_headers <> [] ->
      forall count ts post_data up,
        In (u "   🏷️  ESP32 Custom Headers: " ++ repr_dict esp32_headers)
           (post_log self count ts post_data up)).
Proof.
  cbv zeta. unfold esp32_headers_of.
  set (h := headers self).
  set (custom := fun kv : latin1 * latin1 => String.prefix "X-ESP32-" (fst kv)).
  change (fun kv : string * latin1 => String.prefix "X-ESP32-" (fst kv))
    with custom.
  destruct (dict_of_items (filter custom h) [] (NoDup_nil _)) as [N I].
  split; [exact N|]. split; [|split; [|split]].
  - intros k v. rewrite I. split.
    + intros [(l1 & l2 & E & Hl2)|[_ []]].
      destruct (filter_split custom h l1 (k, v) l2 E)
        as (h1 & h2 & Eh & _ & E2 & Hp).
      split; [exact Hp|]. exists h1, h2. split; [exact Eh|].
      intros Hin. apply Hl2. rewrite <- E2.
      apply in_map_iff in Hin. destruct Hin as ([k' v'] & Ek & Hin).
      cbn [fst] in Ek. subst k'.
      apply in_map_iff. exists (k, v'). split; [reflexivity|].
      apply filter_In. split; [exact Hin | exact Hp].
    + intros (Hp & h1 & h2 & Eh & Hh2). left.
      exists (filter custom h1), (filter custom h2). split.
      * rewrite Eh, filter_app. cbn [filter].
        change (custom (k, v)) with (String.prefix "X-ESP32-" k).
        rewrite Hp. reflexivity.
      * intros Hin. apply Hh2. apply in_map_iff in Hin.
        destruct Hin as (y & E & Hy). apply filter_In in Hy.
        apply in_map_iff. exists y. split; [exact E | apply Hy].
  - intros Hn. apply (dict_of_distinct_items (filter custom h) []).
    apply NoDup_keys_filter. exact Hn.
  - split.
    + intros E. apply dict_of_items_nil in E. destruct E as [E _].
      intros k Hin. apply in_map_iff in Hin.
      destruct Hin as ([k' v] & Ek & Hin). cbn [fst] in Ek. subst k'.
      destruct (String.prefix "X-ESP32-" k) eqn:P; [|reflexivity].
      assert (F : In (k, v) (filter custom h))
        by (apply filter_In; split; [exact Hin | exact P]).
      exfalso. exact (@eq_ind _ _ (fun l => In (k, v) l) F _ E).
    + intros H.
      assert (E : filter custom h = []).
      { destruct (filter custom h) as [|[k v] t] eqn:F; [reflexivity|].
        assert (Hin : In (k, v) (filter custom h))
          by (rewrite F; left; reflexivity).
        apply filter_In in Hin. destruct Hin as [Hin P].
        unfold custom in P. cbn [fst] in P.
        rewrite (H k (in_map fst _ _ Hin)) in P. discriminate. }
      exact (f_equal
               (fun l => fold_left
                           (fun d kv => dict_set d (fst kv) (snd kv)) l [])
               E).
  - intros Hne count ts post_data up.
    apply log_has_custom_headers. exact Hne.
Qed.

(** X9. The lines of changing data are clean. Every line that the scan
    of lines 59-63 collects is a line of the payload without the white
    space before and after it: it neither begins nor ends with white
    space, it is not empty, stripping it again changes nothing, and it
    still mentions a keyword (no keyword begins or ends with white
    space, so [strip] cannot cut into the keyword that selected the
    line). *)
Theorem changing_data_is_trimmed (post_data data : pystr) :
  In data (changing_data_of post_data) ->
  trimmed data
  /\ data <> []
  /\ str_strip data = data
  /\ mentions_keyword data = true
  /\ exists line before after,
      In line (str_split_lf post_data)
      /\ line = before ++ data ++ after
      /\ forallb is_space before = true
      /\ forallb is_space after = true.
Proof.
  unfold changing_data_of. cbv zeta.
  rewrite (collect_is_filter_map mentions_keyword str_strip). cbn [app].
  rewrite in_map_iff. intros (line & <- & Hl).
  apply filter_In in Hl. destruct Hl as [Hin Hm].
  destruct (strip_split line) as (before & after & E & Hb & Ha & T).
  pose proof (strip_keeps_keywords line Hm) as K.
  split; [exact T|]. split.
  { intros Z. rewrite Z in K. vm_compute in K. discriminate. }
  split; [apply strip_trimmed; exact T|]. split; [exact K|].
  exists line, before, after. repeat split; assumption.
Qed.

(** the second line of a payload, indented and followed by a blank *)
Lemma changing_data_is_trimmed_witness :
  trimmed (u "Heap: 1024") /\ mentions_keyword (u "Heap: 1024") = true.
Proof.
  destruct (changing_data_is_trimmed (u "Hello" ++ nl ++ u "  Heap: 1024 ")
              (u "Heap: 1024"))
    as (T & _ & _ & K & _).
  - vm_compute. left. reflexivity.
  - split; assumption.
Defined.

(** X10. The timestamp of a POST. For a [datetime] of a running clock
    the timestamp of lines 31-32 is the timestamp that a GET shows
    (line 84: date and time to the second, 19 characters), a point, and
    the milliseconds as three digits: the microseconds divided by 1000
    and cut, not rounded, which is what the slice [[:-3]] of the six
    digits of [%f] leaves. It has 23 characters. *)
Theorem timestamp_has_milliseconds (now : datetime) :
  on_the_clock now ->
  timestamp_of now
  = strftime_seconds now ++ u "." ++ zero_pad 3 (microsecond now / 1000)
  /\ List.length (strftime_seconds now) = 19%nat
  /\ List.length (timestamp_of now) = 23%nat
  /\ zero_pad 4 (year now) = str_of_int (year now)
  /\ 0 <= microsecond now / 1000 <= 999
  /\ forallb is_digit (zero_pad 3 (microsecond now / 1000)) = true.
Proof.
  intros C. pose proof C as (Hy & _ & _ & _ & _ & _ & Hus).
  pose proof (length_strftime_seconds now C) as L19.
  assert (Hms : 0 <= microsecond now / 1000 <= 999).
  { split; [apply Z.div_pos; lia|].
    assert (microsecond now / 1000 < 1000); [|lia].
    apply Z.div_lt_upper_bound; lia. }
  destruct (zero_pad_digits 3 (microsecond now / 1000)) as (L3 & D3 & _);
    [cbn; lia | lia |].
  assert (E : timestamp_of now
              = strftime_seconds now ++ u "."
                ++ zero_pad 3 (microsecond now / 1000)).
  { unfold timestamp_of, strftime_micros. apply drop_last_micros, Hus. }
  split; [exact E|]. split; [exact L19|]. split.
  { rewrite E, !length_app, L19, L3. reflexivity. }
  split.
  { destruct (zero_pad_digits 4 (year now)) as (L4 & _); [cbn; lia | lia |].
    unfold zero_pad in *. cbv zeta in *.
    rewrite length_app, length_str_repeat_one in L4.
    destruct (4 - List.length (str_of_int (year now)))%nat eqn:K;
      [reflexivity|].
    exfalso.
    destruct (year now) as [|p|p]; try lia.
    destruct (str_of_int_pos p) as (c & t & Ep & Hc & Ht).
    pose proof (digits_value_str_of_int (Z.pos p) ltac:(lia)) as V.
    rewrite Ep in V, K, L4. cbn [List.length] in K, L4.
    rewrite digits_value_cons in V.
    pose proof (digits_value_range t Ht) as R.
    assert (List.length t <= 2)%nat by lia.
    assert (10 ^ Z.of_nat (List.length t) <= 10 ^ 2)
      by (apply Z.pow_le_mono_r; lia).
    change (10 ^ 2) with 100 in *. nia. }
  split; [exact Hms | exact D3].
Qed.

(** 23456 microseconds past 12:00:01 are shown as ".023" *)
Lemma timestamp_has_milliseconds_witness :
  timestamp_of noon
  = strftime_seconds noon ++ u "." ++ zero_pad 3 (microsecond noon / 1000)
  /\ List.length (strftime_seconds noon) = 19%nat
  /\ List.length (timestamp_of noon) = 23%nat
  /\ zero_pad 4 (year noon) = str_of_int (year noon)
  /\ 0 <= microsecond noon / 1000 <= 999
  /\ forallb is_digit (zero_pad 3 (microsecond noon / 1000)) = true.
Proof.
  apply (timestamp_has_milliseconds noon).
  unfold on_the_clock, noon.
  cbn [year month day hour minute second microsecond]. lia.
Defined.

(** X11. A whole number of milliseconds is shown exactly. When the
    uptime header holds a whole number [n] of milliseconds in decimal,
    [0 <= n < 2 ^ 52], the division by 1000 in floating point and the
    format [.3f] lose nothing: the log record and the response show the
    seconds [n // 1000], a point, and the milliseconds [n % 1000] as
    three digits. ([float] reads [n] exactly; the quotient is the double
    nearest to [n / 1000], less than half a thousandth away from it;
    the format rounds that double back to [n] thousandths.) *)
Theorem whole_milliseconds_are_exact (r : request) (w : world) (n : Z) :
  command r = POST ->
  headers_find (headers (parsed r)) "X-ESP32-Uptime-MS" = Some (numeral n) ->
  0 <= n < 2 ^ 52 ->
  outcome (fst (handle_request r w)) = Ok tt ->
  let seconds := str_of_int (n / 1000) ++ u "." ++ zero_pad 3 (n mod 1000) in
  uptime_of (parsed r) = Ok (PyFloat (float_div_int (float_of_int n) 1000))
  /\ format_float_3f (float_div_int (float_of_int n) 1000) = seconds
  /\ In (u "   ⏱️  ESP32 Uptime: " ++ seconds ++ u " seconds")
        (printed_by r w)
  /\ exists b before,
      sent (fst (handle_request r w))
      = [Status 200; Header "Content-type" "text/plain"; EndHeaders; Body b]
      /\ utf8_decode b
         = Ok (before ++ u "🎯 ESP32 uptime: " ++ seconds ++ u " seconds").
Proof.
  intros Hp Hv Hn Hok seconds.
  pose proof (uptime_of_number (parsed r) (numeral n) _ Hv
                (float_of_numeral n (proj1 Hn))) as Hu.
  pose proof (seconds_of_milliseconds n Hn) as Hf. fold seconds in Hf.
  split; [exact Hu|]. split; [exact Hf|].
  pose proof (handle_request_cases r w) as C. rewrite Hp in C.
  destruct (malformed (parsed r) (connect r w)).
  { destruct C as ((e & _ & K) & _). rewrite K in Hok. discriminate. }
  destruct C as (_ & d & up & _ & Hu' & (b & Hb & Hs) & Hlog).
  rewrite Hu in Hu'. injection Hu' as <-.
  split.
  - rewrite Hlog, <- Hf. apply (log_has_uptime (parsed r) _ _ d (PyFloat _)).
  - destruct (response_ends_with_uptime (esp32_counter_of (parsed r))
                (message_count w + 1) (timestamp_of (arrival r))
                (PyFloat (float_div_int (float_of_int n) 1000)))
      as (before & Hbefore).
    exists b, before. split; [exact Hs|].
    rewrite <- Hf. cbn [format_3f] in Hbefore. rewrite <- Hbefore.
    apply decode_encode, Hb.
Qed.

(** the message of the firmware: 2500 ms are shown as 2.500 *)
Lemma whole_milliseconds_are_exact_witness :
  uptime_of (parsed sample_post)
  = Ok (PyFloat (float_div_int (float_of_int 2500) 1000))
  /\ format_float_3f (float_div_int (float_of_int 2500) 1000)
     = str_of_int (2500 / 1000) ++ u "." ++ zero_pad 3 (2500 mod 1000)
  /\ In (u "   ⏱️  ESP32 Uptime: "
           ++ (str_of_int (2500 / 1000) ++ u "." ++ zero_pad 3 (2500 mod 1000))
           ++ u " seconds")
        (printed_by sample_post initial_world)
  /\ exists b before,
      sent (fst (handle_request sample_post initial_world))
      = [Status 200; Header "Content-type" "text/plain"; EndHeaders; Body b]
      /\ utf8_decode b
         = Ok (before ++ u "🎯 ESP32 uptime: "
                 ++ (str_of_int (2500 / 1000) ++ u "."
                       ++ zero_pad 3 (2500 mod 1000))
                 ++ u " seconds").
Proof.
  apply (whole_milliseconds_are_exact sample_post initial_world 2500).
  - reflexivity.
  - reflexivity.
  - split; [discriminate | reflexivity].
  - vm_compute. reflexivity.
Defined.

(** X12. GET requests are invisible to the clients that POST. The
    answers to the POSTs of a sequence of requests, and the counter at
    its end, are those of the same sequence without its GETs: a GET
    changes nothing that a later POST looks at. *)
Theorem gets_are_invisible_to_posts (rs : list request) (w : world) :
  fst (serve_forever (filter is_post rs) w)
  = map snd (filter (fun rr => is_post (fst rr))
                    (combine rs (fst (serve_forever rs w))))
  /\ message_count (snd (serve_forever (filter is_post rs) w))
     = message_count (snd (serve_forever rs w)).
Proof.
  revert w. induction rs as [|r t IH]; intros w.
  - split; reflexivity.
  - rewrite (serve_forever_cons r t w). cbn [fst snd combine filter].
    destruct (IH (snd (handle_request r w))) as [IH1 IH2].
    destruct (is_post r) eqn:P.
    + rewrite (serve_forever_cons r (filter is_post t) w).
      cbn [fst snd map]. rewrite IH1, IH2. split; reflexivity.
    + destruct (serve_forever_frame (filter is_post t) w
                  (snd (handle_request r w))) as (F1 & F2 & _).
      { symmetry. apply get_does_not_count, P. }
      rewrite F1, F2, IH1, IH2. split; reflexivity.
Qed.

(** X13. The payload is never more than what was sent. Let [int] read
    the number [n] from Content-Length. When [n] is -1, or is from 0 up
    to what the process can allocate (and below [read_limit]), the read
    returns: the payload is a prefix of what the client sent after the
    headers, all of it for -1 and otherwise the first [n] bytes or all
    of it, whichever is shorter (on a live connection the handler waits
    for the missing bytes until the client closes), and what follows
    the payload is left unread. Every other [n] makes the read raise,
    with nothing read and no answer made: ValueError for [n] from
    -2 ^ 63 to -2, OverflowError for [n] below -2 ^ 63 or from
    [read_limit], which is 2 ^ 63 - 33, on, and MemoryError for any
    other size that cannot be allocated. *)
Theorem payload_is_never_more_than_sent (r : request) (w : world) (n : Z) :
  command r = POST ->
  content_length_of (parsed r) = Ok n ->
  let held := Z.of_nat (String.length (stream r)) in
  (n = -1 \/ 0 <= n <= held
   \/ (0 <= n < 2 ^ 63 - 33 /\ n <= held + Z.of_N (spare r)) ->
   exists raw rest,
     payload_of (parsed r) (connect r w) = Ok raw
     /\ stream r = (raw ++ rest)%string
     /\ rfile (snd (handle_request r w)) = rest
     /\ String.length raw
        = (if n =? -1 then String.length (stream r)
           else Nat.min (Z.to_nat n) (String.length (stream r)))
     /\ (n = -1 \/ held <= n -> raw = stream r /\ rest = ""%string))
  /\ (n < -1
      \/ (held < n /\ (2 ^ 63 - 33 <= n \/ held + Z.of_N (spare r) < n)) ->
      fst (handle_request r w)
      = {| outcome :=
             Raise (if n <? - 2 ^ 63 then OverflowError
                    else if n <? -1 then ValueError
                    else if 2 ^ 63 - 33 <=? n then OverflowError
                    else MemoryError);
           sent := [] |}
      /\ rfile (snd (handle_request r w)) = stream r).
Proof.
  intros Hp Hn held. split.
  - intros H.
    assert (R : readable n (stream r) (spare r) = true).
    { unfold readable, read_limit. cbv zeta. fold held.
      change (2 ^ 63 - 33) with 9223372036854775775 in *.
      destruct H as [->|[H|[H1 H2]]]; [reflexivity| |].
      - apply orb_true_iff. right. apply andb_true_iff. split.
        + apply Z.leb_le. lia.
        + apply orb_true_iff. left. apply Z.leb_le. lia.
      - apply orb_true_iff. right. apply andb_true_iff. split.
        + apply Z.leb_le. lia.
        + apply orb_true_iff. right. apply andb_true_iff. split.
          * apply Z.ltb_lt. lia.
          * apply Z.leb_le. lia. }
    exists (bytes_take (read_size n (stream r)) (stream r)),
           (bytes_drop (read_size n (stream r)) (stream r)).
    split.
    { unfold payload_of, read. rewrite Hn. cbn [connect rfile room].
      rewrite R. reflexivity. }
    split; [symmetry; apply bytes_take_drop|].
    split; [apply (handle_post_rfile r w n Hp Hn R)|].
    split.
    { rewrite length_bytes_take. unfold read_size.
      destruct (n =? -1); [apply Nat.min_id|].
      apply Nat.min_l, Nat.le_min_r. }
    intros A.
    assert (L : (String.length (stream r) <= read_size n (stream r))%nat).
    { unfold read_size. destruct (Z.eqb_spec n (-1)); [lia|].
      rewrite Nat.min_r; lia. }
    split; [apply bytes_take_all, L | apply bytes_drop_all, L].
  - intros H.
    assert (R : readable n (stream r) (spare r) = false).
    { unfold readable, read_limit. cbv zeta. fold held.
      change (2 ^ 63 - 33) with 9223372036854775775 in *.
      apply orb_false_iff. split; [apply Z.eqb_neq; lia|].
      destruct (Z.leb_spec 0 n) as [P|P]; [|reflexivity].
      cbn [andb]. apply orb_false_iff. split; [apply Z.leb_gt; lia|].
      apply andb_false_iff.
      destruct H as [H|[_ [H|H]]];
        [lia | left; apply Z.ltb_ge; lia | right; apply Z.leb_gt; lia]. }
    destruct (post_read_fails (parsed r) (connect r w) n Hn R)
      as ((F1 & _ & F3) & F4).
    unfold handle_request, dispatch. rewrite Hp.
    destruct (do_POST (parsed r) (connect r w)) as [res w1].
    cbn in F1, F3, F4. cbn [fst snd]. subst res. rewrite F3.
    split; [reflexivity | exact F4].
Qed.

(** Content-Length -1 and a body of five bytes: all five are read *)
Lemma payload_is_never_more_than_sent_witness :
  exists raw rest,
    payload_of (parsed sample_negative_length)
      (connect sample_negative_length initial_world) = Ok raw
    /\ stream sample_negative_length = (raw ++ rest)%string
    /\ rfile (snd (handle_request sample_negative_length initial_world)) = rest
    /\ String.length raw = 5%nat
    /\ (-1 = -1 \/ 5 <= -1 ->
        raw = stream sample_negative_length /\ rest = ""%string).
Proof.
  refine (proj1 (payload_is_never_more_than_sent sample_negative_length
                   initial_world (-1) _ _) _);
    [reflexivity | reflexivity | left; reflexivity].
Defined.

(** the read of line 22 on sample requests: the size -2, the size
    2 ^ 63, ten gibibytes where one is free, and 8 where 5 were sent *)
Example reads_of_sample_lengths :
  fst (handle_request sample_minus_two initial_world)
  = {| outcome := Raise ValueError; sent := [] |}
  /\ fst (handle_request sample_overlong_length initial_world)
     = {| outcome := Raise OverflowError; sent := [] |}
  /\ fst (handle_request sample_greedy_length initial_world)
     = {| outcome := Raise MemoryError; sent := [] |}
  /\ payload_of (parsed sample_short_body)
                (connect sample_short_body initial_world)
     = Ok "hello"%string.
Proof. repeat split; vm_compute; reflexivity. Qed.

(** X14. The line of the custom headers holds no control character.
    The [dict] is printed with [repr], which writes every character of
    a header name or value that is not printable as an escape: whatever
    bytes a client puts into an X-ESP32- header, the text after
    "ESP32 Custom Headers: " holds printable characters of Latin-1
    only, and so neither a line break nor an escape character. *)
Theorem custom_headers_line_is_printable (self : handler) :
  forallb printable_latin1 (repr_dict (esp32_headers_of (headers self))) = true
  /\ forall c, In c (repr_dict (esp32_headers_of (headers self))) ->
       (0x20 <= c <= 0x7E \/ 0xA1 <= c <= 0xFF)%N.
Proof.
  assert (P : forallb printable_latin1
                (repr_dict (esp32_headers_of (headers self))) = true).
  { unfold repr_dict. rewrite !forallb_app.
    change (forallb printable_latin1 (u "{")) with true.
    change (forallb printable_latin1 (u "}")) with true.
    rewrite andb_true_r. cbn [andb].
    apply str_join_printable; [reflexivity|].
    apply Forall_forall. intros x Hx. apply in_map_iff in Hx.
    destruct Hx as ([k v] & <- & _). cbn [fst snd].
    rewrite !forallb_app, !repr_str_printable. reflexivity. }
  split; [exact P|].
  intros c Hc. rewrite forallb_forall in P. specialize (P c Hc).
  unfold printable_latin1, in_range in P.
  apply orb_true_iff in P. destruct P as [P|P].
  - apply andb_true_iff in P. rewrite !N.leb_le in P. left. exact P.
  - apply andb_true_iff in P. destruct P as [P _].
    apply andb_true_iff in P. rewrite !N.leb_le in P. right. exact P.
Qed.

End Further.
